(** * patch_catss: a shallow embedding of the CATSS repair pipeline

    The development follows [patch_catss.py]: the function [patch] loads
    every [*.par] file into the dictionary [file2lines] (file name to list
    of lines), then runs four stages over it while appending to [log]:
    the manual edits, the position-checked block repairs, the orphaned-line
    scan and the bulk regex normalizations.

    Python values are modelled as follows.
    - [str] is [string]; a character is a code point below 256 (the CATSS
      files are ASCII transliterations).
    - [int] is [Z]; a loop counter that only counts upwards from 0 is [nat].
    - [list] is [list]; indexing is [py_get], with Python's negative
      indices and [IndexError].
    - [dict] keeps insertion order, so it is an association list with
      [dict_get] ([KeyError]) and [dict_set] (replace in place, else append).
    - an uncaught exception is [Raise e] in the [result] monad.
    - [print] (when [silent] is false) writes the same messages to the
      console as [report] appends to [log]; only [log] is modelled. *)

From Stdlib Require Import Ascii.
From stdpp Require Import base list strings pretty.
From Equations Require Import Equations.

(** ** Python runtime fragments *)

Inductive exn : Type :=
| KeyError
| IndexError
| AttributeError
| ReUnsupported. (* a pattern outside the regex fragment modelled below *)

Inductive result (A : Type) : Type :=
| Ok (a : A)
| Raise (e : exn).
Arguments Ok {A} a.
Arguments Raise {A} e.

#[global] Instance result_ret : MRet result := fun A a => Ok a.
#[global] Instance result_bind : MBind result := fun A B k m =>
  match m with
  | Ok a => k a
  | Raise e => Raise e
  end.

Module Py.

Definition TAB : ascii := "009"%char.
Definition NL : ascii := "010"%char.
Definition CR : ascii := "013"%char.
Definition DQUOTE : ascii := "034"%char.
Definition SQUOTE : ascii := "039"%char.
Definition BACKSLASH : ascii := "092"%char.

(** A one-character string. *)
Definition chr (c : ascii) : string := String c EmptyString.

(** [c in s] for a single character [c]. *)
Fixpoint str_in (c : ascii) (s : string) : bool :=
  match s with
  | EmptyString => false
  | String d s' => if decide (c = d) then true else str_in c s'
  end.

(** [s.startswith(p)]. *)
Fixpoint startswith (p s : string) : bool :=
  match p, s with
  | EmptyString, _ => true
  | String a p', String b s' => if decide (a = b) then startswith p' s' else false
  | String _ _, EmptyString => false
  end.

(** Truth value of a string: non-empty. *)
Definition truthy (s : string) : bool :=
  match s with
  | EmptyString => false
  | String _ _ => true
  end.

(** [a or b] on strings. *)
Definition str_or (a b : string) : string := if truthy a then a else b.

(** Position denoted by the index [i] in a sequence of [len] elements. *)
Definition norm_index (len : nat) (i : Z) : option nat :=
  let j := if bool_decide (i < 0)%Z then (i + Z.of_nat len)%Z else i in
  if bool_decide (0 ≤ j < Z.of_nat len)%Z then Some (Z.to_nat j) else None.

(** [l[i]]. *)
Definition py_get {A} (l : list A) (i : Z) : result A :=
  match norm_index (length l) i with
  | Some n =>
      match l !! n with
      | Some x => Ok x
      | None => Raise IndexError
      end
  | None => Raise IndexError
  end.

(** [l[i] = x]. *)
Definition py_set {A} (l : list A) (i : Z) (x : A) : result (list A) :=
  match norm_index (length l) i with
  | Some n => Ok (<[n:=x]> l)
  | None => Raise IndexError
  end.

(** Bound of a slice, clamped as Python does. *)
Definition slice_bound (len : nat) (i : Z) : nat :=
  Z.to_nat (if bool_decide (i < 0)%Z then (i + Z.of_nat len)%Z else i).

(** [l[:n]] and [l[n:]]. *)
Definition py_upto {A} (l : list A) (n : Z) : list A :=
  take (slice_bound (length l) n) l.
Definition py_from {A} (l : list A) (n : Z) : list A :=
  drop (slice_bound (length l) n) l.

(** [str(n)] for an integer. *)
Definition str_of_int (n : Z) : string := pretty n.

(** [str(v)] for a value that is [None] or a string. *)
Definition str_of_opt (v : option string) : string :=
  match v with
  | None => "None"
  | Some s => s
  end.

(** [repr(s)] for a string. *)
Definition hex_digit (n : N) : ascii :=
  match n with
  | 0 => "0" | 1 => "1" | 2 => "2" | 3 => "3" | 4 => "4" | 5 => "5"
  | 6 => "6" | 7 => "7" | 8 => "8" | 9 => "9" | 10 => "a" | 11 => "b"
  | 12 => "c" | 13 => "d" | 14 => "e" | _ => "f"
  end%N%char.

Definition printable (c : ascii) : bool :=
  let n := N_of_ascii c in
  negb (bool_decide (n < 32)%N || bool_decide (n = 127)%N
        || (bool_decide (128 ≤ n)%N && bool_decide (n ≤ 160)%N)
        || bool_decide (n = 173)%N).

Definition repr_char (quote c : ascii) : string :=
  if decide (c = quote) then String BACKSLASH (chr c)
  else if decide (c = BACKSLASH) then String BACKSLASH (chr c)
  else if decide (c = TAB) then String BACKSLASH "t"
  else if decide (c = NL) then String BACKSLASH "n"
  else if decide (c = CR) then String BACKSLASH "r"
  else if printable c then chr c
  else
    let n := N_of_ascii c in
    String BACKSLASH (String "x" (String (hex_digit (n / 16)) (chr (hex_digit (n mod 16))))).

Fixpoint repr_body (quote : ascii) (s : string) : string :=
  match s with
  | EmptyString => EmptyString
  | String c s' => repr_char quote c +:+ repr_body quote s'
  end.

Definition repr (s : string) : string :=
  let quote := if str_in SQUOTE s && negb (str_in DQUOTE s) then DQUOTE else SQUOTE in
  String quote (repr_body quote s +:+ chr quote).

(** Insertion-ordered dictionaries. *)
Definition dict (V : Type) : Type := list (string * V).

Fixpoint dict_get {V} (k : string) (d : dict V) : result V :=
  match d with
  | [] => Raise KeyError
  | (k', v) :: d' => if decide (k = k') then Ok v else dict_get k d'
  end.

Fixpoint dict_set {V} (k : string) (v : V) (d : dict V) : dict V :=
  match d with
  | [] => [(k, v)]
  | (k', v') :: d' =>
      if decide (k = k') then (k, v) :: d' else (k', v') :: dict_set k v d'
  end.

End Py.
Import Py.

(** ** The fragment of Python's [re] that the pipeline uses

    Every pattern in [patch_catss.py] is a sequence of one-character
    atoms: a literal character (possibly written with a backslash, as in
    [\.] or [\)]), the wildcard [.], a bracketed set of literal characters
    and a parenthesised group around a single atom.  The replacement
    templates are literal characters and [\g<n>] group references.
    [re_compile] and [compile_template] accept exactly this fragment and
    answer [Raise ReUnsupported] on anything else (quantifiers,
    alternation, anchors, ranges, special sequences, the empty pattern). *)

Module Re.

Inductive atom : Type :=
| Chr (c : ascii)
| Dot
| OneOf (cs : list ascii).

Inductive item : Type :=
| Plain (a : atom)
| Capture (a : atom).

Definition regex : Type := list item.

Definition atom_of (it : item) : atom :=
  match it with
  | Plain a => a
  | Capture a => a
  end.

Definition is_capture (it : item) : bool :=
  match it with
  | Plain _ => false
  | Capture _ => true
  end.

(** Number of groups of a compiled pattern. *)
Definition groups_of (r : regex) : nat := length (filter (fun it => is_capture it = true) r).

Definition is_digit (c : ascii) : bool :=
  let n := N_of_ascii c in bool_decide (48 ≤ n)%N && bool_decide (n ≤ 57)%N.

Definition is_letter (c : ascii) : bool :=
  let n := N_of_ascii c in
  (bool_decide (65 ≤ n)%N && bool_decide (n ≤ 90)%N)
  || (bool_decide (97 ≤ n)%N && bool_decide (n ≤ 122)%N).

Definition digit_value (c : ascii) : nat := N.to_nat (N_of_ascii c - 48).

(** *** Compiling a pattern *)

Inductive pstate : Type :=
| PTop                                 (* between two items *)
| PEsc (cap : bool)                    (* after a backslash *)
| PSet (cap : bool) (cs : list ascii)  (* inside a bracketed set *)
| PGroupOpen                           (* after an opening parenthesis *)
| PGroupClose (a : atom).              (* group atom read, closing parenthesis due *)

(** An atom is complete: emit it, or wait for the closing parenthesis. *)
Definition finish (cap : bool) (a : atom) : pstate * list item :=
  if cap then (PGroupClose a, []) else (PTop, [Plain a]).

(** Does a repetition count follow an opening brace? *)
Definition starts_repeat (s : string) : bool :=
  match s with
  | EmptyString => false
  | String d _ => is_digit d || bool_decide (d = ","%char)
  end.

Definition meta_top : list ascii := ["*"; "+"; "?"; "|"; "^"; "$"; ")"]%char.

Definition pstep (st : pstate) (c : ascii) (rest : string) : option (pstate * list item) :=
  match st with
  | PTop =>
      if decide (c = BACKSLASH) then Some (PEsc false, [])
      else if decide (c = "."%char) then Some (PTop, [Plain Dot])
      else if decide (c = "["%char) then Some (PSet false [], [])
      else if decide (c = "("%char) then Some (PGroupOpen, [])
      else if bool_decide (c ∈ meta_top) then None
      else if bool_decide (c = "{"%char) && starts_repeat rest then None
      else Some (PTop, [Plain (Chr c)])
  | PEsc cap =>
      if is_letter c || is_digit c then None
      else Some (finish cap (Chr c))
  | PSet cap cs =>
      if decide (c = "]"%char) then
        match cs with
        | [] => None
        | _ :: _ => Some (finish cap (OneOf cs))
        end
      else if bool_decide (c ∈ [BACKSLASH; "-"; "["]%char) then None
      else if bool_decide (c = "^"%char) && bool_decide (cs = []) then None
      else Some (PSet cap (cs ++ [c]), [])
  | PGroupOpen =>
      if decide (c = BACKSLASH) then Some (PEsc true, [])
      else if decide (c = "."%char) then Some (PGroupClose Dot, [])
      else if decide (c = "["%char) then Some (PSet true [], [])
      else if bool_decide (c ∈ "("%char :: "{"%char :: meta_top) then None
      else Some (PGroupClose (Chr c), [])
  | PGroupClose a =>
      if decide (c = ")"%char) then Some (PTop, [Capture a]) else None
  end.

Fixpoint parse (st : pstate) (acc : regex) (s : string) : result regex :=
  match s with
  | EmptyString =>
      match st, acc with
      | PTop, _ :: _ => Ok acc
      | _, _ => Raise ReUnsupported
      end
  | String c rest =>
      match pstep st c rest with
      | Some (st', items) => parse st' (acc ++ items) rest
      | None => Raise ReUnsupported
      end
  end.

(** [re.compile(pattern)]. *)
Definition re_compile (pattern : string) : result regex := parse PTop [] pattern.

(** *** Compiling a replacement template *)

Inductive tpart : Type :=
| TChr (c : ascii)
| TGroup (n : nat).

Definition template : Type := list tpart.

Inductive tstate : Type :=
| TTop
| TEsc            (* after a backslash *)
| TG              (* after backslash g *)
| TGOpen          (* after backslash g and the opening angle bracket *)
| TGNum (n : nat). (* reading the group number *)

Definition tstep (st : tstate) (c : ascii) : option (tstate * list tpart) :=
  match st with
  | TTop =>
      if decide (c = BACKSLASH) then Some (TEsc, []) else Some (TTop, [TChr c])
  | TEsc =>
      if decide (c = "g"%char) then Some (TG, [])
      else if decide (c = BACKSLASH) then Some (TTop, [TChr BACKSLASH])
      else None
  | TG => if decide (c = "<"%char) then Some (TGOpen, []) else None
  | TGOpen => if is_digit c then Some (TGNum (digit_value c), []) else None
  | TGNum n =>
      if decide (c = ">"%char) then Some (TTop, [TGroup n])
      else if is_digit c then Some (TGNum (10 * n + digit_value c), [])
      else None
  end.

Fixpoint parse_template (st : tstate) (acc : template) (s : string) : result template :=
  match s with
  | EmptyString =>
      match st with
      | TTop => Ok acc
      | _ => Raise ReUnsupported
      end
  | String c rest =>
      match tstep st c with
      | Some (st', parts) => parse_template st' (acc ++ parts) rest
      | None => Raise ReUnsupported
      end
  end.

Definition group_ref_ok (groups : nat) (p : tpart) : bool :=
  match p with
  | TChr _ => true
  | TGroup n => bool_decide (1 ≤ n ≤ groups)
  end.

(** The template of a replacement string for a pattern with [groups] groups. *)
Definition compile_template (groups : nat) (repl : string) : result template :=
  t ← parse_template TTop [] repl;
  if forallb (group_ref_ok groups) t then Ok t else Raise ReUnsupported.

(** *** Matching *)

Definition atom_ok (a : atom) (c : ascii) : bool :=
  match a with
  | Chr d => bool_decide (c = d)
  | Dot => negb (bool_decide (c = NL))
  | OneOf cs => bool_decide (c ∈ cs)
  end.

(** A match of [r] at the start of [s]: the text of each group, in order. *)
Fixpoint match_here (r : regex) (s : string) : option (list string) :=
  match r with
  | [] => Some []
  | it :: r' =>
      match s with
      | EmptyString => None
      | String c s' =>
          if atom_ok (atom_of it) c then
            caps ← match_here r' s';
            Some (if is_capture it then chr c :: caps else caps)
          else None
      end
  end.

Fixpoint str_take (n : nat) (s : string) : string :=
  match n, s with
  | S n', String c s' => String c (str_take n' s')
  | _, _ => EmptyString
  end.

Record rmatch : Type := { whole : string; groups : list string }.

(** The matches of [r] in [s], leftmost first and not overlapping.  After
    a match the scan resumes behind it: [skip] counts the characters of
    the current match still to be passed over. *)
Fixpoint finditer (r : regex) (skip : nat) (s : string) : list rmatch :=
  match s with
  | EmptyString => []
  | String _ s' =>
      match skip with
      | S k => finditer r k s'
      | 0 =>
          match match_here r s with
          | Some caps =>
              {| whole := str_take (length r) s; groups := caps |}
                :: finditer r (length r - 1) s'
          | None => finditer r 0 s'
          end
      end
  end.

(** [r.findall(s)]: one entry per match (from which Python builds the
    string or tuple it returns for that match). *)
Definition findall (r : regex) (s : string) : list rmatch := finditer r 0 s.

(** Truth value of a list. *)
Definition nonempty {A} (l : list A) : bool :=
  match l with
  | [] => false
  | _ :: _ => true
  end.

Fixpoint expand (t : template) (caps : list string) : string :=
  match t with
  | [] => EmptyString
  | TChr c :: t' => String c (expand t' caps)
  | TGroup n :: t' => default EmptyString (caps !! (n - 1)) +:+ expand t' caps
  end.

Fixpoint sub_go (r : regex) (t : template) (skip : nat) (s : string) : string :=
  match s with
  | EmptyString => EmptyString
  | String c s' =>
      match skip with
      | S k => sub_go r t k s'
      | 0 =>
          match match_here r s with
          | Some caps => expand t caps +:+ sub_go r t (length r - 1) s'
          | None => String c (sub_go r t 0 s')
          end
      end
  end.

(** [r.sub(repl, s)]. *)
Definition sub (r : regex) (repl : string) (s : string) : result string :=
  t ← compile_template (groups_of r) repl;
  Ok (sub_go r t 0 s).

(** [re.findall(pattern, s)]. *)
Definition re_findall (pattern s : string) : result (list rmatch) :=
  r ← re_compile pattern;
  Ok (findall r s).

End Re.
Import Re.

(** ** The pipeline of [patch] *)

Definition tab : string := chr TAB.
Definition nl : string := chr NL.

(** [report(msg)]: [log += msg + '\n']. *)
Definition report (msg log : string) : string := log +:+ msg +:+ nl.

(** The corpus: [file2lines]. *)
Abbreviation corpus := (dict (list string)).

(** *** Manual edits *)

(** An entry of [edits]: (file, line number, confirmation pattern, new line). *)
Definition edit : Type := string * Z * string * string.

(** The string literals below are the values of the Python literals: a
    backslash-t of the source is a tab, a doubled backslash is one
    backslash, and a backslash before any other character stays. *)
Definition edits : list edit :=
  [ ("06.JoshB.par", 983, "MRY KAI",
     "W/)T H/GRG$Y ^ =W/)T W/H/)MRY" +:+ tab +:+ " KAI\ TO\N AMORRAI=ON ");
    (EmptyString, 1366, "\.kb # KAI",
     "W/H/KHNYM =W/H/)BNYM .m .kb #" +:+ tab +:+ " KAI\ OI( LI/QOI ");
    (EmptyString, 3737, "12 E",
     "W/YC+YRW =;W/YC+YDW .rd <9.12>" +:+ tab +:+ " E)PESITI/SANTO {d} KAI\ H(TOIMA/SANTO");
    (EmptyString, 9517, "<19.49> E",
     "--+ '' =;L/GBWLWT/YHM <19.49>" +:+ tab +:+ " E)N TOI=S O(RI/OIS AU)TW=N ");
    (EmptyString, 2006, tab +:+ "<6.20>" +:+ tab,
     "-+ =;H/(YR/H <6.20>" +:+ tab +:+ "EI)S TH\N PO/LIN ");
    (EmptyString, 9515, tab +:+ "<19\.49>" +:+ tab,
     "--+ '' =;M/XLQ <19.49>" +:+ tab +:+ "DIAMERI/SAS ");
    ("01.Genesis.par", 9550, "--\+ ' ",
     "--+ '' =;W/BH <24.14>" +:+ tab +:+ "KAI\ E)N TOU/TW|");
    (EmptyString, 9552, "--\+ ' ",
     "--\+ '' =;KY <24.14>" +:+ tab +:+ "O(/TI");
    ("17.1Esdras.par", 477, "CC35\.24",
     "W/Y(BYR/HW" +:+ tab +:+ "KAI\ {..^A)PE/STHSAN AU)TO\N} [cc35.24]");
    ("27.Sirach.par", 4843, "{\.\.}",
     "[..]" +:+ tab +:+ "A)PO\");
    ("11.1Sam.par", 2096, "O" +:+ tab,
     "--+ '' =KPWT" +:+ tab +:+ "OI( KARPOI\");
    (EmptyString, 2097, "T" +:+ tab,
     "--+ '' =;YD/YW" +:+ tab +:+ "TW=N XEIRW=N AU)TOU=");
    ("13.1Kings.par", 15936, "EI\)S}" +:+ tab,
     "W/YBW)" +:+ tab +:+ "KAI\ EI)SH=LQEN {...EI)S}");
    ("26.Job.par", 2245, "OU\)}" +:+ tab,
     "W/L)" +:+ tab +:+ "{..^OU)}DE\");
    ("44.Ezekiel.par", 471, "OU=} MDBR",
     "MDBR =v" +:+ tab +:+ "{...?AU)TOU=} LALOU=NTOS") ]%Z.

(** [f'{(file, ln, re_confirm, redaction)}']. *)
Definition show_edit (file : string) (ln : Z) (re_confirm redaction : string) : string :=
  "(" +:+ repr file +:+ ", " +:+ str_of_int ln +:+ ", " +:+ repr re_confirm
      +:+ ", " +:+ repr redaction +:+ ")".

Definition unconfirmed_warning : string :=
  "**WARNING: THE FOLLOWING EDIT WAS NOT CONFIRMED**:".

(** The loop [for edit in edits]; [file] is the file name in force. *)
Fixpoint apply_edits (edits : list edit) (file : string) (file2lines : corpus)
    (log : string) : result (corpus * string) :=
  match edits with
  | [] => Ok (file2lines, log)
  | (f, ln, re_confirm, redaction) :: edits' =>
      let file := str_or f file in
      lines ← dict_get file file2lines;
      old_line ← py_get lines ln;
      found ← re_findall re_confirm old_line;
      if nonempty found then
        lines' ← py_set lines ln redaction;
        let file2lines := dict_set file lines' file2lines in
        let log := report ("correction for " +:+ file +:+ " line " +:+ str_of_int ln +:+ ":") log in
        let log := report (tab +:+ "OLD: " +:+ old_line) log in
        let log := report (tab +:+ "NEW: " +:+ redaction) log in
        apply_edits edits' file file2lines log
      else
        let log := report unconfirmed_warning log in
        let log := report (tab +:+ "OLD: " +:+ old_line) log in
        let log := report (tab +:+ "EDIT: " +:+ show_edit file ln re_confirm redaction) log in
        apply_edits edits' file file2lines log
  end.

(** *** Position-checked block repairs *)

Definition exodus_warning : string :=
  "**WARNING: SKIPPING EXODUS CORRUPTION REPAIR DUE TO CHANGED LINE NUMBERS; see code".
Definition psalms_warning : string :=
  "**WARNING: SKIPPING PSALMS ORPHAN REPAIR DUE TO CHANGED LINE NUMBERS; see code".
Definition psalms_warning_2 : string :=
  "**WARNING: SKIPPING PSALMS ORPHAN REPAIR #2 DUE TO CHANGED LINE NUMBERS; see code".

(** The Exod 35:19 block; [exod] is the list read from [file2lines]. *)
Definition repair_exodus (file2lines : corpus) (log : string) : result (corpus * string) :=
  exod ← dict_get "02.Exodus.par" file2lines;
  anchor ← py_get exod 16284;
  if decide (anchor = "Exod 1:10") then
    let log := report "patching corrupt lines 16283-16289 in 02.Exodus.par..." log in
    kept ← py_get exod 16285;
    let fixed_lines := py_upto exod 16283 ++ [kept] ++ py_from exod 16288 in
    let file2lines := dict_set "02.Exodus.par" fixed_lines file2lines in
    Ok (file2lines, report (tab +:+ "done") log)
  else
    Ok (file2lines, report exodus_warning log).

(** The Ps 68:31 double orphan.  [pss] is the list object bound by
    [pss = file2lines['20.Psalms.par']] before this repair. *)
Definition repair_ps_68_31 (pss : list string) (file2lines : corpus) (log : string)
    : result (corpus * string) :=
  anchor ← py_get pss 10848;
  if decide (anchor = "MTR") then
    let log :=
      report "patching double-orphaned lines in lines 10849-10851 of 20.Psalms.par (Ps 68:31)" log in
    l0 ← py_get pss 10848;
    l1 ← py_get pss 10849;
    l2 ← py_get pss 10850;
    let ps68_31_patch := [l0 +:+ l1 +:+ l2] in
    let file2lines :=
      dict_set "20.Psalms.par" (py_upto pss 10848 ++ ps68_31_patch ++ py_from pss 10851) file2lines in
    Ok (file2lines, report (tab +:+ "done") log)
  else
    Ok (file2lines, report psalms_warning log).

(** The Ps 18:40 block.  [pss] is still the list object bound before the
    Ps 68:31 repair: the source reads the variable [pss] again and does
    not read [file2lines] again. *)
Definition repair_ps_18_40 (pss : list string) (file2lines : corpus) (log : string)
    : result (corpus * string) :=
  anchor ← py_get pss 2459;
  if decide (anchor = "Ps 18:40") then
    let log := report "patching corrupt lines 2457-2461 in 20.Psalms.par..." log in
    kept ← py_get pss 2457;
    let fixed_lines := py_upto pss 2456 ++ [kept] ++ py_from pss 2460 in
    let file2lines := dict_set "20.Psalms.par" fixed_lines file2lines in
    Ok (file2lines, report (tab +:+ "done") log)
  else
    Ok (file2lines, report psalms_warning_2 log).

(** The two Psalms repairs, sharing the one binding of [pss]. *)
Definition repair_psalms (file2lines : corpus) (log : string) : result (corpus * string) :=
  pss ← dict_get "20.Psalms.par" file2lines;
  '(file2lines, log) ← repair_ps_68_31 pss file2lines log;
  repair_ps_18_40 pss file2lines log.

Definition other_edits (file2lines : corpus) (log : string) : result (corpus * string) :=
  '(file2lines, log) ← repair_exodus file2lines log;
  repair_psalms file2lines log.

Section Patch.

(** [ref_string.match(line)] as a truth value.  [ref_string] is imported
    from [regex_patterns], which is not part of the sources at hand, so it
    is a parameter of everything that uses it. *)
Variable ref_match : string → bool.

(** *** Orphaned lines *)

(** [line and '\t' not in line]. *)
Definition lacks_tab (line : string) : bool := truthy line && negb (str_in TAB line).

(** An orphan in the sense of the scan: not a reference line, non-empty
    and without a tab. *)
Definition is_orphan (line : string) : bool := negb (ref_match line) && lacks_tab line.

(** The verse context after a line that is not an orphan, and after a
    stretch of such lines. *)
Definition track (cv : option string) (line : string) : option string :=
  if ref_match line then Some line else cv.

Definition context_after (cv : option string) (lines : list string) : option string :=
  foldl track cv lines.

(** A line that is neither a reference line nor an orphan. *)
Definition is_plain (line : string) : bool := negb (ref_match line) && negb (lacks_tab line).

(** The [show] string and the message of the orphan report. *)
Definition orphan_show (prev line next : string) : string :=
  nl +:+ tab +:+ tab +:+ prev +:+ nl +:+ tab +:+ "--> " +:+ line +:+ nl +:+ tab +:+ tab +:+ next.

Definition orphan_message (file : string) (i : nat) (current_verse : option string)
    (show : string) : string :=
  tab +:+ "patching " +:+ file +:+ " at line " +:+ str_of_int (Z.of_nat i) +:+ ", "
      +:+ str_of_opt current_verse +:+ ":" +:+ show.

(** The loop [while i < len(lines)] over one file. *)
Equations? scan_lines (file : string) (lines : list string) (i : nat)
    (filtered_lines : list string) (current_verse : option string) (log : string)
    : result (list string * option string * string)
    by wf (length lines - i) lt :=
scan_lines file lines i filtered_lines current_verse log with decide (i < length lines) := {
  | right _ => Ok (filtered_lines, current_verse, log)
  | left _ =>
      line ← py_get lines (Z.of_nat i);
      if ref_match line then
        scan_lines file lines (i + 1) (filtered_lines ++ [line]) (Some line) log
      else if lacks_tab line then
        prev ← py_get lines (Z.of_nat i - 1);
        next ← py_get lines (Z.of_nat i + 1);
        let log := report (orphan_message file i current_verse (orphan_show prev line next)) log in
        match current_verse with
        | None => Raise AttributeError
        | Some verse =>
            if startswith "Ps" verse then
              next ← py_get lines (Z.of_nat i + 1);
              scan_lines file lines (i + 1 + 1) (filtered_lines ++ [line +:+ next])
                         current_verse log
            else
              last ← py_get filtered_lines (-1);
              filtered_lines ← py_set filtered_lines (-1) (last +:+ line);
              scan_lines file lines (i + 1) filtered_lines current_verse log
        end
      else
        scan_lines file lines (i + 1) (filtered_lines ++ [line]) current_verse log }.
Proof. all: lia. Qed.

(** The loop [for file, lines in file2lines.items()] of the orphan stage.
    [items] are the entries still to visit; an entry is only replaced
    while it is the current one, so the values seen are those of the
    dictionary at the start of the stage. *)
Fixpoint orphan_files (items : list (string * list string)) (file2lines : corpus)
    (current_verse : option string) (log : string)
    : result (corpus * option string * string) :=
  match items with
  | [] => Ok (file2lines, current_verse, log)
  | (file, lines) :: items' =>
      '(filtered_lines, current_verse, log) ← scan_lines file lines 0 [] current_verse log;
      orphan_files items' (dict_set file filtered_lines file2lines) current_verse log
  end.

Definition patch_orphans (file2lines : corpus) (log : string) : result (corpus * string) :=
  let log := report "patching orphaned lines (see code for description)..." log in
  '(file2lines, _, log) ← orphan_files file2lines file2lines None log;
  Ok (file2lines, report (tab +:+ "done") log).

(** *** Bulk normalizations *)

Definition normalizations : list (string * string) :=
  [ ("~", "^");
    ("(['^])=", "\g<1> =") ].

(** The loop [for i, line in enumerate(lines)] for one compiled pattern. *)
Fixpoint normalize_lines (search : regex) (replace file : string)
    (lines new_lines : list string) (curr_verse log : string)
    : result (list string * string) :=
  match lines with
  | [] => Ok (new_lines, log)
  | line :: lines' =>
      let '(curr_verse, new_lines) :=
        if ref_match line then (line, new_lines ++ [line]) else (curr_verse, new_lines) in
      if nonempty (findall search line) then
        redaction ← sub search replace line;
        let new_lines := new_lines ++ [redaction] in
        let log := report ("normalization in " +:+ file +:+ " in " +:+ curr_verse +:+ ":") log in
        let log := report (tab +:+ "OLD: " +:+ line) log in
        let log := report (tab +:+ "NEW: " +:+ redaction) log in
        normalize_lines search replace file lines' new_lines curr_verse log
      else
        normalize_lines search replace file lines' (new_lines ++ [line]) curr_verse log
  end.

(** The loop over the files for one pattern. *)
Fixpoint normalize_files (search : regex) (replace : string)
    (items : list (string * list string)) (file2lines : corpus) (log : string)
    : result (corpus * string) :=
  match items with
  | [] => Ok (file2lines, log)
  | (file, lines) :: items' =>
      '(new_lines, log) ← normalize_lines search replace file lines [] EmptyString log;
      normalize_files search replace items' (dict_set file new_lines file2lines) log
  end.

(** The loop [for search, replace in normalizations]. *)
Fixpoint normalize_all (normalizations : list (string * string)) (file2lines : corpus)
    (log : string) : result (corpus * string) :=
  match normalizations with
  | [] => Ok (file2lines, log)
  | (search, replace) :: rest =>
      search ← re_compile search;
      '(file2lines, log) ← normalize_files search replace file2lines file2lines log;
      normalize_all rest file2lines log
  end.

Definition bulk_normalize (file2lines : corpus) (log : string) : result (corpus * string) :=
  let log := report (nl +:+ "Making various bulk regex normalizations..." +:+ nl) log in
  normalize_all normalizations file2lines log.

(** *** The whole of [patch]

    [now] is the text of [datetime.now()], [file2lines] the dictionary read
    from the [*.par] files of [data_dir].  The result is the dictionary
    written to [output_dir] and the text written to [log.txt]. *)
Definition patch (now output_dir : string) (file2lines : corpus) : result (corpus * string) :=
  let log := EmptyString +:+ now +:+ nl in
  let log := report (nl +:+ "applying bulk manual edits..." +:+ nl) log in
  '(file2lines, log) ← apply_edits edits EmptyString file2lines log;
  '(file2lines, log) ← other_edits file2lines log;
  '(file2lines, log) ← patch_orphans file2lines log;
  '(file2lines, log) ← bulk_normalize file2lines log;
  let log := report ("writing patched data to " +:+ output_dir) log in
  Ok (file2lines, log).

End Patch.

(** ** A reference pattern for running the pipeline on examples *)

(** Modelled from the spec: [ref_string] of [regex_patterns.py], which is
    missing from the sources.  The spec calls it a fixed line-start pattern
    recognising book/chapter/verse citations such as Ps 18:40 and
    Exod 1:10: a book name of letters and digits, one space, the chapter
    in digits, a colon and the verse in digits, at the start of the line.
    Only the examples use it; the theorems hold for every [ref_match]. *)
Inductive ref_state : Type :=
| RBook0      (* at the start: the book name is due *)
| RBook       (* inside the book name *)
| RChapter0   (* after the space: the chapter is due *)
| RChapter    (* inside the chapter number *)
| RVerse0.    (* after the colon: the verse is due *)

Fixpoint ref_scan (st : ref_state) (s : string) : bool :=
  match s with
  | EmptyString => false
  | String c s' =>
      match st with
      | RBook0 => (is_letter c || is_digit c) && ref_scan RBook s'
      | RBook =>
          if is_letter c || is_digit c then ref_scan RBook s'
          else bool_decide (c = " "%char) && ref_scan RChapter0 s'
      | RChapter0 => is_digit c && ref_scan RChapter s'
      | RChapter =>
          if is_digit c then ref_scan RChapter s'
          else bool_decide (c = ":"%char) && ref_scan RVerse0 s'
      | RVerse0 => is_digit c
      end
  end.

Definition ref_string_match (line : string) : bool := ref_scan RBook0 line.

(** ** Patterns and data used in the statements *)

(** The two normalization patterns and their templates, compiled. *)
Definition r_tilde : regex := [Plain (Chr "~")].
Definition t_tilde : template := [TChr "^"].
Definition fused_set : list ascii := ["'"; "^"]%char.
Definition r_fused : regex := [Capture (OneOf fused_set); Plain (Chr "=")].
Definition t_fused : template := [TGroup 1; TChr " "; TChr "="].

(** Does the string start with an equals sign? *)
Definition starts_with_equals (s : string) : bool :=
  match s with
  | EmptyString => false
  | String d _ => bool_decide (d = "="%char)
  end.

Definition str_head (s : string) : option ascii :=
  match s with
  | EmptyString => None
  | String c _ => Some c
  end.

(** A line on which neither normalization has anything left to do. *)
Definition normalized (line : string) : Prop :=
  findall r_tilde line = [] ∧ findall r_fused line = [].

(** A Psalms file and an Exodus file for the examples: empty lines except
    for the anchors and the double orphan of Ps 68:31. *)
Definition psalms_example : list string :=
  replicate (Z.to_nat 2459) EmptyString ++ ["Ps 18:40"]
    ++ replicate (Z.to_nat 8388) EmptyString ++ ["MTR"; "I"; "M" +:+ tab +:+ "E)K"].

Definition psalms_shifted : list string := EmptyString :: psalms_example.

Definition exodus_shifted : list string :=
  replicate (Z.to_nat 16284) EmptyString ++ ["Exod 35:19"].

(** ** Reading and writing the files *)

(** [text.split(sep)] for a one-character separator. *)
Fixpoint str_split (sep : ascii) (text : string) : list string :=
  match text with
  | EmptyString => [EmptyString]
  | String c text' =>
      if decide (c = sep) then EmptyString :: str_split sep text'
      else
        match str_split sep text' with
        | [] => [chr c]
        | field :: fields => String c field :: fields
        end
  end.

(** [sep.join(lines)]. *)
Fixpoint str_join (sep : string) (lines : list string) : string :=
  match lines with
  | [] => EmptyString
  | line :: lines' =>
      match lines' with
      | [] => line
      | _ :: _ => line +:+ sep +:+ str_join sep lines'
      end
  end.

(** The loop [for file in data.glob('*.par')]: [files] are the names and
    the texts of the files in the order of the directory listing. *)
Fixpoint load_files (files : list (string * string)) (file2lines : corpus) : corpus :=
  match files with
  | [] => file2lines
  | (name, text) :: files' => load_files files' (dict_set name (str_split NL text) file2lines)
  end.

(** The loop that writes the files: the name and the text of each. *)
Definition export_files (file2lines : corpus) : list (string * string) :=
  map (fun fl : string * list string => (fl.1, str_join nl fl.2)) file2lines.

(** [patch] from the texts read to the texts written and the text of
    [log.txt]. *)
Definition patch_files (ref_match : string → bool) (now output_dir : string)
    (files : list (string * string)) : result (list (string * string) * string) :=
  '(file2lines, log) ← patch ref_match now output_dir (load_files files []);
  Ok (export_files file2lines, log).

(** ** Auxiliary notions for the statements about the stages *)

(** The value of the variable [file] after the loop over [edits]. *)
Definition file_in_force (edits : list edit) (file : string) : string :=
  foldl (fun file (e : edit) => str_or e.1.1.1 file) file edits.

(** No edit of the list is confirmed on this corpus: every targeted line
    exists and its pattern finds nothing in it. *)
Fixpoint edits_stale (edits : list edit) (file : string) (file2lines : corpus) : bool :=
  match edits with
  | [] => true
  | (f, ln, re_confirm, _) :: edits' =>
      let file := str_or f file in
      match dict_get file file2lines with
      | Ok lines =>
          match py_get lines ln with
          | Ok old_line =>
              match re_findall re_confirm old_line with
              | Ok [] => edits_stale edits' file file2lines
              | _ => false
              end
          | Raise _ => false
          end
      | Raise _ => false
      end
  end.

(** The anchor line at [i] exists and differs from [expected]. *)
Definition anchor_differs (lines : list string) (i : Z) (expected : string) : bool :=
  match py_get lines i with
  | Ok anchor => bool_decide (anchor ≠ expected)
  | Raise _ => false
  end.

(** The three anchors of the block repairs are there and all differ. *)
Definition anchors_stale (file2lines : corpus) : bool :=
  match dict_get "02.Exodus.par" file2lines, dict_get "20.Psalms.par" file2lines with
  | Ok exod, Ok pss =>
      anchor_differs exod 16284 "Exod 1:10" && anchor_differs pss 10848 "MTR"
      && anchor_differs pss 2459 "Ps 18:40"
  | _, _ => false
  end.

(** The log [log'] is [log] with more text behind it. *)
Definition log_extends (log log' : string) : Prop := ∃ more, log' = log +:+ more.

(** Two corpora with the same file names in the same order, and with the
    same number of lines in each file. *)
Definition same_shape (file2lines file2lines' : corpus) : Prop :=
  Forall2 (fun fl fl' : string * list string => fl.1 = fl'.1 ∧ length fl.2 = length fl'.2)
          file2lines file2lines'.

(** All the lines of a file, one after the other without line breaks. *)
Definition str_concat (lines : list string) : string := foldr String.app EmptyString lines.

(** A string, character by character. *)
Fixpoint str_map (f : ascii → ascii) (s : string) : string :=
  match s with
  | EmptyString => EmptyString
  | String c s' => String (f c) (str_map f s')
  end.

(** What one pass of the normalizer emits for one line. *)
Definition pass_line (ref_match : string → bool) (r : regex) (t : template) (line : string)
    : list string :=
  (if ref_match line then [line] else [])
    ++ [if nonempty (findall r line) then sub_go r t 0 line else line].

(** The two normalizations as functions on a line: every tilde becomes a
    caret; an equals sign that directly follows an apostrophe or a caret
    gets one space before it. *)
Definition tilde_to_caret (c : ascii) : ascii :=
  if decide (c = "~"%char) then "^"%char else c.

Fixpoint space_fused (s : string) : string :=
  match s with
  | EmptyString => EmptyString
  | String c s' =>
      if bool_decide (c ∈ fused_set) && starts_with_equals s'
      then String c (String " " (space_fused s'))
      else String c (space_fused s')
  end.

(** What holds of a run of the orphan scan from position [i] with the
    lines [filtered] already emitted: the log only grows, the text emitted
    is the text read, no line is added, the verse context is the old one or
    a reference line of the file; the scan raises nothing but IndexError
    and, without a verse context, AttributeError. *)
Definition scan_post (ref_match : string → bool) (lines : list string) (i : nat)
    (filtered : list string) (cv : option string) (log : string)
    (r : result (list string * option string * string)) : Prop :=
  match r with
  | Ok (out, cv', log') =>
      log_extends log log'
      ∧ str_concat out = str_concat filtered +:+ str_concat (drop i lines)
      ∧ length out ≤ length filtered + (length lines - i)
      ∧ (cv' = cv ∨ ∃ line, line ∈ lines ∧ ref_match line = true ∧ cv' = Some line)
  | Raise e => e = IndexError ∨ (e = AttributeError ∧ cv = None)
  end.

(** The file and the line number each edit of a list looks up, in the
    order of the list. *)
Fixpoint edit_targets (edits : list edit) (file : string) : list (string * Z) :=
  match edits with
  | [] => []
  | (f, ln, _, _) :: edits' =>
      let file := str_or f file in (file, ln) :: edit_targets edits' file
  end.

(** The lines the block repairs compare with their anchors. *)
Definition anchor_targets : list (string * Z) :=
  [ ("02.Exodus.par", 16284); ("20.Psalms.par", 10848); ("20.Psalms.par", 2459) ]%Z.

(** The two passes of the normalizer on the lines of one file. *)
Definition normalize_file (ref_match : string → bool) (lines : list string) : list string :=
  concat (map (pass_line ref_match r_fused t_fused)
              (concat (map (pass_line ref_match r_tilde t_tilde) lines))).

(** The same function on the lines of every file. *)
Definition on_files (f : list string → list string) (file2lines : corpus) : corpus :=
  map (fun fl : string * list string => (fl.1, f fl.2)) file2lines.

(** [n] empty lines. *)
Definition blank (n : Z) : list string := replicate (Z.to_nat n) EmptyString.

(** A corpus on which the whole of [patch] runs: every file the manual
    edits and the block repairs look into, long enough for them, with a
    heading and a record at the top and empty lines below. *)
Definition book (heading : string) (n : Z) : list string :=
  heading :: ("W/" +:+ tab +:+ "KAI\ ~") :: blank n.

Definition corpus_example : corpus :=
  [ ("01.Genesis.par", book "Gen 1:1" 9553);
    ("02.Exodus.par", book "Exod 1:1" 16285);
    ("06.JoshB.par", book "JoshB 1:1" 9518);
    ("11.1Sam.par", book "1Sam 1:1" 2098);
    ("13.1Kings.par", book "1Kgs 1:1" 15937);
    ("17.1Esdras.par", book "1Esdr 1:1" 478);
    ("20.Psalms.par", book "Ps 1:1" 10851);
    ("26.Job.par", book "Job 1:1" 2246);
    ("27.Sirach.par", book "Sir 1:1" 4844);
    ("44.Ezekiel.par", book "Ezek 1:1" 472) ].



(** * Examples and theorems *)

(** ** The runtime fragments on examples *)

Example repr_plain : repr "MRY KAI" = "'MRY KAI'".
Proof. reflexivity. Qed.

Example repr_tab_backslash :
  repr ("a" +:+ chr TAB +:+ "b\c") = "'a\tb\\c'".
Proof. reflexivity. Qed.

Example repr_quote_switch :
  repr "--+ ' " = String DQUOTE ("--+ ' " +:+ chr DQUOTE).
Proof. reflexivity. Qed.

Example py_get_negative : py_get ["a"; "b"; "c"] (-1) = Ok "c".
Proof. reflexivity. Qed.

Example py_get_out_of_range : py_get ["a"; "b"; "c"] 3 = Raise IndexError.
Proof. reflexivity. Qed.

Example str_of_int_ex : str_of_int 16283 = "16283".
Proof. reflexivity. Qed.

Example compile_tilde : re_compile "~" = Ok [Plain (Chr "~")].
Proof. reflexivity. Qed.

Example compile_fused_equals :
  re_compile "(['^])=" = Ok [Capture (OneOf ["'"; "^"]%char); Plain (Chr "=")].
Proof. reflexivity. Qed.

Example compile_escaped_dot :
  re_compile "CC35\.24" = Ok (map (fun c => Plain (Chr c)) (String.list_ascii_of_string "CC35.24")).
Proof. reflexivity. Qed.

Example compile_wildcard :
  re_compile "<6.20>" =
  Ok [Plain (Chr "<"); Plain (Chr "6"); Plain Dot; Plain (Chr "2"); Plain (Chr "0"); Plain (Chr ">")].
Proof. reflexivity. Qed.

Example compile_brace_literal : re_compile "{\.\.}" =
  Ok [Plain (Chr "{"); Plain (Chr "."); Plain (Chr "."); Plain (Chr "}")].
Proof. reflexivity. Qed.

Example compile_quantifier_unsupported : re_compile "a+" = Raise ReUnsupported.
Proof. reflexivity. Qed.

Example sub_tilde : (r ← re_compile "~"; sub r "^" "W~X~") = Ok "W^X^".
Proof. reflexivity. Qed.

Example sub_fused_equals :
  (r ← re_compile "(['^])="; sub r "\g<1> =" "A'=B ^=C =D") = Ok "A' =B ^ =C =D".
Proof. reflexivity. Qed.

Example findall_none : re_findall "12 E" "<9.12>" = Ok [].
Proof. reflexivity. Qed.

Example ref_string_examples :
  map ref_string_match
      ["Ps 18:40"; "Exod 1:10"; "Gen 1:1"; "Ps 68:31"; "MTR"; "TAIL"; "continued text";
       EmptyString; "some base" +:+ tab +:+ "GK"]
  = [true; true; true; true; false; false; false; false; false].
Proof. reflexivity. Qed.

Example edits_patterns_compile :
  forallb (fun e : edit =>
             match re_compile e.1.2 with
             | Ok _ => true
             | Raise _ => false
             end) edits = true.
Proof. reflexivity. Qed.

(** ** Basic facts about the runtime fragments *)

Lemma norm_index_nonneg (len : nat) (i : Z) :
  (0 ≤ i)%Z →
  norm_index len i = if bool_decide (i < Z.of_nat len)%Z then Some (Z.to_nat i) else None.
Proof.
  intros Hi. unfold norm_index. cbv zeta.
  rewrite (bool_decide_eq_false_2 (i < 0)%Z) by lia.
  destruct (decide (i < Z.of_nat len)%Z) as [Hlt | Hge].
  - rewrite !bool_decide_eq_true_2; [done | lia | lia].
  - rewrite !bool_decide_eq_false_2; [done | lia | lia].
Qed.

Lemma norm_index_neg (len : nat) (i : Z) :
  (i < 0)%Z →
  norm_index len i =
  if bool_decide (0 ≤ i + Z.of_nat len)%Z then Some (Z.to_nat (i + Z.of_nat len)) else None.
Proof.
  intros Hi. unfold norm_index. cbv zeta.
  rewrite (bool_decide_eq_true_2 (i < 0)%Z) by lia.
  destruct (decide (0 ≤ i + Z.of_nat len)%Z) as [Hle | Hgt].
  - rewrite !bool_decide_eq_true_2; [done | lia | lia].
  - rewrite !bool_decide_eq_false_2; [done | lia | lia].
Qed.

Lemma py_get_nat {A} (l : list A) (i : nat) :
  py_get l (Z.of_nat i) =
  match l !! i with
  | Some x => Ok x
  | None => Raise IndexError
  end.
Proof.
  unfold py_get. rewrite norm_index_nonneg by lia.
  case_bool_decide as Hi.
  - by rewrite Nat2Z.id.
  - rewrite lookup_ge_None_2; [done | lia].
Qed.

Lemma py_get_succ {A} (l : list A) (i : nat) :
  py_get l (Z.of_nat i + 1) =
  match l !! (i + 1) with
  | Some x => Ok x
  | None => Raise IndexError
  end.
Proof. replace (Z.of_nat i + 1)%Z with (Z.of_nat (i + 1)) by lia. apply py_get_nat. Qed.

(** [lines[i-1]] never fails inside the loop: for [i = 0] it is the last line. *)
Lemma py_get_pred_ok {A} (l : list A) (i : nat) :
  i < length l → ∃ prev, py_get l (Z.of_nat i - 1) = Ok prev.
Proof.
  intros Hi. unfold py_get.
  destruct (decide (i = 0)) as [-> | Hpos].
  - rewrite norm_index_neg by lia. rewrite bool_decide_eq_true_2 by lia.
    destruct (lookup_lt_is_Some_2 l (Z.to_nat (Z.of_nat 0 - 1 + Z.of_nat (length l)))) as [x Hx];
      [lia |]. rewrite Hx. eauto.
  - rewrite norm_index_nonneg by lia. rewrite bool_decide_eq_true_2 by lia.
    destruct (lookup_lt_is_Some_2 l (Z.to_nat (Z.of_nat i - 1))) as [x Hx]; [lia |].
    rewrite Hx. eauto.
Qed.

Lemma py_get_last {A} (l : list A) (x : A) : py_get (l ++ [x]) (-1) = Ok x.
Proof.
  unfold py_get. rewrite norm_index_neg by lia. rewrite length_app. simpl length.
  rewrite bool_decide_eq_true_2 by lia.
  replace (Z.to_nat (-1 + Z.of_nat (length l + 1))) with (length l + 0) by lia.
  rewrite lookup_app_r by lia.
  by replace (length l + 0 - length l) with 0 by lia.
Qed.

Lemma py_set_last {A} (l : list A) (x y : A) : py_set (l ++ [x]) (-1) y = Ok (l ++ [y]).
Proof.
  unfold py_set. rewrite norm_index_neg by lia. rewrite length_app. simpl length.
  rewrite bool_decide_eq_true_2 by lia.
  replace (Z.to_nat (-1 + Z.of_nat (length l + 1))) with (length l + 0) by lia.
  by rewrite insert_app_r.
Qed.

Lemma py_get_nil {A} (i : Z) : py_get (@nil A) i = Raise IndexError.
Proof.
  unfold py_get. destruct (decide (i < 0)%Z).
  - rewrite norm_index_neg by lia. simpl length. by rewrite bool_decide_eq_false_2 by lia.
  - rewrite norm_index_nonneg by lia. simpl length. by rewrite bool_decide_eq_false_2 by lia.
Qed.

Lemma py_get_Ok_lt {A} (l : list A) (i : Z) (x : A) :
  (0 ≤ i)%Z → py_get l i = Ok x → l !! Z.to_nat i = Some x ∧ Z.to_nat i < length l.
Proof.
  intros Hi. unfold py_get. rewrite norm_index_nonneg by lia.
  case_bool_decide; [| done].
  destruct (l !! Z.to_nat i) eqn:E; [| done].
  intros [= ->]. split; [done |]. by apply lookup_lt_Some in E.
Qed.

Lemma dict_get_set {V} (k : string) (v : V) (d : dict V) :
  dict_get k (dict_set k v d) = Ok v.
Proof.
  induction d as [| [k' v'] d IH]; simpl.
  - by rewrite decide_True.
  - destruct (decide (k = k')) as [-> | Hne]; simpl.
    + by rewrite decide_True.
    + by rewrite decide_False.
Qed.

Lemma dict_get_set_ne {V} (k k' : string) (v : V) (d : dict V) :
  k ≠ k' → dict_get k' (dict_set k v d) = dict_get k' d.
Proof.
  intros Hne. induction d as [| [k0 v0] d IH]; simpl.
  - by rewrite decide_False.
  - destruct (decide (k = k0)) as [-> | Hne0]; simpl.
    + by rewrite !decide_False.
    + destruct (decide (k' = k0)); [done | apply IH].
Qed.

(** A second assignment to a key overwrites the first. *)
Lemma dict_set_set {V} (k : string) (v1 v2 : V) (d : dict V) :
  dict_set k v2 (dict_set k v1 d) = dict_set k v2 d.
Proof.
  induction d as [| [k' v'] d IH]; simpl.
  - by rewrite decide_True.
  - destruct (decide (k = k')) as [-> | Hne]; simpl.
    + by rewrite decide_True.
    + rewrite decide_False by done. by rewrite IH.
Qed.

(** Assigning to the key of an entry whose key does not occur before it
    replaces that entry where it stands. *)
Lemma dict_set_middle {V} (k : string) (v0 v : V) (pre post : dict V) :
  k ∉ pre.*1 → dict_set k v (pre ++ (k, v0) :: post) = pre ++ (k, v) :: post.
Proof.
  induction pre as [| [k' v'] pre IH]; simpl; intros Hk.
  - by rewrite decide_True.
  - apply not_elem_of_cons in Hk as [Hne Hk].
    rewrite decide_False by done. by rewrite IH.
Qed.

Lemma report_app (msg log : string) : report msg log = log +:+ msg +:+ nl.
Proof. reflexivity. Qed.

Lemma result_bind_Ok {A B} (a : A) (k : A → result B) : (Ok a ≫= k) = k a.
Proof. reflexivity. Qed.

(** ** The orphan scan, one iteration at a time *)

#[global] Arguments startswith : simpl never.
#[global] Arguments report : simpl never.
#[global] Arguments orphan_message : simpl never.

Section ScanSteps.

Variable ref_match : string → bool.

#[local] Abbreviation scan := (scan_lines ref_match).

(** Leaving the loop: [i] is no longer below [len(lines)]. *)
Lemma scan_exit file lines i filtered cv log :
  length lines ≤ i → scan file lines i filtered cv log = Ok (filtered, cv, log).
Proof.
  intros Hi. rewrite scan_lines_equation_1.
  destruct (decide (i < length lines)); [lia | done].
Qed.

(** A reference line is kept and becomes the verse context. *)
Lemma scan_reference file lines i filtered cv log line :
  lines !! i = Some line → ref_match line = true →
  scan file lines i filtered cv log =
  scan file lines (i + 1) (filtered ++ [line]) (Some line) log.
Proof.
  intros Hline Href. rewrite scan_lines_equation_1.
  destruct (decide (i < length lines)) as [Hi | Hi].
  - simpl. rewrite py_get_nat, Hline. simpl. by rewrite Href.
  - apply lookup_lt_Some in Hline. lia.
Qed.

(** Every other line that is empty or has a tab is kept as it is. *)
Lemma scan_keep file lines i filtered cv log line :
  lines !! i = Some line → ref_match line = false → lacks_tab line = false →
  scan file lines i filtered cv log =
  scan file lines (i + 1) (filtered ++ [line]) cv log.
Proof.
  intros Hline Href Htab. rewrite scan_lines_equation_1.
  destruct (decide (i < length lines)) as [Hi | Hi].
  - simpl. rewrite py_get_nat, Hline. simpl. by rewrite Href, Htab.
  - apply lookup_lt_Some in Hline. lia.
Qed.

(** An orphan on the last line: [lines[i+1]] in the [show] string raises. *)
Lemma scan_orphan_last file lines i filtered cv log line :
  lines !! i = Some line → i + 1 = length lines →
  ref_match line = false → lacks_tab line = true →
  scan file lines i filtered cv log = Raise IndexError.
Proof.
  intros Hline Hlast Href Htab. rewrite scan_lines_equation_1.
  destruct (decide (i < length lines)) as [Hi | Hi]; [| lia].
  simpl. rewrite py_get_nat, Hline. simpl. rewrite Href, Htab.
  destruct (py_get_pred_ok lines i Hi) as [prev ->]. simpl.
  rewrite py_get_succ, lookup_ge_None_2 by lia. done.
Qed.

(** An orphan while the verse context is still [None]. *)
Lemma scan_orphan_no_context file lines i filtered log line next :
  lines !! i = Some line → lines !! (i + 1) = Some next →
  ref_match line = false → lacks_tab line = true →
  scan file lines i filtered None log = Raise AttributeError.
Proof.
  intros Hline Hnext Href Htab. rewrite scan_lines_equation_1.
  apply lookup_lt_Some in Hline as Hi.
  destruct (decide (i < length lines)); [| lia].
  simpl. rewrite py_get_nat, Hline. simpl. rewrite Href, Htab.
  destruct (py_get_pred_ok lines i Hi) as [prev ->]. simpl.
  rewrite py_get_succ, Hnext. done.
Qed.

(** An orphan under a Psalms context is joined with the next line. *)
Lemma scan_orphan_down file lines i filtered verse log line next prev :
  lines !! i = Some line → lines !! (i + 1) = Some next →
  py_get lines (Z.of_nat i - 1) = Ok prev →
  ref_match line = false → lacks_tab line = true →
  startswith "Ps" verse = true →
  scan file lines i filtered (Some verse) log =
  scan file lines (i + 2) (filtered ++ [line +:+ next]) (Some verse)
       (report (orphan_message file i (Some verse) (orphan_show prev line next)) log).
Proof.
  intros Hline Hnext Hprev Href Htab Hps. rewrite scan_lines_equation_1.
  apply lookup_lt_Some in Hline as Hi.
  destruct (decide (i < length lines)); [| lia].
  simpl. rewrite py_get_nat, Hline. simpl. rewrite Href, Htab, Hprev. simpl.
  rewrite py_get_succ, Hnext. simpl. rewrite Hps. simpl.
  by replace (i + 1 + 1) with (i + 2) by lia.
Qed.

(** An orphan under any other context is appended to the last line of
    [filtered_lines]. *)
Lemma scan_orphan_up file lines i emitted last verse log line next prev :
  lines !! i = Some line → lines !! (i + 1) = Some next →
  py_get lines (Z.of_nat i - 1) = Ok prev →
  ref_match line = false → lacks_tab line = true →
  startswith "Ps" verse = false →
  scan file lines i (emitted ++ [last]) (Some verse) log =
  scan file lines (i + 1) (emitted ++ [last +:+ line]) (Some verse)
       (report (orphan_message file i (Some verse) (orphan_show prev line next)) log).
Proof.
  intros Hline Hnext Hprev Href Htab Hps. rewrite scan_lines_equation_1.
  apply lookup_lt_Some in Hline as Hi.
  destruct (decide (i < length lines)); [| lia].
  simpl. rewrite py_get_nat, Hline. simpl. rewrite Href, Htab, Hprev. simpl.
  rewrite py_get_succ, Hnext. simpl. rewrite Hps.
  rewrite py_get_last. simpl. rewrite py_set_last. done.
Qed.

(** ... and there is nothing to append to when no line of this file has
    been emitted yet. *)
Lemma scan_orphan_up_empty file lines i verse log line next :
  lines !! i = Some line → lines !! (i + 1) = Some next →
  ref_match line = false → lacks_tab line = true →
  startswith "Ps" verse = false →
  scan file lines i [] (Some verse) log = Raise IndexError.
Proof.
  intros Hline Hnext Href Htab Hps. rewrite scan_lines_equation_1.
  apply lookup_lt_Some in Hline as Hi.
  destruct (decide (i < length lines)); [| lia].
  simpl. rewrite py_get_nat, Hline. simpl. rewrite Href, Htab.
  destruct (py_get_pred_ok lines i Hi) as [prev ->]. simpl.
  rewrite py_get_succ, Hnext. simpl. rewrite Hps.
  reflexivity.
Qed.

End ScanSteps.

(** ** Scanning a stretch of lines without orphans *)

Section ScanRuns.

Variable ref_match : string → bool.

#[local] Abbreviation scan := (scan_lines ref_match).

Lemma is_orphan_true line :
  is_orphan ref_match line = true ↔ ref_match line = false ∧ lacks_tab line = true.
Proof.
  unfold is_orphan. destruct (ref_match line), (lacks_tab line); simpl; intuition congruence.
Qed.

Lemma scan_not_orphan file lines i filtered cv log line :
  lines !! i = Some line → is_orphan ref_match line = false →
  scan file lines i filtered cv log =
  scan file lines (i + 1) (filtered ++ [line]) (track ref_match cv line) log.
Proof.
  intros Hline Horph. unfold track, is_orphan in *.
  destruct (ref_match line) eqn:Href.
  - by apply scan_reference.
  - apply scan_keep; [done | done |]. by destruct (lacks_tab line).
Qed.

Lemma scan_no_orphans file pre : ∀ done rest filtered cv log,
  Forall (fun l => is_orphan ref_match l = false) pre →
  scan file (done ++ pre ++ rest) (length done) filtered cv log =
  scan file (done ++ pre ++ rest) (length done + length pre) (filtered ++ pre)
       (context_after ref_match cv pre) log.
Proof.
  induction pre as [| l pre IH]; intros done rest filtered cv log Hpre.
  - simpl. by rewrite Nat.add_0_r, app_nil_r.
  - apply Forall_cons in Hpre as [Hl Hpre].
    rewrite (scan_not_orphan _ _ _ _ _ _ l); [| | done].
    + specialize (IH (done ++ [l]) rest (filtered ++ [l]) (track ref_match cv l) log Hpre).
      rewrite <- !app_assoc in IH. simpl in IH. rewrite length_app in IH. simpl in IH.
      simpl. rewrite IH. f_equal; lia.
    + rewrite lookup_app_r by lia. by rewrite Nat.sub_diag.
Qed.

(** A file without orphans is copied, and its reference lines are tracked. *)
Lemma scan_file_no_orphans file lines cv log :
  Forall (fun l => is_orphan ref_match l = false) lines →
  scan file lines 0 [] cv log = Ok (lines, context_after ref_match cv lines, log).
Proof.
  intros Hl. pose proof (scan_no_orphans file lines [] [] [] cv log Hl) as H.
  simpl in H. rewrite app_nil_r in H. rewrite H. by apply scan_exit.
Qed.

(** A run of orphans under a context outside the Psalms: each one is
    appended to the same last line of [filtered_lines]. *)
Lemma scan_orphan_run file verse orphans : ∀ done next rest emitted last log,
  Forall (fun l => is_orphan ref_match l = true) orphans →
  startswith "Ps" verse = false →
  ∃ log',
    scan file (done ++ orphans ++ next :: rest) (length done) (emitted ++ [last])
         (Some verse) log =
    scan file (done ++ orphans ++ next :: rest) (length done + length orphans)
         (emitted ++ [foldl String.app last orphans]) (Some verse) log'.
Proof.
  induction orphans as [| o orphans IH]; intros done next rest emitted last log Ho Hps.
  - exists log. simpl. by rewrite Nat.add_0_r.
  - apply Forall_cons in Ho as [Ho Hos]. apply is_orphan_true in Ho as [Href Htab].
    assert (length done < length (done ++ (o :: orphans) ++ next :: rest)) as Hlt
      by (rewrite length_app; simpl; lia).
    destruct (py_get_pred_ok _ _ Hlt) as [prev Hprev].
    assert (∃ nxt, (done ++ (o :: orphans) ++ next :: rest) !! (length done + 1) = Some nxt)
      as [nxt Hnxt].
    { apply lookup_lt_is_Some_2. rewrite length_app. simpl. rewrite length_app. simpl. lia. }
    rewrite (scan_orphan_up _ _ _ _ _ _ _ _ o nxt prev); [| | done..].
    + specialize (IH (done ++ [o]) next rest emitted (last +:+ o)
                     (report (orphan_message file (length done) (Some verse)
                                (orphan_show prev o nxt)) log) Hos Hps).
      destruct IH as [log' IH]. exists log'.
      rewrite <- !app_assoc in IH. simpl in IH. rewrite length_app in IH. simpl in IH.
      simpl. rewrite IH. f_equal; lia.
    + rewrite lookup_app_r by lia. by rewrite Nat.sub_diag.
Qed.

End ScanRuns.

(** ** The orphan scan: merge directions *)



(** Upward merges where a line follows.  Under a verse context that does
    not start with Ps, a run of consecutive orphans that is followed by at
    least one more line is merged upward: every orphan of the run is
    appended, in order, to the last line already emitted to
    [filtered_lines] (not to the previous input line), which keeps
    growing, and the scan resumes behind the run. *)
Lemma orphan_run_merged_up (ref_match : string → bool) :
  ∀ file verse orphans done next rest emitted last log,
    Forall (fun l => is_orphan ref_match l = true) orphans →
    startswith "Ps" verse = false →
    ∃ log',
      scan_lines ref_match file (done ++ orphans ++ next :: rest) (length done)
                 (emitted ++ [last]) (Some verse) log =
      scan_lines ref_match file (done ++ orphans ++ next :: rest)
                 (length done + length orphans)
                 (emitted ++ [foldl String.app last orphans]) (Some verse) log'.
Proof. intros. by apply scan_orphan_run. Qed.

(** C4 (the code departs from the claim).  The upward merge needs nothing
    of the line after the orphan: where a line follows, the orphan is
    appended to the last line emitted and the scan goes on behind it.  But
    the scan first builds the message for the log, from [lines[i-1]] and
    [lines[i+1]]; so for an orphan on the last line of a file it raises
    IndexError before the merge, although the line to append to is there.
    The claim's own example ends with its orphan: under every reference
    pattern that recognises Gen 1:1 and neither of the other two lines it
    raises IndexError and nothing is merged, where the claim has
    some base<tab>GKTAIL; followed by an empty last line the same lines
    give the merged line of the claim. *)
Theorem upward_merge_raises_on_last_line (ref_match : string → bool) :
  (∀ file lines i emitted last verse log line,
      lines !! i = Some line → i + 1 = length lines →
      is_orphan ref_match line = true →
      startswith "Ps" verse = false →
      scan_lines ref_match file lines i (emitted ++ [last]) (Some verse) log
      = Raise IndexError
      ∧ ∀ next,
          ∃ log',
            scan_lines ref_match file (lines ++ [next]) i (emitted ++ [last])
                       (Some verse) log
            = scan_lines ref_match file (lines ++ [next]) (i + 1)
                         (emitted ++ [last +:+ line]) (Some verse) log')
  ∧ (ref_match "Gen 1:1" = true → ref_match "TAIL" = false →
     ref_match ("some base" +:+ tab +:+ "GK") = false →
     ∀ file cv log,
       scan_lines ref_match file ["Gen 1:1"; "some base" +:+ tab +:+ "GK"; "TAIL"] 0 [] cv log
       = Raise IndexError
       ∧ (ref_match EmptyString = false →
          ∃ log',
            scan_lines ref_match file
                       ["Gen 1:1"; "some base" +:+ tab +:+ "GK"; "TAIL"; EmptyString] 0 [] cv log
            = Ok (["Gen 1:1"; "some base" +:+ tab +:+ "GKTAIL"; EmptyString],
                  Some "Gen 1:1", log'))).
Proof.
  split.
  - intros file lines i emitted last verse log line Hline Hlast Ho Hps.
    apply is_orphan_true in Ho as [Href Htab]. split.
    + by apply (scan_orphan_last ref_match file lines i _ _ _ line).
    + intros next.
      assert (i < length (lines ++ [next])) as Hi by (rewrite length_app; simpl; lia).
      destruct (py_get_pred_ok (lines ++ [next]) i Hi) as [prev Hprev].
      eexists.
      apply (scan_orphan_up ref_match file (lines ++ [next]) i emitted last verse log
                            line next prev); try done.
      * by apply lookup_app_l_Some.
      * rewrite lookup_app_r by lia. by replace (i + 1 - length lines) with 0 by lia.
  - intros Hgen Htail Hbase file cv log. split.
    + rewrite (scan_reference _ _ _ 0 _ _ _ "Gen 1:1") by done.
      rewrite (scan_keep _ _ _ 1 _ _ _ ("some base" +:+ tab +:+ "GK")) by done.
      by apply (scan_orphan_last ref_match _ _ 2 _ _ _ "TAIL").
    + intros Hempty.
      rewrite (scan_reference _ _ _ 0 _ _ _ "Gen 1:1") by done.
      rewrite (scan_keep _ _ _ 1 _ _ _ ("some base" +:+ tab +:+ "GK")) by done.
      eexists.
      rewrite (scan_orphan_up _ _ _ 2 ["Gen 1:1"] _ _ _ "TAIL" EmptyString
                              ("some base" +:+ tab +:+ "GK")) by done.
      rewrite (scan_keep _ _ _ 3 _ _ _ EmptyString) by done.
      by apply scan_exit.
Qed.

Lemma upward_merge_raises_on_last_line_witness :
  scan_lines ref_string_match "01.Genesis.par"
             ["Gen 1:1"; "some base" +:+ tab +:+ "GK"; "TAIL"] 2
             (["Gen 1:1"] ++ ["some base" +:+ tab +:+ "GK"]) (Some "Gen 1:1") EmptyString
  = Raise IndexError
  ∧ scan_lines ref_string_match "01.Genesis.par"
               ["Gen 1:1"; "some base" +:+ tab +:+ "GK"; "TAIL"] 0 [] None EmptyString
    = Raise IndexError.
Proof.
  split.
  - apply (proj1 (upward_merge_raises_on_last_line ref_string_match) "01.Genesis.par"
                 ["Gen 1:1"; "some base" +:+ tab +:+ "GK"; "TAIL"] 2 ["Gen 1:1"]
                 ("some base" +:+ tab +:+ "GK") "Gen 1:1" EmptyString "TAIL");
      reflexivity.
  - apply (proj2 (upward_merge_raises_on_last_line ref_string_match)); reflexivity.
Defined.

(** C8, as stated: the last line of this list is an orphan, yet the scan
    ends normally, because the downward merge of the line before it has
    consumed it. *)
Lemma last_orphan_consumed :
  last ["Ps 68:31"; "MTR"; "continued text"] = Some "continued text"
  ∧ is_orphan ref_string_match "continued text" = true
  ∧ ∃ log,
      scan_lines ref_string_match "20.Psalms.par" ["Ps 68:31"; "MTR"; "continued text"] 0 []
                 None EmptyString =
      Ok (["Ps 68:31"; "MTRcontinued text"], Some "Ps 68:31", log).
Proof. split; [reflexivity |]. split; [reflexivity |]. eexists. vm_compute. reflexivity. Qed.

(** C8, amended.  When the scan reaches the last line of a file and that
    line is an orphan, it raises IndexError while it builds the log
    context from the line after the current one, whatever the verse
    context (none, Psalms or other) and whatever was emitted before; in
    particular this happens for every file whose last line is its only
    orphan.  (A last line consumed by the downward merge of the line
    before it is never reached.) *)
Theorem orphan_on_last_line_raises (ref_match : string → bool) :
  (∀ file lines i filtered cv log line,
      lines !! i = Some line → i + 1 = length lines →
      is_orphan ref_match line = true →
      scan_lines ref_match file lines i filtered cv log = Raise IndexError)
  ∧ (∀ file pre line cv log,
      Forall (fun l => is_orphan ref_match l = false) pre →
      is_orphan ref_match line = true →
      scan_lines ref_match file (pre ++ [line]) 0 [] cv log = Raise IndexError).
Proof.
  split.
  - intros file lines i filtered cv log line Hline Hlast Ho.
    apply is_orphan_true in Ho as [Href Htab]. by eapply scan_orphan_last.
  - intros file pre line cv log Hpre Ho.
    pose proof (scan_no_orphans ref_match file pre [] [line] [] cv log Hpre) as H.
    simpl in H. rewrite H.
    apply is_orphan_true in Ho as [Href Htab].
    apply (scan_orphan_last _ _ _ _ _ _ _ line); [| | done | done].
    + rewrite lookup_app_r by lia. by rewrite Nat.sub_diag.
    + rewrite length_app. simpl. lia.
Qed.

Lemma orphan_on_last_line_raises_witness :
  scan_lines ref_string_match "01.Genesis.par"
             ["Gen 1:1"; "some base" +:+ tab +:+ "GK"; "TAIL"] 2
             ["Gen 1:1"; "some base" +:+ tab +:+ "GK"] (Some "Gen 1:1") EmptyString
  = Raise IndexError
  ∧ scan_lines ref_string_match "20.Psalms.par" (["Ps 68:31"; "a" +:+ tab +:+ "b"] ++ ["MTR"])
               0 [] None EmptyString
    = Raise IndexError.
Proof.
  split.
  - apply (proj1 (orphan_on_last_line_raises ref_string_match) _ _ _ _ _ _ "TAIL");
      reflexivity.
  - apply (proj2 (orphan_on_last_line_raises ref_string_match)).
    + repeat constructor.
    + reflexivity.
Defined.

(** ** The orphan stage across files *)

Section OrphanStage.

Variable ref_match : string → bool.

Lemma is_plain_not_orphan line : is_plain ref_match line = true → is_orphan ref_match line = false.
Proof. unfold is_plain, is_orphan. by destruct (ref_match line), (lacks_tab line). Qed.

Lemma context_after_plain cv lines :
  Forall (fun l => is_plain ref_match l = true) lines → context_after ref_match cv lines = cv.
Proof.
  induction 1 as [| l lines Hl _ IH]; [done |].
  unfold context_after in *. simpl. unfold track at 2.
  unfold is_plain in Hl. destruct (ref_match l); [done | apply IH].
Qed.

(** The files are visited one after the other, and each visit starts from
    the dictionary, the verse context and the log left by the visit before. *)
Lemma orphan_files_app items1 : ∀ items2 file2lines cv log,
  orphan_files ref_match (items1 ++ items2) file2lines cv log =
  '(file2lines1, cv1, log1) ← orphan_files ref_match items1 file2lines cv log;
  orphan_files ref_match items2 file2lines1 cv1 log1.
Proof.
  induction items1 as [| [file lines] items1 IH]; intros items2 file2lines cv log; [done |].
  simpl. destruct (scan_lines ref_match file lines 0 [] cv log) as [[[filtered cv'] log'] | e];
    simpl; [apply IH | done].
Qed.

(** Files of plain lines leave the verse context and the log as they were. *)
Lemma orphan_files_plain items : ∀ file2lines cv log,
  Forall (fun fl : string * list string => Forall (fun l => is_plain ref_match l = true) fl.2) items →
  ∃ file2lines', orphan_files ref_match items file2lines cv log = Ok (file2lines', cv, log).
Proof.
  induction items as [| [file lines] items IH]; intros file2lines cv log Hitems.
  - by eexists.
  - apply Forall_cons in Hitems as [Hlines Hitems]. simpl in Hlines. simpl.
    rewrite scan_file_no_orphans
      by (eapply Forall_impl; [exact Hlines | apply is_plain_not_orphan]).
    simpl. rewrite context_after_plain by done. by apply IH.
Qed.

End OrphanStage.

#[global] Arguments scan_lines : simpl never.

(** C9, as stated: the corpus has no reference line at all and its only
    line is an orphan, yet the exception is IndexError, raised for the
    log context before the merge direction is tested. *)
Lemma orphan_without_context_last_line :
  patch_orphans ref_string_match [("01.Genesis.par", ["TAIL"])] EmptyString = Raise IndexError.
Proof. reflexivity. Qed.

(** C9, amended.  If the first orphan of the stage comes before any
    reference line has been seen in any file, and it is not the last line
    of its file, then the merge-direction test calls startswith on the
    verse context None and the stage raises AttributeError.  (On the last
    line of its file the IndexError of the log context comes first.) *)
Theorem orphan_without_context_raises (ref_match : string → bool) :
  ∀ before file pre line next rest after log,
    Forall (fun fl : string * list string =>
              Forall (fun l => is_plain ref_match l = true) fl.2) before →
    Forall (fun l => is_plain ref_match l = true) pre →
    is_orphan ref_match line = true →
    patch_orphans ref_match (before ++ (file, pre ++ line :: next :: rest) :: after) log
    = Raise AttributeError.
Proof.
  intros before file pre line next rest after log Hbefore Hpre Ho.
  unfold patch_orphans. rewrite orphan_files_app.
  destruct (orphan_files_plain ref_match before
              (before ++ (file, pre ++ line :: next :: rest) :: after) None
              (report "patching orphaned lines (see code for description)..." log) Hbefore)
    as [d1 ->].
  simpl.
  pose proof (scan_no_orphans ref_match file pre [] (line :: next :: rest) [] None
                (report "patching orphaned lines (see code for description)..." log)) as H.
  simpl in H. rewrite H
    by (eapply Forall_impl; [exact Hpre | apply is_plain_not_orphan]).
  rewrite context_after_plain by done.
  apply is_orphan_true in Ho as [Href Htab].
  rewrite (scan_orphan_no_context _ _ _ _ _ _ line next); [done | | | done | done].
  - rewrite lookup_app_r by lia. by rewrite Nat.sub_diag.
  - rewrite lookup_app_r by lia. by replace (length pre + 1 - length pre) with 1 by lia.
Qed.

Lemma orphan_without_context_raises_witness :
  patch_orphans ref_string_match
    ([("01.Genesis.par", ["a" +:+ tab +:+ "b"; EmptyString])]
       ++ ("02.Exodus.par", ["c" +:+ tab +:+ "d"] ++ "TAIL" :: ("e" +:+ tab +:+ "f") :: [])
       :: [("20.Psalms.par", ["Ps 18:40"])])
    EmptyString
  = Raise AttributeError.
Proof.
  apply (orphan_without_context_raises ref_string_match).
  - repeat constructor.
  - repeat constructor.
  - reflexivity.
Defined.

(** ** The verse context crosses file boundaries *)

Lemma context_after_last_reference (ref_match : string → bool) cv l1 r l2 :
  ref_match r = true → Forall (fun l => ref_match l = false) l2 →
  context_after ref_match cv (l1 ++ r :: l2) = Some r.
Proof.
  intros Hr Hl2. unfold context_after. rewrite foldl_app. simpl.
  unfold track at 2. rewrite Hr.
  induction Hl2 as [| l l2 Hl _ IH]; [done |].
  simpl. unfold track at 2. by rewrite Hl.
Qed.

(** C10, as stated: the second file has an orphan before its first
    reference line, and the last reference line of the file processed
    before it is Gen 1:1, which calls for an upward merge; the orphan is
    merged downward all the same, because the context is still Ps 1:1:
    the scan never visited Gen 1:1, which the downward merge of X
    consumed. *)
Lemma direction_not_from_last_reference_line :
  last (filter (fun l => ref_string_match l = true) ["Ps 1:1"; "X"; "Gen 1:1"]) = Some "Gen 1:1"
  ∧ startswith "Ps" "Gen 1:1" = false
  ∧ ∃ log,
      patch_orphans ref_string_match
        [("20.Psalms.par", ["Ps 1:1"; "X"; "Gen 1:1"]);
         ("45.Daniel.par", ["d" +:+ tab +:+ "e"; "TAIL"; "f" +:+ tab +:+ "g"])]
        EmptyString
      = Ok ([("20.Psalms.par", ["Ps 1:1"; "XGen 1:1"]);
             ("45.Daniel.par", ["d" +:+ tab +:+ "e"; "TAILf" +:+ tab +:+ "g"])], log).
Proof. split; [reflexivity |]. split; [reflexivity |]. eexists. vm_compute. reflexivity. Qed.

(** C10, amended.  The verse context is set to None once, before the loop
    over the files, and not again for each file: the scan of a file starts
    from the context left by the files processed before it.  An orphan
    that comes before the first reference line of its file therefore takes
    its merge direction from that context: downward if it starts with Ps,
    upward otherwise.  The context left by a file without orphans is its
    last reference line.  So the direction depends on the order in which
    the files are iterated: with the Psalms file or the Exodus file
    visited last before the Daniel file, the same Daniel lines are merged
    downward or upward. *)
Theorem verse_context_carried_across_files (ref_match : string → bool) :
  (∀ before file lines after file2lines log file2lines1 cv1 log1,
      orphan_files ref_match before file2lines None log = Ok (file2lines1, cv1, log1) →
      orphan_files ref_match (before ++ (file, lines) :: after) file2lines None log =
      '(filtered_lines, cv, log2) ← scan_lines ref_match file lines 0 [] cv1 log1;
      orphan_files ref_match after (dict_set file filtered_lines file2lines1) cv log2)
  ∧ (∀ file pre line next rest verse log,
      Forall (fun l => is_plain ref_match l = true) pre →
      is_orphan ref_match line = true →
      startswith "Ps" verse = true →
      ∃ log',
        scan_lines ref_match file (pre ++ line :: next :: rest) 0 [] (Some verse) log =
        scan_lines ref_match file (pre ++ line :: next :: rest) (length pre + 2)
                   (pre ++ [line +:+ next]) (Some verse) log')
  ∧ (∀ file pre last line next rest verse log,
      Forall (fun l => is_plain ref_match l = true) (pre ++ [last]) →
      is_orphan ref_match line = true →
      startswith "Ps" verse = false →
      ∃ log',
        scan_lines ref_match file ((pre ++ [last]) ++ line :: next :: rest) 0 []
                   (Some verse) log =
        scan_lines ref_match file ((pre ++ [last]) ++ line :: next :: rest)
                   (length (pre ++ [last]) + 1)
                   (pre ++ [last +:+ line]) (Some verse) log')
  ∧ (∀ file l1 r l2 cv log,
      Forall (fun l => is_orphan ref_match l = false) (l1 ++ r :: l2) →
      ref_match r = true → Forall (fun l => ref_match l = false) l2 →
      scan_lines ref_match file (l1 ++ r :: l2) 0 [] cv log = Ok (l1 ++ r :: l2, Some r, log))
  ∧ (ref_match "Ps 18:40" = true → ref_match "Exod 1:10" = true →
     ref_match "TAIL" = false →
     Forall (fun l => ref_match l = false)
            ["a" +:+ tab +:+ "b"; "c" +:+ tab +:+ "d"; "e" +:+ tab +:+ "f"; "g" +:+ tab +:+ "h"] →
     ∀ log,
       let psalms := ("20.Psalms.par", ["Ps 18:40"; "a" +:+ tab +:+ "b"]) in
       let exodus := ("02.Exodus.par", ["Exod 1:10"; "c" +:+ tab +:+ "d"]) in
       let daniel := ["e" +:+ tab +:+ "f"; "TAIL"; "g" +:+ tab +:+ "h"] in
       (∃ log',
          patch_orphans ref_match [psalms; exodus; ("45.Daniel.par", daniel)] log =
          Ok ([psalms; exodus;
               ("45.Daniel.par", ["e" +:+ tab +:+ "fTAIL"; "g" +:+ tab +:+ "h"])], log'))
       ∧ (∃ log',
            patch_orphans ref_match [exodus; psalms; ("45.Daniel.par", daniel)] log =
            Ok ([exodus; psalms;
                 ("45.Daniel.par", ["e" +:+ tab +:+ "f"; "TAILg" +:+ tab +:+ "h"])], log'))).
Proof.
  split; [| split; [| split; [| split]]].
  - intros before file lines after file2lines log file2lines1 cv1 log1 Hbefore.
    rewrite orphan_files_app, Hbefore. reflexivity.
  - intros file pre line next rest verse log Hpre Ho Hps.
    pose proof (scan_no_orphans ref_match file pre [] (line :: next :: rest) [] (Some verse) log)
      as H.
    simpl in H. rewrite H by (eapply Forall_impl; [exact Hpre | apply is_plain_not_orphan]).
    rewrite context_after_plain by done.
    apply is_orphan_true in Ho as [Href Htab].
    assert (length pre < length (pre ++ line :: next :: rest)) as Hlt
      by (rewrite length_app; simpl; lia).
    destruct (py_get_pred_ok _ _ Hlt) as [prev Hprev].
    eexists. apply (scan_orphan_down _ _ _ _ _ _ _ line next prev); try done.
    + rewrite lookup_app_r by lia. by rewrite Nat.sub_diag.
    + rewrite lookup_app_r by lia. by replace (length pre + 1 - length pre) with 1 by lia.
  - intros file pre last line next rest verse log Hpre Ho Hps.
    pose proof (scan_no_orphans ref_match file (pre ++ [last]) [] (line :: next :: rest) []
                  (Some verse) log) as H.
    simpl in H. rewrite H by (eapply Forall_impl; [exact Hpre | apply is_plain_not_orphan]).
    rewrite context_after_plain by done.
    apply is_orphan_true in Ho as [Href Htab].
    assert (length (pre ++ [last]) < length ((pre ++ [last]) ++ line :: next :: rest)) as Hlt
      by (rewrite (length_app (pre ++ [last])); simpl; lia).
    destruct (py_get_pred_ok _ _ Hlt) as [prev Hprev].
    eexists. apply (scan_orphan_up _ _ _ _ _ _ _ _ line next prev); try done.
    + rewrite lookup_app_r by lia. by rewrite Nat.sub_diag.
    + rewrite lookup_app_r by lia.
      by replace (length (pre ++ [last]) + 1 - length (pre ++ [last])) with 1 by lia.
  - intros file l1 r l2 cv log Hno Hr Hl2.
    rewrite scan_file_no_orphans by done.
    by rewrite context_after_last_reference.
  - intros Hps Hexod Htail Hdata log psalms exodus daniel.
    apply Forall_cons in Hdata as [Hab Hdata]. apply Forall_cons in Hdata as [Hcd Hdata].
    apply Forall_cons in Hdata as [Hef Hdata]. apply Forall_cons in Hdata as [Hgh _].
    assert (Forall (fun l => is_orphan ref_match l = false) psalms.2) as Hpsalms.
    { repeat constructor; unfold is_orphan; simpl; by rewrite ?Hps, ?Hab. }
    assert (Forall (fun l => is_orphan ref_match l = false) exodus.2) as Hexodus.
    { repeat constructor; unfold is_orphan; simpl; by rewrite ?Hexod, ?Hcd. }
    set (ef := "e" +:+ tab +:+ "f") in *. set (gh := "g" +:+ tab +:+ "h") in *.
    assert (∀ verse lg, startswith "Ps" verse = false → ∃ lg',
               scan_lines ref_match "45.Daniel.par" [ef; "TAIL"; gh] 0 [] (Some verse) lg =
               Ok ([ef +:+ "TAIL"; gh], Some verse, lg')) as Hup.
    { intros verse lg Hv.
      rewrite (scan_keep _ _ _ 0 _ _ _ ef) by done.
      eexists. rewrite (scan_orphan_up _ _ _ 1 [] _ _ _ "TAIL" gh ef) by done.
      rewrite (scan_keep _ _ _ 2 _ _ _ gh) by done.
      by apply scan_exit. }
    assert (∀ verse lg, startswith "Ps" verse = true → ∃ lg',
               scan_lines ref_match "45.Daniel.par" [ef; "TAIL"; gh] 0 [] (Some verse) lg =
               Ok ([ef; "TAIL" +:+ gh], Some verse, lg')) as Hdown.
    { intros verse lg Hv.
      rewrite (scan_keep _ _ _ 0 _ _ _ ef) by done.
      eexists. rewrite (scan_orphan_down _ _ _ 1 _ _ _ "TAIL" gh ef) by done.
      by apply scan_exit. }
    subst daniel. split.
    + unfold patch_orphans. simpl.
      rewrite (scan_file_no_orphans _ _ psalms.2) by done. simpl.
      rewrite (scan_file_no_orphans _ _ exodus.2) by done. simpl.
      unfold context_after. simpl. unfold track. simpl. rewrite ?Hps, ?Hab, ?Hexod, ?Hcd.
      destruct (Hup "Exod 1:10" (report "patching orphaned lines (see code for description)..." log))
        as [lg' ->]; [done |].
      simpl. eexists. reflexivity.
    + unfold patch_orphans. simpl.
      rewrite (scan_file_no_orphans _ _ exodus.2) by done. simpl.
      rewrite (scan_file_no_orphans _ _ psalms.2) by done. simpl.
      unfold context_after. simpl. unfold track. simpl. rewrite ?Hps, ?Hab, ?Hexod, ?Hcd.
      destruct (Hdown "Ps 18:40" (report "patching orphaned lines (see code for description)..." log))
        as [lg' ->]; [done |].
      simpl. eexists. reflexivity.
Qed.

Lemma verse_context_carried_across_files_witness :
  (orphan_files ref_string_match
     ([("20.Psalms.par", ["Ps 18:40"])] ++ ("45.Daniel.par", ["e" +:+ tab +:+ "f"]) :: [])
     [("20.Psalms.par", ["Ps 18:40"]); ("45.Daniel.par", ["e" +:+ tab +:+ "f"])]
     None EmptyString =
   '(filtered_lines, cv, log2) ←
     scan_lines ref_string_match "45.Daniel.par" ["e" +:+ tab +:+ "f"] 0 []
                (Some "Ps 18:40") EmptyString;
   orphan_files ref_string_match []
     (dict_set "45.Daniel.par" filtered_lines
        [("20.Psalms.par", ["Ps 18:40"]); ("45.Daniel.par", ["e" +:+ tab +:+ "f"])])
     cv log2)
  ∧ (∃ log',
       scan_lines ref_string_match "45.Daniel.par"
         (["e" +:+ tab +:+ "f"] ++ "TAIL" :: ("g" +:+ tab +:+ "h") :: []) 0 []
         (Some "Ps 18:40") EmptyString =
       scan_lines ref_string_match "45.Daniel.par"
         (["e" +:+ tab +:+ "f"] ++ "TAIL" :: ("g" +:+ tab +:+ "h") :: [])
         (length ["e" +:+ tab +:+ "f"] + 2)
         (["e" +:+ tab +:+ "f"] ++ ["TAIL" +:+ "g" +:+ tab +:+ "h"]) (Some "Ps 18:40") log')
  ∧ (∃ log',
       scan_lines ref_string_match "45.Daniel.par"
         (([] ++ ["e" +:+ tab +:+ "f"]) ++ "TAIL" :: ("g" +:+ tab +:+ "h") :: []) 0 []
         (Some "Exod 1:10") EmptyString =
       scan_lines ref_string_match "45.Daniel.par"
         (([] ++ ["e" +:+ tab +:+ "f"]) ++ "TAIL" :: ("g" +:+ tab +:+ "h") :: [])
         (length ([] ++ ["e" +:+ tab +:+ "f"]) + 1)
         ([] ++ [("e" +:+ tab +:+ "f") +:+ "TAIL"]) (Some "Exod 1:10") log')
  ∧ scan_lines ref_string_match "02.Exodus.par"
      (["Exod 1:9"; "c" +:+ tab +:+ "d"] ++ "Exod 1:10" :: ["c" +:+ tab +:+ "d"]) 0 [] None
      EmptyString =
    Ok (["Exod 1:9"; "c" +:+ tab +:+ "d"] ++ "Exod 1:10" :: ["c" +:+ tab +:+ "d"],
        Some "Exod 1:10", EmptyString)
  ∧ (∃ log',
       patch_orphans ref_string_match
         [("02.Exodus.par", ["Exod 1:10"; "c" +:+ tab +:+ "d"]);
          ("20.Psalms.par", ["Ps 18:40"; "a" +:+ tab +:+ "b"]);
          ("45.Daniel.par", ["e" +:+ tab +:+ "f"; "TAIL"; "g" +:+ tab +:+ "h"])]
         EmptyString =
       Ok ([("02.Exodus.par", ["Exod 1:10"; "c" +:+ tab +:+ "d"]);
            ("20.Psalms.par", ["Ps 18:40"; "a" +:+ tab +:+ "b"]);
            ("45.Daniel.par", ["e" +:+ tab +:+ "f"; "TAILg" +:+ tab +:+ "h"])], log')).
Proof.
  pose proof (verse_context_carried_across_files ref_string_match) as (HA & HB & HC & HD & HE).
  split; [| split; [| split; [| split]]].
  - apply HA. vm_compute. reflexivity.
  - apply HB; [repeat constructor | reflexivity | reflexivity].
  - apply HC; [repeat constructor | reflexivity | reflexivity].
  - apply HD; [repeat constructor | reflexivity | repeat constructor].
  - apply HE; [reflexivity | reflexivity | reflexivity | repeat constructor].
Defined.

(** ** Manual edits *)

(** The edits compose: a list of edits is its first part and then the
    rest, from the dictionary and the log the first part left and under
    the file name it left in force. *)
Lemma apply_edits_app :
  ∀ edits1 edits2 file file2lines log,
    apply_edits (edits1 ++ edits2) file file2lines log =
    '(file2lines1, log1) ← apply_edits edits1 file file2lines log;
    apply_edits edits2 (file_in_force edits1 file) file2lines1 log1.
Proof.
  induction edits1 as [| [[[f ln] re_confirm] redaction] edits1 IH];
    intros edits2 file file2lines log; [done |].
  simpl.
  destruct (dict_get (str_or f file) file2lines) as [lines | e]; [| done]. simpl.
  destruct (py_get lines ln) as [old_line | e]; [| done]. simpl.
  destruct (re_findall re_confirm old_line) as [found | e]; [| done]. simpl.
  destruct (nonempty found); [| apply IH].
  destruct (py_set lines ln redaction) as [lines' | e]; [| done]. simpl. apply IH.
Qed.

(** C5.  An edit whose confirmation pattern finds no match in the current
    content [old_line] of the targeted line, wherever it stands in the
    list: the edits before it have returned [file2lines1] and [log1], and
    the edit goes to the file name in force (its own, or the last one
    named before it).  The loop up to and including this edit returns
    [file2lines1] itself, so the line and every other line are left as
    they are, and the log of the edits before with three more entries: the
    unconfirmed-edit warning, the stale content and the whole edit tuple.
    The loop then goes on with the remaining edits in their order, from
    that dictionary and that log and under that file name. *)
Theorem unconfirmed_edit_skipped :
  ∀ edits1 f ln re_confirm redaction edits2 file file2lines log file2lines1 log1
    lines old_line,
    apply_edits edits1 file file2lines log = Ok (file2lines1, log1) →
    let name := str_or f (file_in_force edits1 file) in
    dict_get name file2lines1 = Ok lines →
    py_get lines ln = Ok old_line →
    re_findall re_confirm old_line = Ok [] →
    let log2 :=
      report (tab +:+ "EDIT: " +:+ show_edit name ln re_confirm redaction)
        (report (tab +:+ "OLD: " +:+ old_line)
           (report unconfirmed_warning log1)) in
    apply_edits (edits1 ++ [(f, ln, re_confirm, redaction)]) file file2lines log
    = Ok (file2lines1, log2)
    ∧ apply_edits (edits1 ++ (f, ln, re_confirm, redaction) :: edits2) file file2lines log
      = apply_edits edits2 name file2lines1 log2.
Proof.
  intros edits1 f ln re_confirm redaction edits2 file file2lines log file2lines1 log1
         lines old_line Hrun name Hfile Hline Hre log2.
  assert (∀ rest,
            apply_edits (edits1 ++ (f, ln, re_confirm, redaction) :: rest) file file2lines log
            = apply_edits rest name file2lines1 log2) as Hstep.
  { intros rest. rewrite apply_edits_app, Hrun, result_bind_Ok.
    cbn [apply_edits]. cbv zeta. fold name.
    rewrite Hfile, result_bind_Ok, Hline, result_bind_Ok, Hre, result_bind_Ok.
    reflexivity. }
  split; [| apply Hstep]. by rewrite Hstep.
Qed.

Lemma unconfirmed_edit_skipped_witness :
  apply_edits ([("06.JoshB.par", 0%Z, "<6.2", "N2")] ++ [(EmptyString, 1%Z, "12 E", "new line")])
              EmptyString [("06.JoshB.par", ["<6x2"; "stale"])] EmptyString
  = Ok ([("06.JoshB.par", ["N2"; "stale"])],
        "correction for 06.JoshB.par line 0:" +:+ nl
        +:+ tab +:+ "OLD: <6x2" +:+ nl
        +:+ tab +:+ "NEW: N2" +:+ nl
        +:+ "**WARNING: THE FOLLOWING EDIT WAS NOT CONFIRMED**:" +:+ nl
        +:+ tab +:+ "OLD: stale" +:+ nl
        +:+ tab +:+ "EDIT: ('06.JoshB.par', 1, '12 E', 'new line')" +:+ nl)
  ∧ apply_edits ([("06.JoshB.par", 0%Z, "<6.2", "N2")]
                   ++ (EmptyString, 1%Z, "12 E", "new line") :: [(EmptyString, 1%Z, "st", "S")])
                EmptyString [("06.JoshB.par", ["<6x2"; "stale"])] EmptyString
    = apply_edits [(EmptyString, 1%Z, "st", "S")] "06.JoshB.par"
        [("06.JoshB.par", ["N2"; "stale"])]
        ("correction for 06.JoshB.par line 0:" +:+ nl
         +:+ tab +:+ "OLD: <6x2" +:+ nl
         +:+ tab +:+ "NEW: N2" +:+ nl
         +:+ "**WARNING: THE FOLLOWING EDIT WAS NOT CONFIRMED**:" +:+ nl
         +:+ tab +:+ "OLD: stale" +:+ nl
         +:+ tab +:+ "EDIT: ('06.JoshB.par', 1, '12 E', 'new line')" +:+ nl).
Proof.
  apply (unconfirmed_edit_skipped [("06.JoshB.par", 0%Z, "<6.2", "N2")]
           EmptyString 1 "12 E" "new line" [(EmptyString, 1%Z, "st", "S")]
           EmptyString [("06.JoshB.par", ["<6x2"; "stale"])] EmptyString
           [("06.JoshB.par", ["N2"; "stale"])]
           ("correction for 06.JoshB.par line 0:" +:+ nl
            +:+ tab +:+ "OLD: <6x2" +:+ nl
            +:+ tab +:+ "NEW: N2" +:+ nl)
           ["N2"; "stale"] "stale"); reflexivity.
Defined.

(** A run with an unconfirmed edit before a confirmed one: the first
    leaves its line, the second replaces its line, and the log shows both. *)
Example apply_edits_run :
  apply_edits [(EmptyString, 1%Z, "12 E", "new line"); (EmptyString, 0%Z, "<6.2", "N2")]
              "06.JoshB.par" [("06.JoshB.par", ["<6x2"; "stale"])] EmptyString =
  Ok ([("06.JoshB.par", ["N2"; "stale"])],
      "**WARNING: THE FOLLOWING EDIT WAS NOT CONFIRMED**:" +:+ nl
      +:+ tab +:+ "OLD: stale" +:+ nl
      +:+ tab +:+ "EDIT: ('06.JoshB.par', 1, '12 E', 'new line')" +:+ nl
      +:+ "correction for 06.JoshB.par line 0:" +:+ nl
      +:+ tab +:+ "OLD: <6x2" +:+ nl
      +:+ tab +:+ "NEW: N2" +:+ nl).
Proof. reflexivity. Qed.

(** ** Position-checked block repairs *)

(** C6.  Each position-checked repair compares its anchor line with the
    expected text.  When the anchor line is there but reads differently,
    the repair returns the dictionary untouched and the log with one more
    entry, its warning.  [pss] is the list the Psalms repairs were given. *)
Theorem altered_anchor_skips_repair :
  (∀ file2lines log exod anchor,
      dict_get "02.Exodus.par" file2lines = Ok exod →
      py_get exod 16284 = Ok anchor → anchor ≠ "Exod 1:10" →
      repair_exodus file2lines log = Ok (file2lines, report exodus_warning log))
  ∧ (∀ pss file2lines log anchor,
      py_get pss 2459 = Ok anchor → anchor ≠ "Ps 18:40" →
      repair_ps_18_40 pss file2lines log = Ok (file2lines, report psalms_warning_2 log))
  ∧ (∀ pss file2lines log anchor,
      py_get pss 10848 = Ok anchor → anchor ≠ "MTR" →
      repair_ps_68_31 pss file2lines log = Ok (file2lines, report psalms_warning log)).
Proof.
  split; [| split].
  - intros file2lines log exod anchor Hexod Hanchor Hne.
    unfold repair_exodus. rewrite Hexod. simpl. rewrite Hanchor. simpl.
    by rewrite decide_False.
  - intros pss file2lines log anchor Hanchor Hne.
    unfold repair_ps_18_40. rewrite Hanchor. simpl. by rewrite decide_False.
  - intros pss file2lines log anchor Hanchor Hne.
    unfold repair_ps_68_31. rewrite Hanchor. simpl. by rewrite decide_False.
Qed.

Lemma altered_anchor_skips_repair_witness :
  repair_exodus [("02.Exodus.par", exodus_shifted)] EmptyString =
    Ok ([("02.Exodus.par", exodus_shifted)], report exodus_warning EmptyString)
  ∧ repair_ps_18_40 psalms_shifted [("20.Psalms.par", psalms_shifted)] EmptyString =
      Ok ([("20.Psalms.par", psalms_shifted)], report psalms_warning_2 EmptyString)
  ∧ repair_ps_68_31 psalms_shifted [("20.Psalms.par", psalms_shifted)] EmptyString =
      Ok ([("20.Psalms.par", psalms_shifted)], report psalms_warning EmptyString).
Proof.
  destruct altered_anchor_skips_repair as (Hexod & Hps18 & Hps68).
  split; [| split].
  - apply (Hexod _ _ exodus_shifted "Exod 35:19"); [reflexivity | vm_compute; reflexivity | done].
  - apply (Hps18 _ _ _ EmptyString); [vm_compute; reflexivity | done].
  - apply (Hps68 _ _ _ EmptyString); [vm_compute; reflexivity | done].
Defined.

Lemma py_upto_nonneg {A} (l : list A) (n : Z) : (0 ≤ n)%Z → py_upto l n = take (Z.to_nat n) l.
Proof.
  intros Hn. unfold py_upto, slice_bound. by rewrite bool_decide_eq_false_2 by lia.
Qed.

Lemma py_from_nonneg {A} (l : list A) (n : Z) : (0 ≤ n)%Z → py_from l n = drop (Z.to_nat n) l.
Proof.
  intros Hn. unfold py_from, slice_bound. by rewrite bool_decide_eq_false_2 by lia.
Qed.

(** Behind a block cut out of a list, the lines are those of the list,
    moved up. *)
Lemma excised_lookup {A} (l : list A) (a b k : nat) (x : A) :
  a ≤ length l → (take a l ++ [x] ++ drop b l) !! (a + 1 + k) = l !! (b + k).
Proof.
  intros Ha.
  rewrite lookup_app_r by (rewrite length_take; lia).
  rewrite length_take, Nat.min_l by done.
  replace (a + 1 + k - a) with (S k) by lia. simpl.
  by rewrite lookup_drop.
Qed.

(** C2 (the code departs from the claim).  On a Psalms file where both
    anchors match, the Ps 18:40 repair is computed from [pss], the list
    bound before the Ps 68:31 repair, and its result overwrites the entry
    that repair had stored: the dictionary ends with the original list
    minus the Ps 18:40 block, in which MTR and the two lines after it are
    still three separate lines.  The merged line of the Ps 68:31 repair is
    lost. *)
Theorem psalms_merge_overwritten :
  ∀ file2lines log pss l1 l2 kept,
    dict_get "20.Psalms.par" file2lines = Ok pss →
    py_get pss 10848 = Ok "MTR" → py_get pss 10849 = Ok l1 → py_get pss 10850 = Ok l2 →
    py_get pss 2459 = Ok "Ps 18:40" → py_get pss 2457 = Ok kept →
    let fixed_lines := py_upto pss 2456 ++ [kept] ++ py_from pss 2460 in
    (∃ log',
       repair_psalms file2lines log = Ok (dict_set "20.Psalms.par" fixed_lines file2lines, log'))
    ∧ fixed_lines !! Z.to_nat 10845 = Some "MTR"
    ∧ fixed_lines !! Z.to_nat 10846 = Some l1
    ∧ fixed_lines !! Z.to_nat 10847 = Some l2.
Proof.
  intros file2lines log pss l1 l2 kept Hpss H0 H1 H2 Hanchor Hkept fixed_lines.
  split.
  - unfold repair_psalms, repair_ps_68_31, repair_ps_18_40.
    rewrite Hpss. simpl. rewrite H0. simpl. rewrite H1. simpl. rewrite H2. simpl.
    rewrite Hanchor. simpl. rewrite Hkept. simpl.
    eexists. by rewrite dict_set_set.
  - apply py_get_Ok_lt in H0 as [H0 Hlen]; [| lia].
    apply py_get_Ok_lt in H1 as [H1 _]; [| lia].
    apply py_get_Ok_lt in H2 as [H2 _]; [| lia].
    subst fixed_lines. rewrite py_upto_nonneg, py_from_nonneg by lia.
    replace (Z.to_nat 10845) with (Z.to_nat 2456 + 1 + Z.to_nat 8388) by lia.
    replace (Z.to_nat 10846) with (Z.to_nat 2456 + 1 + Z.to_nat 8389) by lia.
    replace (Z.to_nat 10847) with (Z.to_nat 2456 + 1 + Z.to_nat 8390) by lia.
    rewrite !excised_lookup by lia.
    replace (Z.to_nat 2460 + Z.to_nat 8388) with (Z.to_nat 10848) by lia.
    replace (Z.to_nat 2460 + Z.to_nat 8389) with (Z.to_nat 10849) by lia.
    replace (Z.to_nat 2460 + Z.to_nat 8390) with (Z.to_nat 10850) by lia.
    done.
Qed.

Lemma psalms_merge_overwritten_witness :
  let fixed_lines :=
    py_upto psalms_example 2456 ++ [EmptyString] ++ py_from psalms_example 2460 in
  (∃ log',
     repair_psalms [("20.Psalms.par", psalms_example)] EmptyString =
     Ok (dict_set "20.Psalms.par" fixed_lines [("20.Psalms.par", psalms_example)], log'))
  ∧ fixed_lines !! Z.to_nat 10845 = Some "MTR"
  ∧ fixed_lines !! Z.to_nat 10846 = Some "I"
  ∧ fixed_lines !! Z.to_nat 10847 = Some ("M" +:+ tab +:+ "E)K").
Proof.
  apply (psalms_merge_overwritten _ _ psalms_example); vm_compute; reflexivity.
Defined.

(** The Ps 68:31 repair alone, on the same file, does store the merged
    line; it is the Ps 18:40 repair after it that drops it. *)
Example ps_68_31_repair_alone :
  ∃ log' lines,
    repair_ps_68_31 psalms_example [("20.Psalms.par", psalms_example)] EmptyString =
      Ok ([("20.Psalms.par", lines)], log')
    ∧ lines !! Z.to_nat 10848 = Some ("MTRIM" +:+ tab +:+ "E)K")
    ∧ length lines = Z.to_nat 10849.
Proof. eexists _, _. vm_compute. done. Qed.

(** ** The two normalization patterns *)

Lemma normalizations_compiled :
  re_compile "~" = Ok r_tilde ∧ compile_template (groups_of r_tilde) "^" = Ok t_tilde
  ∧ re_compile "(['^])=" = Ok r_fused
  ∧ compile_template (groups_of r_fused) "\g<1> =" = Ok t_fused.
Proof. repeat split; reflexivity. Qed.

Lemma finditer_cons r c s :
  finditer r 0 (String c s) =
  match match_here r (String c s) with
  | Some caps =>
      {| whole := str_take (length r) (String c s); groups := caps |}
        :: finditer r (length r - 1) s
  | None => finditer r 0 s
  end.
Proof. reflexivity. Qed.

Lemma sub_go_cons r t c s :
  sub_go r t 0 (String c s) =
  match match_here r (String c s) with
  | Some caps => expand t caps +:+ sub_go r t (length r - 1) s
  | None => String c (sub_go r t 0 s)
  end.
Proof. reflexivity. Qed.

(** Where a pattern finds nothing, its substitution changes nothing. *)
Lemma sub_go_no_match r t s : finditer r 0 s = [] → sub_go r t 0 s = s.
Proof.
  induction s as [| c s IH]; [done |].
  rewrite finditer_cons, sub_go_cons.
  destruct (match_here r (String c s)); [done |].
  intros H. by rewrite IH.
Qed.

Lemma match_tilde c s :
  match_here r_tilde (String c s) = if bool_decide (c = "~"%char) then Some [] else None.
Proof. simpl. by destruct (bool_decide (c = "~"%char)). Qed.

Lemma match_fused c s :
  match_here r_fused (String c s) =
  if bool_decide (c ∈ fused_set) && starts_with_equals s then Some [chr c] else None.
Proof.
  simpl. destruct (bool_decide (c ∈ fused_set)); [| done].
  destruct s as [| d s]; [done |]. simpl.
  by destruct (bool_decide (d = "="%char)).
Qed.

(** The tilde pattern matches exactly where a tilde occurs. *)
Lemma findall_tilde s : findall r_tilde s = [] ↔ str_in "~" s = false.
Proof.
  unfold findall. induction s as [| c s IH]; [done |].
  rewrite finditer_cons, match_tilde. simpl str_in.
  destruct (decide ("~"%char = c)) as [<- | Hc].
  - by rewrite bool_decide_eq_true_2.
  - rewrite bool_decide_eq_false_2 by congruence. apply IH.
Qed.

Lemma sub_tilde_clean s : str_in "~" (sub_go r_tilde t_tilde 0 s) = false.
Proof.
  induction s as [| c s IH]; [done |].
  rewrite sub_go_cons, match_tilde.
  case_bool_decide as Hc.
  - change (str_in "~" (String "^" (sub_go r_tilde t_tilde 0 s)) = false).
    simpl str_in. apply IH.
  - simpl str_in. rewrite decide_False by congruence. apply IH.
Qed.

Lemma sub_fused_head s : str_head (sub_go r_fused t_fused 0 s) = str_head s.
Proof.
  destruct s as [| c s]; [done |].
  rewrite sub_go_cons, match_fused.
  by destruct (bool_decide (c ∈ fused_set) && starts_with_equals s).
Qed.

Lemma starts_with_equals_head s1 s2 :
  str_head s1 = str_head s2 → starts_with_equals s1 = starts_with_equals s2.
Proof.
  destruct s1 as [| a s1], s2 as [| b s2]; simpl; intros H;
    [done | discriminate | discriminate | by injection H as ->].
Qed.

(** After the substitution of the fused-equals pattern, the pattern finds
    nothing more; [skip] is 0 at a fresh position and 1 behind the first
    character of a match. *)
Lemma sub_fused_clean s :
  finditer r_fused 0 (sub_go r_fused t_fused 0 s) = []
  ∧ finditer r_fused 0 (sub_go r_fused t_fused 1 s) = [].
Proof.
  induction s as [| c s [IH0 IH1]]; [done |].
  split; [| exact IH0].
  rewrite sub_go_cons, match_fused.
  destruct (bool_decide (c ∈ fused_set) && starts_with_equals s) eqn:Hm.
  - change (expand t_fused [chr c] +:+ sub_go r_fused t_fused (length r_fused - 1) s)
      with (String c (String " " (String "=" (sub_go r_fused t_fused 1 s)))).
    rewrite finditer_cons, match_fused. simpl starts_with_equals.
    rewrite andb_false_r.
    rewrite finditer_cons, match_fused. simpl (bool_decide _).
    rewrite finditer_cons, match_fused. simpl (bool_decide _).
    exact IH1.
  - rewrite finditer_cons, match_fused.
    rewrite (starts_with_equals_head _ s) by apply sub_fused_head.
    rewrite Hm. exact IH0.
Qed.

(** The substitution of the fused-equals pattern brings in no tilde. *)
Lemma sub_fused_no_tilde s : ∀ skip,
  str_in "~" s = false → str_in "~" (sub_go r_fused t_fused skip s) = false.
Proof.
  induction s as [| c s IH]; intros skip Hs; [done |].
  simpl in Hs. destruct (decide ("~"%char = c)) as [| Hc]; [done |].
  destruct skip as [| skip]; [| by apply IH].
  rewrite sub_go_cons, match_fused.
  destruct (bool_decide (c ∈ fused_set) && starts_with_equals s).
  - change (expand t_fused [chr c] +:+ sub_go r_fused t_fused (length r_fused - 1) s)
      with (String c (String " " (String "=" (sub_go r_fused t_fused 1 s)))).
    simpl. rewrite decide_False by done. by apply IH.
  - simpl. rewrite decide_False by done. by apply IH.
Qed.

(** ** Bulk normalizations *)

Lemma sub_compiled r repl t l :
  compile_template (groups_of r) repl = Ok t → sub r repl l = Ok (sub_go r t 0 l).
Proof. intros Ht. unfold sub. by rewrite Ht. Qed.

(** The length of the output of one pass. *)
Lemma normalize_lines_length (ref_match : string → bool) :
  ∀ search replace file lines new_lines curr_verse log out log',
    normalize_lines ref_match search replace file lines new_lines curr_verse log
    = Ok (out, log') →
    length out =
    length new_lines + length lines + length (filter (fun l => ref_match l = true) lines).
Proof.
  intros search replace file lines. induction lines as [| line lines IH];
    intros new_lines curr_verse log out log' Hrun.
  - simpl in Hrun. injection Hrun as <- <-. simpl. lia.
  - simpl in Hrun. rewrite filter_cons.
    destruct (ref_match line) eqn:Href;
      (destruct (nonempty (findall search line));
       [ destruct (sub search replace line) as [redaction | e]; [| done]; simpl in Hrun |];
       apply IH in Hrun; rewrite Hrun, !length_app;
       [ rewrite ?decide_True by done; rewrite ?decide_False by congruence; simpl; lia ..]).
Qed.

Section NormalizerInvariant.

Variable ref_match : string → bool.

(** One pass establishes [P] on every line it emits, from [Q] on the lines
    it scans, when [P] holds of the reference lines, of the lines without
    a match and of the results of the substitution. *)
Lemma normalize_lines_forall r repl t (P Q : string → Prop) file :
  compile_template (groups_of r) repl = Ok t →
  (∀ l, Q l → ref_match l = true → P l) →
  (∀ l, Q l → findall r l = [] → P l) →
  (∀ l, Q l → P (sub_go r t 0 l)) →
  ∀ lines new_lines curr_verse log,
    Forall Q lines → Forall P new_lines →
    ∃ out log',
      normalize_lines ref_match r repl file lines new_lines curr_verse log = Ok (out, log')
      ∧ Forall P out.
Proof.
  intros Ht Href Hnone Hsub. induction lines as [| line lines IH];
    intros new_lines curr_verse log Hlines Hnew.
  - by exists new_lines, log.
  - apply Forall_cons in Hlines as [Hline Hlines]. simpl.
    assert (Forall P (if ref_match line then new_lines ++ [line] else new_lines)) as Hnew'.
    { destruct (ref_match line) eqn:E; [| done].
      apply Forall_app. split; [done |]. repeat constructor. by apply Href. }
    destruct (ref_match line);
      (destruct (findall r line) eqn:Hfind; simpl;
       [ apply IH; [done |]; apply Forall_app; split; [done |];
         repeat constructor; by apply Hnone
       | rewrite (sub_compiled _ _ t) by done; simpl;
         apply IH; [done |]; apply Forall_app; split; [done |];
         repeat constructor; by apply Hsub ]).
Qed.

End NormalizerInvariant.

(** C1 (the code departs from the claim).  One pass of the normalizer
    over a file, for a pattern whose replacement template compiles (as
    both templates of the program do), returns, and it has added to
    [new_lines] one line for every line it scanned and one more for every
    reference line: a reference line is appended once when it is recorded
    as the verse and once more by the substitution branch that follows.
    The output of a pass is longer than its input by the number of
    reference lines, so lines are duplicated. *)
Theorem normalizer_duplicates_reference_lines (ref_match : string → bool) :
  ∀ search replace t file lines new_lines curr_verse log,
    compile_template (groups_of search) replace = Ok t →
    ∃ out log',
      normalize_lines ref_match search replace file lines new_lines curr_verse log
      = Ok (out, log')
      ∧ length out =
        length new_lines + length lines + length (filter (fun l => ref_match l = true) lines).
Proof.
  intros search replace t file lines new_lines curr_verse log Ht.
  destruct (normalize_lines_forall ref_match search replace t (fun _ => True) (fun _ => True)
              file Ht) with (lines := lines) (new_lines := new_lines)
                            (curr_verse := curr_verse) (log := log)
    as (out & log' & Hrun & _); try done.
  - by apply Forall_forall.
  - by apply Forall_forall.
  - exists out, log'. split; [done |]. by eapply normalize_lines_length.
Qed.

Lemma normalizer_duplicates_reference_lines_witness :
  ∃ out log',
    normalize_lines ref_string_match r_tilde "^" "20.Psalms.par"
                    ["Ps 18:40"; "A~B" +:+ tab +:+ "C"] [] EmptyString EmptyString
    = Ok (out, log')
    ∧ length out =
      length (@nil string) + length ["Ps 18:40"; "A~B" +:+ tab +:+ "C"]
      + length (filter (fun l => ref_string_match l = true) ["Ps 18:40"; "A~B" +:+ tab +:+ "C"]).
Proof.
  apply (normalizer_duplicates_reference_lines ref_string_match r_tilde "^" t_tilde).
  reflexivity.
Defined.

(** The whole normalizer stage on a file of two lines: after the two
    passes the reference line stands four times. *)
Example bulk_normalize_duplicates :
  ∃ log',
    bulk_normalize ref_string_match [("20.Psalms.par", ["Ps 18:40"; "A~B'=C" +:+ tab +:+ "D"])]
                   EmptyString =
    Ok ([("20.Psalms.par",
          ["Ps 18:40"; "Ps 18:40"; "Ps 18:40"; "Ps 18:40"; "A^B' =C" +:+ tab +:+ "D"])], log').
Proof. eexists. vm_compute. reflexivity. Qed.


(** The substitution list by itself is idempotent: the two substitutions,
    applied in their order to any line, leave a line in which neither
    pattern finds a match, so that applying either of them again changes
    nothing. *)
Lemma substitutions_idempotent_on_line :
  ∀ line,
    let out := sub_go r_fused t_fused 0 (sub_go r_tilde t_tilde 0 line) in
    normalized out
    ∧ sub r_tilde "^" out = Ok out ∧ sub r_fused "\g<1> =" out = Ok out.
Proof.
  destruct normalizations_compiled as (Hr1 & Ht1 & Hr2 & Ht2).
  intros line out.
  assert (normalized out) as [H1 H2].
  { split.
    - apply findall_tilde, sub_fused_no_tilde, sub_tilde_clean.
    - apply sub_fused_clean. }
  split; [by split |]. split.
  - rewrite (sub_compiled _ _ t_tilde) by done. by rewrite sub_go_no_match.
  - rewrite (sub_compiled _ _ t_fused) by done. by rewrite sub_go_no_match.
Qed.

(** * Further properties of the pipeline *)

(** ** Strings *)

Lemma str_app_cons c s t : String c s +:+ t = String c (s +:+ t).
Proof. reflexivity. Qed.

Lemma str_app_nil_r s : s +:+ EmptyString = s.
Proof. induction s as [| c s IH]; [done |]. by rewrite str_app_cons, IH. Qed.

Lemma str_app_assoc s t u : (s +:+ t) +:+ u = s +:+ t +:+ u.
Proof. induction s as [| c s IH]; [done |]. by rewrite !str_app_cons, IH. Qed.

(** ** Reading and writing the files *)

Lemma str_split_cons sep text : ∃ field fields, str_split sep text = field :: fields.
Proof.
  destruct text as [| c text]; simpl; [by eexists _, _ |].
  destruct (decide (c = sep)); [by eexists _, _ |].
  destruct (str_split sep text); by eexists _, _.
Qed.

Lemma str_join_cons_char sep c field fields :
  str_join sep (String c field :: fields) = String c (str_join sep (field :: fields)).
Proof. by destruct fields. Qed.

Lemma str_split_no_sep sep line :
  str_in sep line = false → str_split sep line = [line].
Proof.
  induction line as [| c line IH]; [done |]. simpl.
  destruct (decide (sep = c)) as [| Hne]; [done |]. intros Hline.
  rewrite decide_False by congruence. by rewrite IH.
Qed.

Lemma str_split_app sep line rest :
  str_in sep line = false →
  str_split sep (line +:+ String sep rest) = line :: str_split sep rest.
Proof.
  induction line as [| c line IH].
  - intros _. simpl. by rewrite decide_True.
  - simpl. destruct (decide (sep = c)) as [| Hne]; [done |]. intros Hline.
    rewrite decide_False by congruence. by rewrite IH.
Qed.

(** X1.  Writing back what was read gives the text that was read:
    joining with newlines the lines that splitting at the newlines
    produced restores every text, the empty one and those that end in a
    newline included.  In the other direction, a non-empty list of lines
    none of which contains a newline is found again when the text written
    for it is split. *)
Theorem split_join_round_trip :
  (∀ text, str_join nl (str_split NL text) = text)
  ∧ (∀ lines,
       lines ≠ [] → Forall (fun line => str_in NL line = false) lines →
       str_split NL (str_join nl lines) = lines).
Proof.
  split.
  - induction text as [| c text IH]; [done |]. simpl.
    destruct (str_split_cons NL text) as (field & fields & Hsplit).
    rewrite Hsplit in *.
    destruct (decide (c = NL)) as [-> | Hne].
    + change (EmptyString +:+ nl +:+ str_join nl (field :: fields) = String NL text).
      by rewrite IH.
    + by rewrite str_join_cons_char, IH.
  - induction lines as [| line lines IH]; [done |]. intros _ Hlines.
    apply Forall_cons in Hlines as [Hline Hlines].
    destruct lines as [| line' lines].
    + simpl. by apply str_split_no_sep.
    + change (str_join nl (line :: line' :: lines))
        with (line +:+ String NL (str_join nl (line' :: lines))).
      rewrite str_split_app by done. by rewrite IH.
Qed.

Lemma split_join_round_trip_witness :
  str_split NL (str_join nl ["Ps 18:40"; "W/" +:+ tab +:+ "KAI\"; EmptyString])
  = ["Ps 18:40"; "W/" +:+ tab +:+ "KAI\"; EmptyString].
Proof.
  apply (proj2 split_join_round_trip); [done | repeat constructor].
Defined.

(** ** The log only grows *)

Lemma log_extends_refl log : log_extends log log.
Proof. exists EmptyString. by rewrite str_app_nil_r. Qed.

Lemma log_extends_trans log1 log2 log3 :
  log_extends log1 log2 → log_extends log2 log3 → log_extends log1 log3.
Proof. intros [m1 ->] [m2 ->]. exists (m1 +:+ m2). by rewrite str_app_assoc. Qed.

Lemma log_extends_report msg log : log_extends log (report msg log).
Proof. by exists (msg +:+ nl). Qed.

Lemma log_extends_report_r msg log log' :
  log_extends (report msg log) log' → log_extends log log'.
Proof. apply log_extends_trans, log_extends_report. Qed.

(** ** Dictionaries *)

Lemma dict_get_Ok_elem {V} (k : string) (v : V) (d : dict V) :
  dict_get k d = Ok v → (k, v) ∈ d.
Proof.
  induction d as [| [k' v'] d IH]; simpl; [done |].
  destruct (decide (k = k')) as [-> | Hne].
  - intros [= ->]. apply elem_of_cons. by left.
  - intros H. apply elem_of_cons. right. by apply IH.
Qed.

Lemma dict_get_Ok_key {V} (k : string) (v : V) (d : dict V) :
  dict_get k d = Ok v → k ∈ d.*1.
Proof.
  intros H. apply dict_get_Ok_elem in H. apply list_elem_of_fmap. by exists (k, v).
Qed.

Lemma dict_get_KeyError {V} (k : string) (d : dict V) :
  k ∉ d.*1 ↔ dict_get k d = Raise KeyError.
Proof.
  induction d as [| [k' v'] d IH]; simpl.
  - split; [done |]. intros _. apply not_elem_of_nil.
  - destruct (decide (k = k')) as [-> | Hne].
    + split; [| done]. intros H. exfalso. apply H, elem_of_cons. by left.
    + rewrite <- IH. rewrite not_elem_of_cons. split; [by intros [_ H] | by intros H].
Qed.

(** Assigning to a key that is there keeps the keys and their order. *)
Lemma dict_set_keys {V} (k : string) (v : V) (d : dict V) :
  k ∈ d.*1 → (dict_set k v d).*1 = d.*1.
Proof.
  induction d as [| [k' v'] d IH]; simpl.
  - intros H. by apply elem_of_nil in H.
  - destruct (decide (k = k')) as [-> | Hne]; [done |]. simpl.
    intros H. apply elem_of_cons in H as [H | H]; [done |]. f_equal. by apply IH.
Qed.

Lemma same_shape_refl d : same_shape d d.
Proof. unfold same_shape. induction d; by constructor. Qed.

(** Assigning to a key a list as long as the one it had keeps the shape. *)
Lemma dict_set_same_shape (k : string) (v v' : list string) (d : corpus) :
  dict_get k d = Ok v → length v' = length v → same_shape d (dict_set k v' d).
Proof.
  unfold same_shape. induction d as [| [k' v0] d IH]; simpl; [done |].
  destruct (decide (k = k')) as [-> | Hne].
  - intros [= ->] Hlen. constructor; [done |]. apply same_shape_refl.
  - intros Hget Hlen. constructor; [done |]. by apply IH.
Qed.

Lemma same_shape_trans d1 d2 d3 : same_shape d1 d2 → same_shape d2 d3 → same_shape d1 d3.
Proof.
  unfold same_shape. intros H12. revert d3.
  induction H12 as [| a b d1 d2 [Hk Hl] _ IH]; intros d3 H23.
  - by apply Forall2_nil_inv_l in H23 as ->.
  - apply Forall2_cons_inv_l in H23 as (c & d3' & [Hk' Hl'] & H23 & ->).
    constructor; [split; congruence |]. by apply IH.
Qed.

Lemma same_shape_keys d d' : same_shape d d' → d'.*1 = d.*1.
Proof.
  induction 1 as [| a b d d' [Hk _] _ IH]; [done |].
  rewrite !fmap_cons. by rewrite IH, Hk.
Qed.

(** ** Manual edits: composition, shape, errors *)

Lemma py_set_length {A} (l l' : list A) (i : Z) (x : A) :
  py_set l i x = Ok l' → length l' = length l.
Proof.
  unfold py_set. destruct (norm_index (length l) i); [| done].
  intros [= <-]. apply length_insert.
Qed.

Lemma py_get_set {A} (l l' : list A) (i : Z) (x y : A) :
  py_get l i = Ok y → py_set l i x = Ok l' → py_get l' i = Ok x.
Proof.
  unfold py_get, py_set. destruct (norm_index (length l) i) as [n |] eqn:Hn; [| done].
  destruct (l !! n) eqn:Hl; [| done]. intros _ [= <-].
  rewrite length_insert, Hn.
  rewrite list_lookup_insert_eq; [done |]. by apply lookup_lt_Some in Hl.
Qed.

Lemma py_get_Ok_set {A} (l : list A) (i : Z) (x y : A) :
  py_get l i = Ok y → ∃ l', py_set l i x = Ok l'.
Proof.
  unfold py_get, py_set. destruct (norm_index (length l) i); [| done]. by eexists.
Qed.

Lemma py_get_out_of_bounds {A} (l : list A) (i : Z) :
  ¬ (- Z.of_nat (length l) ≤ i < Z.of_nat (length l))%Z → py_get l i = Raise IndexError.
Proof.
  intros Hi. unfold py_get. destruct (decide (i < 0)%Z).
  - rewrite norm_index_neg by done. by rewrite bool_decide_eq_false_2 by lia.
  - rewrite norm_index_nonneg by lia. by rewrite bool_decide_eq_false_2 by lia.
Qed.

(** X2.  A confirmed edit replaces one line and nothing else.  After any
    edits that have returned [file2lines1] and [log1], an edit whose
    pattern finds a match in the targeted line of the file name in force
    (its own, or the last one named before it) stores for that file the
    list it had with the replacement text at the position the line number
    denotes (counted from the end when it is negative), all other lines
    and files as they were, and the log gets three entries: the file and
    line number, the old line and the new one. *)
Theorem confirmed_edit_replaces_line :
  ∀ edits1 f ln re_confirm redaction file file2lines log file2lines1 log1
    lines old_line found,
    apply_edits edits1 file file2lines log = Ok (file2lines1, log1) →
    let name := str_or f (file_in_force edits1 file) in
    dict_get name file2lines1 = Ok lines →
    py_get lines ln = Ok old_line →
    re_findall re_confirm old_line = Ok found → found ≠ [] →
    ∃ n,
      norm_index (length lines) ln = Some n
      ∧ ((0 ≤ ln)%Z → n = Z.to_nat ln)
      ∧ lines !! n = Some old_line
      ∧ apply_edits (edits1 ++ [(f, ln, re_confirm, redaction)]) file file2lines log
        = Ok (dict_set name (<[n := redaction]> lines) file2lines1,
              report (tab +:+ "NEW: " +:+ redaction)
                (report (tab +:+ "OLD: " +:+ old_line)
                   (report ("correction for " +:+ name +:+ " line " +:+ str_of_int ln +:+ ":")
                      log1))).
Proof.
  intros edits1 f ln re_confirm redaction file file2lines log file2lines1 log1
         lines old_line found Hrun name Hfile Hline Hre Hfound.
  unfold py_get in Hline.
  destruct (norm_index (length lines) ln) as [n |] eqn:Hn; [| done].
  exists n. split; [done |]. split; [| split].
  - intros Hln. rewrite norm_index_nonneg in Hn by done.
    case_bool_decide; [| done]. by injection Hn as <-.
  - by destruct (lines !! n) as [x |]; [injection Hline as -> |].
  - rewrite apply_edits_app, Hrun, result_bind_Ok.
    cbn [apply_edits]. cbv zeta. fold name.
    rewrite Hfile, result_bind_Ok.
    unfold py_get at 1. rewrite Hn. destruct (lines !! n) as [x |]; [| done].
    injection Hline as ->. rewrite result_bind_Ok, Hre, result_bind_Ok.
    destruct found as [| m found]; [done |]. cbn [nonempty].
    unfold py_set. rewrite Hn, result_bind_Ok. reflexivity.
Qed.

Lemma confirmed_edit_replaces_line_witness :
  ∃ n,
    norm_index (length ["N2"; "stale"]) (-1) = Some n
    ∧ ((0 ≤ -1)%Z → n = Z.to_nat (-1))
    ∧ ["N2"; "stale"] !! n = Some "stale"
    ∧ apply_edits ([("06.JoshB.par", 0%Z, "<6.2", "N2")] ++ [(EmptyString, (-1)%Z, "st", "S")])
                  EmptyString [("06.JoshB.par", ["<6x2"; "stale"])] EmptyString
      = Ok (dict_set (str_or EmptyString
                        (file_in_force [("06.JoshB.par", 0%Z, "<6.2", "N2")] EmptyString))
                     (<[n := "S"]> ["N2"; "stale"]) [("06.JoshB.par", ["N2"; "stale"])],
            report (tab +:+ "NEW: " +:+ "S")
              (report (tab +:+ "OLD: " +:+ "stale")
                 (report ("correction for "
                          +:+ str_or EmptyString
                                (file_in_force [("06.JoshB.par", 0%Z, "<6.2", "N2")] EmptyString)
                          +:+ " line " +:+ str_of_int (-1) +:+ ":")
                    ("correction for 06.JoshB.par line 0:" +:+ nl
                     +:+ tab +:+ "OLD: <6x2" +:+ nl
                     +:+ tab +:+ "NEW: N2" +:+ nl)))).
Proof.
  apply (confirmed_edit_replaces_line [("06.JoshB.par", 0%Z, "<6.2", "N2")]
           EmptyString (-1) "st" "S" EmptyString
           [("06.JoshB.par", ["<6x2"; "stale"])] EmptyString
           [("06.JoshB.par", ["N2"; "stale"])]
           ("correction for 06.JoshB.par line 0:" +:+ nl
            +:+ tab +:+ "OLD: <6x2" +:+ nl
            +:+ tab +:+ "NEW: N2" +:+ nl)
           ["N2"; "stale"] "stale" [{| whole := "st"; groups := [] |}]);
    [reflexivity | reflexivity | reflexivity | vm_compute; reflexivity | done].
Defined.

Lemma apply_edits_same_shape pending :
  ∀ file file2lines log file2lines' log',
    apply_edits pending file file2lines log = Ok (file2lines', log') →
    same_shape file2lines file2lines'.
Proof.
  induction pending as [| [[[f ln] re_confirm] redaction] pending IH];
    intros file file2lines log file2lines' log' Hrun.
  - simpl in Hrun. injection Hrun as <- <-. apply same_shape_refl.
  - simpl in Hrun.
    destruct (dict_get (str_or f file) file2lines) as [lines | e] eqn:Hfile; [| done].
    simpl in Hrun.
    destruct (py_get lines ln) as [old_line | e]; [| done]. simpl in Hrun.
    destruct (re_findall re_confirm old_line) as [found | e]; [| done]. simpl in Hrun.
    destruct (nonempty found).
    + destruct (py_set lines ln redaction) as [lines' | e] eqn:Hset; [| done].
      simpl in Hrun. apply IH in Hrun.
      eapply same_shape_trans; [| exact Hrun].
      eapply dict_set_same_shape; [done |]. by eapply py_set_length.
    + by apply IH in Hrun.
Qed.

Lemma apply_edits_log pending :
  ∀ file file2lines log file2lines' log',
    apply_edits pending file file2lines log = Ok (file2lines', log') →
    log_extends log log'.
Proof.
  induction pending as [| [[[f ln] re_confirm] redaction] pending IH];
    intros file file2lines log file2lines' log' Hrun.
  - simpl in Hrun. injection Hrun as <- <-. apply log_extends_refl.
  - simpl in Hrun.
    destruct (dict_get (str_or f file) file2lines) as [lines | e]; [| done].
    simpl in Hrun.
    destruct (py_get lines ln) as [old_line | e]; [| done]. simpl in Hrun.
    destruct (re_findall re_confirm old_line) as [found | e]; [| done]. simpl in Hrun.
    destruct (nonempty found).
    + destruct (py_set lines ln redaction) as [lines' | e]; [| done].
      simpl in Hrun. apply IH in Hrun. by do 3 apply log_extends_report_r in Hrun.
    + apply IH in Hrun. by do 3 apply log_extends_report_r in Hrun.
Qed.

(** X3.  The manual edits only overwrite lines: when the stage returns,
    the dictionary has the same files in the same order and every file has
    as many lines as before, and the log is the old log with more text
    behind it. *)
Theorem apply_edits_keeps_shape :
  ∀ pending file file2lines log file2lines' log',
    apply_edits pending file file2lines log = Ok (file2lines', log') →
    same_shape file2lines file2lines' ∧ log_extends log log'.
Proof.
  intros pending file file2lines log file2lines' log' Hrun. split.
  - by eapply apply_edits_same_shape.
  - by eapply apply_edits_log.
Qed.

Lemma apply_edits_keeps_shape_witness :
  same_shape [("06.JoshB.par", ["<6x2"; "stale"])] [("06.JoshB.par", ["N2"; "stale"])]
  ∧ log_extends "begin"
      ("begin" +:+ "**WARNING: THE FOLLOWING EDIT WAS NOT CONFIRMED**:" +:+ nl
       +:+ tab +:+ "OLD: stale" +:+ nl
       +:+ tab +:+ "EDIT: ('06.JoshB.par', 1, '12 E', 'new line')" +:+ nl
       +:+ "correction for 06.JoshB.par line 0:" +:+ nl
       +:+ tab +:+ "OLD: <6x2" +:+ nl
       +:+ tab +:+ "NEW: N2" +:+ nl).
Proof.
  apply (apply_edits_keeps_shape
           [(EmptyString, 1%Z, "12 E", "new line"); (EmptyString, 0%Z, "<6.2", "N2")]
           "06.JoshB.par").
  reflexivity.
Defined.

(** X4.  The edits stop at the first one they cannot look up, and the run
    ends there with the exception: KeyError when the file name in force
    names no file of the corpus, IndexError when the line number is
    outside the file.  Nothing of the edits before it is returned. *)
Theorem apply_edits_lookup_errors :
  ∀ edits1 f ln re_confirm redaction edits2 file file2lines log file2lines1 log1,
    apply_edits edits1 file file2lines log = Ok (file2lines1, log1) →
    let name := str_or f (file_in_force edits1 file) in
    (name ∉ file2lines1.*1 →
     apply_edits (edits1 ++ (f, ln, re_confirm, redaction) :: edits2) file file2lines log
     = Raise KeyError)
    ∧ (∀ lines,
         dict_get name file2lines1 = Ok lines →
         ¬ (- Z.of_nat (length lines) ≤ ln < Z.of_nat (length lines))%Z →
         apply_edits (edits1 ++ (f, ln, re_confirm, redaction) :: edits2) file file2lines log
         = Raise IndexError).
Proof.
  induction edits1 as [| [[[f1 ln1] re1] red1] edits1 IH];
    intros f ln re_confirm redaction edits2 file file2lines log file2lines1 log1 Hrun name.
  - simpl in Hrun. injection Hrun as <- <-. subst name. cbn [file_in_force foldl app].
    split.
    + intros Hname. apply dict_get_KeyError in Hname. simpl. by rewrite Hname.
    + intros lines Hlines Hln. simpl. rewrite Hlines. simpl.
      by rewrite py_get_out_of_bounds.
  - subst name. change (file_in_force ((f1, ln1, re1, red1) :: edits1) file)
      with (file_in_force edits1 (str_or f1 file)).
    simpl in Hrun |- *.
    destruct (dict_get (str_or f1 file) file2lines) as [lines1 | e]; [| done].
    simpl in Hrun |- *.
    destruct (py_get lines1 ln1) as [old_line | e]; [| done]. simpl in Hrun |- *.
    destruct (re_findall re1 old_line) as [found | e]; [| done]. simpl in Hrun |- *.
    destruct (nonempty found).
    + destruct (py_set lines1 ln1 red1) as [lines1' | e]; [| done]. simpl in Hrun |- *.
      exact (IH f ln re_confirm redaction edits2 _ _ _ _ _ Hrun).
    + exact (IH f ln re_confirm redaction edits2 _ _ _ _ _ Hrun).
Qed.

Lemma apply_edits_lookup_errors_witness :
  apply_edits ([("06.JoshB.par", 0%Z, "<6.2", "N2")]
                 ++ ("01.Genesis.par", 0%Z, "a", "b") :: [(EmptyString, 1%Z, "c", "d")])
              EmptyString [("06.JoshB.par", ["<6x2"; "stale"])] EmptyString
  = Raise KeyError
  ∧ apply_edits ([("06.JoshB.par", 0%Z, "<6.2", "N2")]
                   ++ (EmptyString, 2%Z, "a", "b") :: [(EmptyString, 1%Z, "c", "d")])
                EmptyString [("06.JoshB.par", ["<6x2"; "stale"])] EmptyString
    = Raise IndexError.
Proof.
  split.
  - refine (proj1 (apply_edits_lookup_errors [("06.JoshB.par", 0%Z, "<6.2", "N2")]
                     "01.Genesis.par" 0 "a" "b" _ EmptyString _ EmptyString _ _ _) _).
    + vm_compute. reflexivity.
    + vm_compute. intros H.
      apply elem_of_cons in H as [H | H]; [done | by apply elem_of_nil in H].
  - refine (proj2 (apply_edits_lookup_errors [("06.JoshB.par", 0%Z, "<6.2", "N2")]
                     EmptyString 2 "a" "b" _ EmptyString _ EmptyString _ _ _)
                  ["N2"; "stale"] _ _).
    + vm_compute. reflexivity.
    + reflexivity.
    + simpl. lia.
Defined.

(** No replacement line of the table is matched by its own confirmation
    pattern. *)
Lemma edits_replacements_unconfirmed :
  Forall (fun e : edit => re_findall e.1.2 e.2 = Ok []) edits.
Proof. repeat constructor. Qed.

(** X5.  Every edit of the table disables itself.  Once an edit of the
    table has been confirmed and applied, the targeted line holds its
    replacement text, and running the same edit again on the result is not
    confirmed: the dictionary stays as it is and the log gets the warning,
    the line (now the replacement) and the edit tuple. *)
Theorem table_edit_disables_itself :
  ∀ f ln re_confirm redaction,
    (f, ln, re_confirm, redaction) ∈ edits →
    ∀ file file2lines log lines old_line found,
      dict_get (str_or f file) file2lines = Ok lines →
      py_get lines ln = Ok old_line →
      re_findall re_confirm old_line = Ok found → found ≠ [] →
      ∃ file2lines1 log1 lines1,
        apply_edits [(f, ln, re_confirm, redaction)] file file2lines log
        = Ok (file2lines1, log1)
        ∧ dict_get (str_or f file) file2lines1 = Ok lines1
        ∧ py_get lines1 ln = Ok redaction
        ∧ apply_edits [(f, ln, re_confirm, redaction)] file file2lines1 log1
          = Ok (file2lines1,
                report (tab +:+ "EDIT: " +:+ show_edit (str_or f file) ln re_confirm redaction)
                  (report (tab +:+ "OLD: " +:+ redaction)
                     (report unconfirmed_warning log1))).
Proof.
  intros f ln re_confirm redaction Hin file file2lines log lines old_line found
         Hfile Hline Hfound Hne.
  pose proof edits_replacements_unconfirmed as Hself.
  rewrite Forall_forall in Hself. specialize (Hself _ Hin). simpl in Hself.
  destruct (py_get_Ok_set lines ln redaction old_line Hline) as [lines1 Hset].
  exists (dict_set (str_or f file) lines1 file2lines). eexists. exists lines1.
  split; [| split; [| split]].
  - simpl. rewrite Hfile. simpl. rewrite Hline. simpl. rewrite Hfound. simpl.
    destruct found; [done |]. simpl. rewrite Hset. reflexivity.
  - apply dict_get_set.
  - by eapply py_get_set.
  - simpl. rewrite dict_get_set. simpl.
    rewrite (py_get_set lines lines1 ln redaction old_line) by done. simpl.
    rewrite Hself. reflexivity.
Qed.

Lemma table_edit_disables_itself_witness :
  ∃ file2lines1 log1 lines1,
    apply_edits [("44.Ezekiel.par", 471%Z, "OU=} MDBR",
                  "MDBR =v" +:+ tab +:+ "{...?AU)TOU=} LALOU=NTOS")]
                EmptyString
                [("44.Ezekiel.par", blank 471 ++ ["{...?AU)TOU=} MDBR =v" +:+ tab +:+ "LALOU=NTOS"])]
                EmptyString
    = Ok (file2lines1, log1)
    ∧ dict_get (str_or "44.Ezekiel.par" EmptyString) file2lines1 = Ok lines1
    ∧ py_get lines1 471 = Ok ("MDBR =v" +:+ tab +:+ "{...?AU)TOU=} LALOU=NTOS")
    ∧ apply_edits [("44.Ezekiel.par", 471%Z, "OU=} MDBR",
                    "MDBR =v" +:+ tab +:+ "{...?AU)TOU=} LALOU=NTOS")]
                  EmptyString file2lines1 log1
      = Ok (file2lines1,
            report (tab +:+ "EDIT: "
                    +:+ show_edit (str_or "44.Ezekiel.par" EmptyString) 471 "OU=} MDBR"
                          ("MDBR =v" +:+ tab +:+ "{...?AU)TOU=} LALOU=NTOS"))
              (report (tab +:+ "OLD: " +:+ "MDBR =v" +:+ tab +:+ "{...?AU)TOU=} LALOU=NTOS")
                 (report unconfirmed_warning log1))).
Proof.
  apply (table_edit_disables_itself "44.Ezekiel.par" 471 "OU=} MDBR" _)
    with (lines := blank 471 ++ ["{...?AU)TOU=} MDBR =v" +:+ tab +:+ "LALOU=NTOS"])
         (old_line := "{...?AU)TOU=} MDBR =v" +:+ tab +:+ "LALOU=NTOS")
         (found := [{| whole := "OU=} MDBR"; groups := [] |}]).
  - unfold edits. rewrite !elem_of_cons. do 14 right. by left.
  - reflexivity.
  - vm_compute. reflexivity.
  - vm_compute. reflexivity.
  - done.
Defined.

(** ** Block repairs: what a repair that applies does, and when it raises *)

Lemma excised_lookup_before {A} (l : list A) (a b k : nat) (x : A) :
  k < a → a ≤ length l → (take a l ++ [x] ++ drop b l) !! k = l !! k.
Proof.
  intros Hk Ha. rewrite lookup_app_l by (rewrite length_take; lia).
  by rewrite lookup_take_lt.
Qed.

Lemma excised_lookup_at {A} (l : list A) (a b : nat) (x : A) :
  a ≤ length l → (take a l ++ [x] ++ drop b l) !! a = Some x.
Proof.
  intros Ha. rewrite lookup_app_r by (rewrite length_take; lia).
  rewrite length_take, Nat.min_l by done. by rewrite Nat.sub_diag.
Qed.

Lemma excised_length {A} (l : list A) (a b : nat) (x : A) :
  a < b → b ≤ length l → length (take a l ++ [x] ++ drop b l) + (b - a - 1) = length l.
Proof.
  intros Hab Hb. rewrite !length_app, length_take, length_drop. simpl. lia.
Qed.

(** X6.  When the Exodus anchor matches, on a file of at least 16288
    lines, the repair stores a list that is four lines shorter: the lines
    before index 16283 stay where they are, index 16283 now holds the old
    line 16285, and every line from the old index 16288 on has moved up by
    four (the old lines 16283, 16284, 16286 and 16287 are gone).  The
    other files of the dictionary are not touched. *)
Theorem exodus_excision_shape :
  ∀ file2lines log exod,
    dict_get "02.Exodus.par" file2lines = Ok exod →
    py_get exod 16284 = Ok "Exod 1:10" →
    Z.to_nat 16288 ≤ length exod →
    ∃ fixed_lines log' file2lines',
      repair_exodus file2lines log = Ok (file2lines', log')
      ∧ dict_get "02.Exodus.par" file2lines' = Ok fixed_lines
      ∧ (∀ file, file ≠ "02.Exodus.par" → dict_get file file2lines' = dict_get file file2lines)
      ∧ length fixed_lines + 4 = length exod
      ∧ (∀ k, k < Z.to_nat 16283 → fixed_lines !! k = exod !! k)
      ∧ fixed_lines !! Z.to_nat 16283 = exod !! Z.to_nat 16285
      ∧ (∀ k, fixed_lines !! (Z.to_nat 16284 + k) = exod !! (Z.to_nat 16288 + k)).
Proof.
  intros file2lines log exod Hexod Hanchor Hlen.
  destruct (lookup_lt_is_Some_2 exod (Z.to_nat 16285)) as [kept Hkept]; [lia |].
  assert (py_get exod 16285 = Ok kept) as Hget.
  { replace 16285%Z with (Z.of_nat (Z.to_nat 16285)) by lia. by rewrite py_get_nat, Hkept. }
  exists (take (Z.to_nat 16283) exod ++ [kept] ++ drop (Z.to_nat 16288) exod).
  eexists. eexists. split; [| split; [| split; [| split; [| split; [| split]]]]].
  - unfold repair_exodus. rewrite Hexod. simpl. rewrite Hanchor. simpl.
    rewrite Hget. simpl. rewrite py_upto_nonneg, py_from_nonneg by lia. reflexivity.
  - apply dict_get_set.
  - intros file Hne. by apply dict_get_set_ne.
  - pose proof (excised_length exod (Z.to_nat 16283) (Z.to_nat 16288) kept) as H. lia.
  - intros k Hk. apply excised_lookup_before; lia.
  - rewrite Hkept. apply excised_lookup_at. lia.
  - intros k. replace (Z.to_nat 16284 + k) with (Z.to_nat 16283 + 1 + k) by lia.
    apply excised_lookup. lia.
Qed.

(** An Exodus file with the corruption the repair looks for. *)
Lemma exodus_excision_shape_witness :
  let exod := blank 16283 ++ [EmptyString; "Exod 1:10"; tab +:+ "#"; EmptyString; "Exod 35:19";
                              "--+" +:+ tab +:+ "E)N AU)TAI=S "] in
  ∃ fixed_lines log' file2lines',
    repair_exodus [("02.Exodus.par", exod); ("20.Psalms.par", psalms_example)] EmptyString
    = Ok (file2lines', log')
    ∧ dict_get "02.Exodus.par" file2lines' = Ok fixed_lines
    ∧ (∀ file, file ≠ "02.Exodus.par" →
       dict_get file file2lines'
       = dict_get file [("02.Exodus.par", exod); ("20.Psalms.par", psalms_example)])
    ∧ length fixed_lines + 4 = length exod
    ∧ (∀ k, k < Z.to_nat 16283 → fixed_lines !! k = exod !! k)
    ∧ fixed_lines !! Z.to_nat 16283 = exod !! Z.to_nat 16285
    ∧ (∀ k, fixed_lines !! (Z.to_nat 16284 + k) = exod !! (Z.to_nat 16288 + k)).
Proof.
  intros exod. apply exodus_excision_shape.
  - reflexivity.
  - vm_compute. reflexivity.
  - apply (bool_decide_unpack _). vm_compute. reflexivity.
Defined.

(** X7.  When the Ps 68:31 anchor matches and the Ps 18:40 anchor line is
    there but reads differently, the two Psalms repairs leave the merge in
    the dictionary: the stored list is two lines shorter, the lines before
    index 10848 stay where they are, index 10848 holds the three old lines
    10848 to 10850 joined, and the lines behind have moved up by two. *)
Theorem psalms_merge_kept_without_excision :
  ∀ file2lines log pss l1 l2 anchor,
    dict_get "20.Psalms.par" file2lines = Ok pss →
    py_get pss 10848 = Ok "MTR" → py_get pss 10849 = Ok l1 → py_get pss 10850 = Ok l2 →
    py_get pss 2459 = Ok anchor → anchor ≠ "Ps 18:40" →
    ∃ merged_lines log' file2lines',
      repair_psalms file2lines log = Ok (file2lines', log')
      ∧ dict_get "20.Psalms.par" file2lines' = Ok merged_lines
      ∧ length merged_lines + 2 = length pss
      ∧ (∀ k, k < Z.to_nat 10848 → merged_lines !! k = pss !! k)
      ∧ merged_lines !! Z.to_nat 10848 = Some ("MTR" +:+ l1 +:+ l2)
      ∧ (∀ k, merged_lines !! (Z.to_nat 10849 + k) = pss !! (Z.to_nat 10851 + k)).
Proof.
  intros file2lines log pss l1 l2 anchor Hpss H0 H1 H2 Hanchor Hne.
  apply py_get_Ok_lt in H2 as H2'; [| lia]. destruct H2' as [_ Hlen].
  exists (take (Z.to_nat 10848) pss ++ ["MTR" +:+ l1 +:+ l2] ++ drop (Z.to_nat 10851) pss).
  eexists. eexists. split; [| split; [| split; [| split; [| split]]]].
  - unfold repair_psalms, repair_ps_68_31, repair_ps_18_40.
    rewrite Hpss. simpl. rewrite H0. simpl. rewrite H1. simpl. rewrite H2. simpl.
    rewrite Hanchor. simpl. rewrite decide_False by done.
    rewrite py_upto_nonneg, py_from_nonneg by lia. reflexivity.
  - apply dict_get_set.
  - pose proof (excised_length pss (Z.to_nat 10848) (Z.to_nat 10851) ("MTR" +:+ l1 +:+ l2)).
    lia.
  - intros k Hk. apply excised_lookup_before; lia.
  - apply excised_lookup_at. lia.
  - intros k. replace (Z.to_nat 10849 + k) with (Z.to_nat 10848 + 1 + k) by lia.
    apply excised_lookup. lia.
Qed.

Lemma psalms_merge_kept_without_excision_witness :
  let pss := blank 10848 ++ ["MTR"; "I"; "M" +:+ tab +:+ "E)K"; "Ps 68:32"] in
  ∃ merged_lines log' file2lines',
    repair_psalms [("20.Psalms.par", pss)] EmptyString = Ok (file2lines', log')
    ∧ dict_get "20.Psalms.par" file2lines' = Ok merged_lines
    ∧ length merged_lines + 2 = length pss
    ∧ (∀ k, k < Z.to_nat 10848 → merged_lines !! k = pss !! k)
    ∧ merged_lines !! Z.to_nat 10848 = Some ("MTR" +:+ "I" +:+ "M" +:+ tab +:+ "E)K")
    ∧ (∀ k, merged_lines !! (Z.to_nat 10849 + k) = pss !! (Z.to_nat 10851 + k)).
Proof.
  intros pss.
  apply (psalms_merge_kept_without_excision _ _ _ _ _ EmptyString);
    [reflexivity | vm_compute; reflexivity .. | done].
Defined.

Lemma repair_exodus_keeps file2lines log file2lines' log' :
  repair_exodus file2lines log = Ok (file2lines', log') →
  file2lines'.*1 = file2lines.*1 ∧ log_extends log log'
  ∧ ∀ file, file ≠ "02.Exodus.par" → dict_get file file2lines' = dict_get file file2lines.
Proof.
  unfold repair_exodus.
  destruct (dict_get "02.Exodus.par" file2lines) as [exod | ?] eqn:Hexod; [| done]. simpl.
  destruct (py_get exod 16284) as [anchor | ?]; [| done]. simpl.
  destruct (decide (anchor = "Exod 1:10")).
  - destruct (py_get exod 16285) as [kept | ?]; [| done]. simpl.
    intros [= <- <-]. split; [| split].
    + apply dict_set_keys. by eapply dict_get_Ok_key.
    + eapply log_extends_trans; apply log_extends_report.
    + intros file Hne. by apply dict_get_set_ne.
  - intros [= <- <-]. split; [done |]. split; [apply log_extends_report | done].
Qed.

Lemma repair_psalms_keeps file2lines log file2lines' log' :
  repair_psalms file2lines log = Ok (file2lines', log') →
  file2lines'.*1 = file2lines.*1 ∧ log_extends log log'
  ∧ ∀ file, file ≠ "20.Psalms.par" → dict_get file file2lines' = dict_get file file2lines.
Proof.
  unfold repair_psalms.
  destruct (dict_get "20.Psalms.par" file2lines) as [pss | ?] eqn:Hpss; [| done]. simpl.
  apply dict_get_Ok_key in Hpss.
  destruct (repair_ps_68_31 pss file2lines log) as [[d1 log1] | ?] eqn:H1; [| done]. simpl.
  assert (d1.*1 = file2lines.*1 ∧ log_extends log log1
          ∧ ∀ file, file ≠ "20.Psalms.par" → dict_get file d1 = dict_get file file2lines)
    as (Hk1 & Hl1 & Hf1).
  { unfold repair_ps_68_31 in H1.
    destruct (py_get pss 10848) as [anchor | ?]; [| done]. simpl in H1.
    destruct (decide (anchor = "MTR")).
    - destruct (py_get pss 10849) as [l1 | ?]; [| done]. simpl in H1.
      destruct (py_get pss 10850) as [l2 | ?]; [| done]. simpl in H1.
      injection H1 as <- <-. split; [| split].
      + by apply dict_set_keys.
      + eapply log_extends_trans; apply log_extends_report.
      + intros file Hne. by apply dict_get_set_ne.
    - injection H1 as <- <-. split; [done |]. split; [apply log_extends_report | done]. }
  unfold repair_ps_18_40.
  destruct (py_get pss 2459) as [anchor | ?]; [| done]. simpl.
  destruct (decide (anchor = "Ps 18:40")).
  - destruct (py_get pss 2457) as [kept | ?]; [| done]. simpl.
    intros [= <- <-]. split; [| split].
    + rewrite dict_set_keys; [done |]. by rewrite Hk1.
    + eapply log_extends_trans; [exact Hl1 |].
      eapply log_extends_trans; apply log_extends_report.
    + intros file Hne. rewrite dict_get_set_ne by done. by apply Hf1.
  - intros [= <- <-]. split; [done |]. split; [| done].
    eapply log_extends_trans; [exact Hl1 | apply log_extends_report].
Qed.

Lemma other_edits_keeps file2lines log file2lines' log' :
  other_edits file2lines log = Ok (file2lines', log') →
  file2lines'.*1 = file2lines.*1 ∧ log_extends log log'.
Proof.
  unfold other_edits.
  destruct (repair_exodus file2lines log) as [[d1 log1] | ?] eqn:H1; [| done]. simpl.
  intros H2. apply repair_exodus_keeps in H1 as (Hk1 & Hl1 & _).
  apply repair_psalms_keeps in H2 as (Hk2 & Hl2 & _).
  split; [congruence | by eapply log_extends_trans].
Qed.

(** X8.  The block repairs do not skip a file that is missing or too
    short: they raise.  The stage raises KeyError when the Exodus file or
    the Psalms file is not in the corpus, and IndexError when the Exodus
    file has no line 16284, when its anchor matches but it has no line
    16285 to keep, and when the Psalms file has no line 10848. *)
Theorem block_repairs_raise_on_missing_lines :
  (∀ file2lines log,
      "02.Exodus.par" ∉ file2lines.*1 → other_edits file2lines log = Raise KeyError)
  ∧ (∀ file2lines log exod,
      dict_get "02.Exodus.par" file2lines = Ok exod →
      length exod ≤ Z.to_nat 16284 → other_edits file2lines log = Raise IndexError)
  ∧ (∀ file2lines log exod,
      dict_get "02.Exodus.par" file2lines = Ok exod →
      py_get exod 16284 = Ok "Exod 1:10" → length exod = Z.to_nat 16285 →
      other_edits file2lines log = Raise IndexError)
  ∧ (∀ file2lines log file2lines1 log1,
      repair_exodus file2lines log = Ok (file2lines1, log1) →
      "20.Psalms.par" ∉ file2lines.*1 → other_edits file2lines log = Raise KeyError)
  ∧ (∀ file2lines log file2lines1 log1 pss,
      repair_exodus file2lines log = Ok (file2lines1, log1) →
      dict_get "20.Psalms.par" file2lines = Ok pss →
      length pss ≤ Z.to_nat 10848 → other_edits file2lines log = Raise IndexError).
Proof.
  split; [| split; [| split; [| split]]].
  - intros file2lines log Hkey. apply dict_get_KeyError in Hkey.
    unfold other_edits, repair_exodus. by rewrite Hkey.
  - intros file2lines log exod Hexod Hlen.
    unfold other_edits, repair_exodus. rewrite Hexod. simpl.
    rewrite (py_get_out_of_bounds exod 16284) by lia. reflexivity.
  - intros file2lines log exod Hexod Hanchor Hlen.
    unfold other_edits, repair_exodus. rewrite Hexod. simpl. rewrite Hanchor. simpl.
    rewrite (py_get_out_of_bounds exod 16285) by lia. reflexivity.
  - intros file2lines log file2lines1 log1 H1 Hkey.
    unfold other_edits. rewrite H1. simpl.
    apply repair_exodus_keeps in H1 as (Hk1 & _ & _). rewrite <- Hk1 in Hkey.
    apply dict_get_KeyError in Hkey. unfold repair_psalms. by rewrite Hkey.
  - intros file2lines log file2lines1 log1 pss H1 Hpss Hlen.
    unfold other_edits. rewrite H1. simpl.
    apply repair_exodus_keeps in H1 as (_ & _ & Hf1).
    unfold repair_psalms. rewrite Hf1, Hpss by done. simpl.
    unfold repair_ps_68_31. rewrite (py_get_out_of_bounds pss 10848) by lia. reflexivity.
Qed.

Lemma block_repairs_raise_on_missing_lines_witness :
  other_edits [("20.Psalms.par", psalms_example)] EmptyString = Raise KeyError
  ∧ other_edits [("02.Exodus.par", blank 16284)] EmptyString = Raise IndexError
  ∧ other_edits [("02.Exodus.par", blank 16284 ++ ["Exod 1:10"])] EmptyString = Raise IndexError
  ∧ other_edits [("02.Exodus.par", exodus_shifted)] EmptyString = Raise KeyError
  ∧ other_edits [("02.Exodus.par", exodus_shifted); ("20.Psalms.par", blank 10848)]
                EmptyString = Raise IndexError.
Proof.
  destruct block_repairs_raise_on_missing_lines as (H1 & H2 & H3 & H4 & H5).
  split; [| split; [| split; [| split]]].
  - apply H1. simpl. intros H.
    apply elem_of_cons in H as [H | H]; [done | by apply elem_of_nil in H].
  - apply (H2 _ _ (blank 16284)); [reflexivity |].
    apply (bool_decide_unpack _). vm_compute. reflexivity.
  - apply (H3 _ _ (blank 16284 ++ ["Exod 1:10"])); [reflexivity | vm_compute; reflexivity |].
    apply (bool_decide_unpack _). vm_compute. reflexivity.
  - apply (H4 _ _ [("02.Exodus.par", exodus_shifted)] (report exodus_warning EmptyString)).
    + vm_compute. reflexivity.
    + simpl. intros H.
      apply elem_of_cons in H as [H | H]; [done | by apply elem_of_nil in H].
  - apply (H5 _ _ [("02.Exodus.par", exodus_shifted); ("20.Psalms.par", blank 10848)]
              (report exodus_warning EmptyString) (blank 10848)).
    + vm_compute. reflexivity.
    + reflexivity.
    + apply (bool_decide_unpack _). vm_compute. reflexivity.
Defined.

(** ** The orphan scan: an induction principle that follows the loop *)

Section ScanInduction.

Variable ref_match : string → bool.
Variable file : string.
Variable lines : list string.

#[local] Abbreviation scan := (scan_lines ref_match file lines).

Variable P : nat → list string → option string → string →
             result (list string * option string * string) → Prop.

Hypothesis P_exit : ∀ i filtered cv log,
  length lines ≤ i → P i filtered cv log (Ok (filtered, cv, log)).
Hypothesis P_reference : ∀ i filtered cv log line,
  lines !! i = Some line → ref_match line = true →
  P (i + 1) (filtered ++ [line]) (Some line) log
    (scan (i + 1) (filtered ++ [line]) (Some line) log) →
  P i filtered cv log (scan (i + 1) (filtered ++ [line]) (Some line) log).
Hypothesis P_keep : ∀ i filtered cv log line,
  lines !! i = Some line → ref_match line = false → lacks_tab line = false →
  P (i + 1) (filtered ++ [line]) cv log (scan (i + 1) (filtered ++ [line]) cv log) →
  P i filtered cv log (scan (i + 1) (filtered ++ [line]) cv log).
Hypothesis P_orphan_last : ∀ i filtered cv log line,
  lines !! i = Some line → i + 1 = length lines →
  is_orphan ref_match line = true →
  P i filtered cv log (Raise IndexError).
Hypothesis P_orphan_no_context : ∀ i filtered log line next,
  lines !! i = Some line → lines !! (i + 1) = Some next →
  is_orphan ref_match line = true →
  P i filtered None log (Raise AttributeError).
Hypothesis P_orphan_down : ∀ i filtered verse log line next prev,
  lines !! i = Some line → lines !! (i + 1) = Some next →
  is_orphan ref_match line = true → startswith "Ps" verse = true →
  let log' := report (orphan_message file i (Some verse) (orphan_show prev line next)) log in
  P (i + 2) (filtered ++ [line +:+ next]) (Some verse) log'
    (scan (i + 2) (filtered ++ [line +:+ next]) (Some verse) log') →
  P i filtered (Some verse) log (scan (i + 2) (filtered ++ [line +:+ next]) (Some verse) log').
Hypothesis P_orphan_up : ∀ i emitted last verse log line next prev,
  lines !! i = Some line → lines !! (i + 1) = Some next →
  is_orphan ref_match line = true → startswith "Ps" verse = false →
  let log' := report (orphan_message file i (Some verse) (orphan_show prev line next)) log in
  P (i + 1) (emitted ++ [last +:+ line]) (Some verse) log'
    (scan (i + 1) (emitted ++ [last +:+ line]) (Some verse) log') →
  P i (emitted ++ [last]) (Some verse) log
    (scan (i + 1) (emitted ++ [last +:+ line]) (Some verse) log').
Hypothesis P_orphan_up_empty : ∀ i verse log line next,
  lines !! i = Some line → lines !! (i + 1) = Some next →
  is_orphan ref_match line = true → startswith "Ps" verse = false →
  P i [] (Some verse) log (Raise IndexError).

Lemma scan_lines_induction : ∀ i filtered cv log,
  P i filtered cv log (scan i filtered cv log).
Proof.
  intros i. remember (length lines - i) as n eqn:Hn. revert i Hn.
  induction n as [n IH] using lt_wf_ind. intros i Hn filtered cv log.
  destruct (decide (i < length lines)) as [Hi | Hi];
    [| rewrite scan_exit by lia; apply P_exit; lia].
  destruct (lookup_lt_is_Some_2 lines i Hi) as [line Hline].
  assert (∀ j, i < j → ∀ filtered' cv' log',
             P j filtered' cv' log' (scan j filtered' cv' log')) as Hrec.
  { intros j Hj. apply (IH (length lines - j)); lia. }
  destruct (ref_match line) eqn:Href.
  { rewrite (scan_reference _ _ _ _ _ _ _ line) by done.
    apply P_reference; [done | done |]. apply Hrec. lia. }
  destruct (lacks_tab line) eqn:Htab.
  2: { rewrite (scan_keep _ _ _ _ _ _ _ line) by done.
       apply P_keep; [done | done | done |]. apply Hrec. lia. }
  assert (is_orphan ref_match line = true) as Ho by (by apply is_orphan_true).
  destruct (lines !! (i + 1)) as [next |] eqn:Hnext.
  2: { apply lookup_ge_None in Hnext.
       rewrite (scan_orphan_last _ _ _ _ _ _ _ line) by (done || lia).
       eapply P_orphan_last; [done | lia | done]. }
  destruct cv as [verse |].
  2: { rewrite (scan_orphan_no_context _ _ _ _ _ _ line next) by done.
       by eapply P_orphan_no_context. }
  destruct (py_get_pred_ok lines i Hi) as [prev Hprev].
  destruct (startswith "Ps" verse) eqn:Hps.
  { rewrite (scan_orphan_down _ _ _ _ _ _ _ line next prev) by done.
    apply P_orphan_down; [done | done | done | done |]. apply Hrec. lia. }
  destruct filtered as [| last emitted _] using rev_ind.
  { rewrite (scan_orphan_up_empty _ _ _ _ _ _ line next) by done.
    by eapply P_orphan_up_empty. }
  rewrite (scan_orphan_up _ _ _ _ _ _ _ _ line next prev) by done.
  apply P_orphan_up; [done | done | done | done |]. apply Hrec. lia.
Qed.

End ScanInduction.

(** ** The orphan scan: what it keeps and how it fails *)

Lemma str_concat_app a b : str_concat (a ++ b) = str_concat a +:+ str_concat b.
Proof.
  induction a as [| x a IH]; [done |].
  change (x +:+ str_concat (a ++ b) = (x +:+ str_concat a) +:+ str_concat b).
  by rewrite IH, str_app_assoc.
Qed.

Lemma str_concat_snoc a x : str_concat (a ++ [x]) = str_concat a +:+ x.
Proof.
  rewrite str_concat_app. change (str_concat [x]) with (x +:+ EmptyString).
  by rewrite str_app_nil_r.
Qed.

Lemma str_concat_drop (lines : list string) i line :
  lines !! i = Some line →
  str_concat (drop i lines) = line +:+ str_concat (drop (i + 1) lines).
Proof.
  intros H. rewrite (drop_S _ _ _ H). by replace (S i) with (i + 1) by lia.
Qed.

Section ScanInvariants.

Variable ref_match : string → bool.

Lemma scan_lines_post file lines i filtered cv log :
  scan_post ref_match lines i filtered cv log
            (scan_lines ref_match file lines i filtered cv log).
Proof.
  apply scan_lines_induction; clear i filtered cv log.
  - intros i filtered cv log Hi. simpl. split; [apply log_extends_refl |].
    rewrite drop_ge by done. simpl. rewrite str_app_nil_r.
    split; [done |]. split; [lia | by left].
  - intros i filtered cv log line Hline Href.
    destruct (scan_lines ref_match file lines (i + 1) (filtered ++ [line]) (Some line) log)
      as [[[out cv'] log'] | e]; simpl.
    + intros (Hlog & Hcat & Hlen & Hcv). split; [done |]. split; [| split].
      * rewrite Hcat, str_concat_snoc, (str_concat_drop lines i line) by done.
        by rewrite str_app_assoc.
      * rewrite length_app in Hlen. simpl in Hlen. apply lookup_lt_Some in Hline. lia.
      * right. destruct Hcv as [-> | Hcv]; [| done].
        exists line. split; [by eapply list_elem_of_lookup_2 | done].
    + intros [-> | [_ [=]]]. by left.
  - intros i filtered cv log line Hline Href Htab.
    destruct (scan_lines ref_match file lines (i + 1) (filtered ++ [line]) cv log)
      as [[[out cv'] log'] | e]; simpl; [| done].
    intros (Hlog & Hcat & Hlen & Hcv). split; [done |]. split; [| split; [| done]].
    + rewrite Hcat, str_concat_snoc, (str_concat_drop lines i line) by done.
      by rewrite str_app_assoc.
    + rewrite length_app in Hlen. simpl in Hlen. apply lookup_lt_Some in Hline. lia.
  - intros. simpl. by left.
  - intros. simpl. by right.
  - intros i filtered verse log line next prev Hline Hnext Ho Hps log'.
    destruct (scan_lines ref_match file lines (i + 2) (filtered ++ [line +:+ next])
                         (Some verse) log') as [[[out cv'] log''] | e]; simpl.
    + intros (Hlog & Hcat & Hlen & Hcv). split; [| split; [| split; [| done]]].
      * by apply log_extends_report_r in Hlog.
      * rewrite Hcat, str_concat_snoc, (str_concat_drop lines i line) by done.
        rewrite (str_concat_drop lines (i + 1) next) by done.
        replace (i + 1 + 1) with (i + 2) by lia. by rewrite !str_app_assoc.
      * rewrite length_app in Hlen. simpl in Hlen. apply lookup_lt_Some in Hnext. lia.
    + intros [-> | [_ [=]]]. by left.
  - intros i emitted last verse log line next prev Hline Hnext Ho Hps log'.
    destruct (scan_lines ref_match file lines (i + 1) (emitted ++ [last +:+ line])
                         (Some verse) log') as [[[out cv'] log''] | e]; simpl.
    + intros (Hlog & Hcat & Hlen & Hcv). split; [| split; [| split; [| done]]].
      * by apply log_extends_report_r in Hlog.
      * rewrite Hcat, !str_concat_snoc, (str_concat_drop lines i line) by done.
        by rewrite !str_app_assoc.
      * rewrite !length_app in *. simpl in *. apply lookup_lt_Some in Hline. lia.
    + intros [-> | [_ [=]]]. by left.
  - intros. simpl. by left.
Qed.

End ScanInvariants.

(** X9.  The orphan scan only takes line breaks away.  When the scan of
    a file returns, the lines it emits, put end to end, are the lines of
    the file put end to end: no character is added, lost or moved; and it
    emits at most as many lines as the file has. *)
Theorem orphan_scan_keeps_text (ref_match : string → bool) :
  ∀ file lines cv log out cv' log',
    scan_lines ref_match file lines 0 [] cv log = Ok (out, cv', log') →
    str_concat out = str_concat lines ∧ length out ≤ length lines.
Proof.
  intros file lines cv log out cv' log' Hrun.
  pose proof (scan_lines_post ref_match file lines 0 [] cv log) as H.
  rewrite Hrun in H. simpl in H. destruct H as (_ & Hcat & Hlen & _).
  split; [done | lia].
Qed.

Lemma orphan_scan_keeps_text_witness :
  str_concat ["Gen 1:1"; "some base" +:+ tab +:+ "GKTAILMORE"; EmptyString]
  = str_concat ["Gen 1:1"; "some base" +:+ tab +:+ "GK"; "TAIL"; "MORE"; EmptyString]
  ∧ length ["Gen 1:1"; "some base" +:+ tab +:+ "GKTAILMORE"; EmptyString]
    ≤ length ["Gen 1:1"; "some base" +:+ tab +:+ "GK"; "TAIL"; "MORE"; EmptyString].
Proof.
  eapply (orphan_scan_keeps_text ref_string_match "01.Genesis.par" _ None EmptyString).
  vm_compute. reflexivity.
Defined.

(** X10.  The only exceptions of the orphan scan are IndexError and
    AttributeError, and AttributeError needs the verse context None at the
    start of the scan: with a verse context at hand the scan of any file
    raises nothing but IndexError.  A verse context that is set is never
    unset: the context after a scan that returns is the one before it or a
    reference line of the file. *)
Theorem orphan_scan_exceptions (ref_match : string → bool) :
  ∀ file lines cv log,
    match scan_lines ref_match file lines 0 [] cv log with
    | Ok (_, cv', _) =>
        cv' = cv ∨ ∃ line, line ∈ lines ∧ ref_match line = true ∧ cv' = Some line
    | Raise e => e = IndexError ∨ (e = AttributeError ∧ cv = None)
    end.
Proof.
  intros file lines cv log.
  pose proof (scan_lines_post ref_match file lines 0 [] cv log) as H.
  destruct (scan_lines ref_match file lines 0 [] cv log) as [[[out cv'] log'] | e];
    simpl in H; [by destruct H as (_ & _ & _ & H) | done].
Qed.

(** ** The orphan stage on a corpus without orphans *)

Lemma orphan_files_no_orphans (ref_match : string → bool) items : ∀ done cv log,
  NoDup (done ++ items).*1 →
  Forall (fun fl : string * list string =>
            Forall (fun l => is_orphan ref_match l = false) fl.2) items →
  ∃ cv', orphan_files ref_match items (done ++ items) cv log = Ok (done ++ items, cv', log).
Proof.
  induction items as [| [file lines] items IH]; intros done cv log Hdup Hitems.
  - by eexists.
  - apply Forall_cons in Hitems as [Hlines Hitems]. simpl in Hlines.
    cbn [orphan_files]. rewrite scan_file_no_orphans by done. rewrite result_bind_Ok.
    assert (file ∉ done.*1) as Hfresh.
    { rewrite fmap_app in Hdup. apply NoDup_app in Hdup as (_ & Hdisj & _).
      intros Hin. apply (Hdisj file Hin). simpl. apply elem_of_cons. by left. }
    rewrite dict_set_middle by done.
    specialize (IH (done ++ [(file, lines)]) (context_after ref_match cv lines) log).
    rewrite <- app_assoc in IH. simpl in IH. apply IH; [| done].
    by rewrite fmap_app in *.
Qed.

(** X11.  On a corpus without orphans the orphan stage changes nothing:
    it returns the dictionary it was given, whatever reference lines the
    files hold, and the log gets only the two messages that open and close
    the stage.  ([file2lines] is a dictionary: its keys are distinct.) *)
Theorem orphan_stage_identity_without_orphans (ref_match : string → bool) :
  ∀ file2lines log,
    NoDup file2lines.*1 →
    Forall (fun fl : string * list string =>
              Forall (fun l => is_orphan ref_match l = false) fl.2) file2lines →
    patch_orphans ref_match file2lines log =
    Ok (file2lines,
        report (tab +:+ "done")
          (report "patching orphaned lines (see code for description)..." log)).
Proof.
  intros file2lines log Hdup Hlines. unfold patch_orphans.
  destruct (orphan_files_no_orphans ref_match file2lines [] None
              (report "patching orphaned lines (see code for description)..." log))
    as [cv' Hrun]; [done | done |].
  rewrite app_nil_l in Hrun. by rewrite Hrun.
Qed.

Lemma orphan_stage_identity_without_orphans_witness :
  patch_orphans ref_string_match
    [("20.Psalms.par", ["Ps 18:40"; "a" +:+ tab +:+ "b"; EmptyString]);
     ("02.Exodus.par", ["Exod 1:10"; "c" +:+ tab +:+ "d"])] EmptyString =
  Ok ([("20.Psalms.par", ["Ps 18:40"; "a" +:+ tab +:+ "b"; EmptyString]);
       ("02.Exodus.par", ["Exod 1:10"; "c" +:+ tab +:+ "d"])],
      report (tab +:+ "done")
        (report "patching orphaned lines (see code for description)..." EmptyString)).
Proof.
  apply orphan_stage_identity_without_orphans.
  - apply (bool_decide_unpack _). reflexivity.
  - repeat constructor.
Defined.

(** ** The normalizer: what a pass emits, and what the two substitutions do *)

Lemma normalize_lines_log (ref_match : string → bool) search replace file lines :
  ∀ new_lines curr_verse log out log',
    normalize_lines ref_match search replace file lines new_lines curr_verse log
    = Ok (out, log') → log_extends log log'.
Proof.
  induction lines as [| line lines IH]; intros new_lines curr_verse log out log' Hrun.
  - simpl in Hrun. injection Hrun as <- <-. apply log_extends_refl.
  - cbn [normalize_lines] in Hrun.
    destruct (ref_match line); cbn zeta beta iota in Hrun;
      (destruct (nonempty (findall search line));
       [ destruct (sub search replace line) as [redaction | ?]; [| done];
         rewrite result_bind_Ok in Hrun; apply IH in Hrun;
         by do 3 apply log_extends_report_r in Hrun
       | by apply IH in Hrun ]).
Qed.

Lemma normalize_lines_run (ref_match : string → bool) search replace t file lines :
  compile_template (groups_of search) replace = Ok t →
  ∀ new_lines curr_verse log,
    ∃ log',
      normalize_lines ref_match search replace file lines new_lines curr_verse log
      = Ok (new_lines ++ concat (map (pass_line ref_match search t) lines), log').
Proof.
  intros Ht. induction lines as [| line lines IH]; intros new_lines curr_verse log.
  - exists log. simpl. by rewrite app_nil_r.
  - cbn [normalize_lines map concat]. unfold pass_line at 1.
    destruct (ref_match line); cbn zeta beta iota;
      destruct (nonempty (findall search line)).
    + rewrite (sub_compiled _ _ t) by done. rewrite result_bind_Ok.
      edestruct IH as (log' & ->). exists log'. by rewrite <- !app_assoc.
    + edestruct IH as (log' & ->). exists log'. by rewrite <- !app_assoc.
    + rewrite (sub_compiled _ _ t) by done. rewrite result_bind_Ok.
      edestruct IH as (log' & ->). exists log'. by rewrite <- !app_assoc.
    + edestruct IH as (log' & ->). exists log'. by rewrite <- !app_assoc.
Qed.

(** X12.  One pass of the normalizer, for a pattern whose replacement
    template compiles, returns.  It appends to [new_lines], for every line
    in order, the line itself if it is a reference line and then the
    substituted line if the pattern finds a match in it, the line as it is
    otherwise.  No line is dropped and the order is kept; the log is the
    old log with more text behind it. *)
Theorem normalize_pass_closed_form (ref_match : string → bool) :
  ∀ search replace t file lines new_lines curr_verse log,
    compile_template (groups_of search) replace = Ok t →
    ∃ log',
      normalize_lines ref_match search replace file lines new_lines curr_verse log
      = Ok (new_lines ++ concat (map (pass_line ref_match search t) lines), log')
      ∧ log_extends log log'.
Proof.
  intros search replace t file lines new_lines curr_verse log Ht.
  destruct (normalize_lines_run ref_match search replace t file lines Ht
              new_lines curr_verse log) as [log' Hrun].
  exists log'. split; [exact Hrun |]. by eapply normalize_lines_log.
Qed.

Lemma normalize_pass_closed_form_witness :
  ∃ log',
    normalize_lines ref_string_match r_fused "\g<1> =" "20.Psalms.par"
                    ["Ps 18:40"; "A'=B" +:+ tab +:+ "C"; EmptyString] ["kept"]
                    EmptyString EmptyString
    = Ok (["kept"] ++ concat (map (pass_line ref_string_match r_fused t_fused)
                                  ["Ps 18:40"; "A'=B" +:+ tab +:+ "C"; EmptyString]), log')
    ∧ log_extends EmptyString log'.
Proof. apply normalize_pass_closed_form. reflexivity. Defined.

Lemma sub_fused_space_fused s :
  sub_go r_fused t_fused 0 s = space_fused s
  ∧ (starts_with_equals s = true →
     String "=" (sub_go r_fused t_fused 1 s) = space_fused s).
Proof.
  induction s as [| c s [IH0 IH1]]; [done |]. split.
  - rewrite sub_go_cons, match_fused. cbn [space_fused].
    destruct (bool_decide (c ∈ fused_set) && starts_with_equals s) eqn:Hm.
    + apply andb_true_iff in Hm as [_ Hs].
      change (expand t_fused [chr c] +:+ sub_go r_fused t_fused (length r_fused - 1) s)
        with (String c (String " " (String "=" (sub_go r_fused t_fused 1 s)))).
      by rewrite IH1.
    + by rewrite IH0.
  - cbn [starts_with_equals]. intros Hc. apply bool_decide_eq_true_1 in Hc. subst c.
    cbn [sub_go space_fused]. rewrite IH0. reflexivity.
Qed.

(** X13.  What the two normalizations of the program do to a line.  The
    first replaces every tilde by a caret and nothing else, so the line
    keeps its length.  The second puts one space before every equals sign
    that directly follows an apostrophe or a caret, and nothing else.
    Neither raises. *)
Theorem normalizations_as_functions :
  ∀ line,
    (search ← re_compile "~"; sub search "^" line) = Ok (str_map tilde_to_caret line)
    ∧ String.length (str_map tilde_to_caret line) = String.length line
    ∧ (search ← re_compile "(['^])="; sub search "\g<1> =" line) = Ok (space_fused line).
Proof.
  destruct normalizations_compiled as (Hr1 & Ht1 & Hr2 & Ht2).
  intros line. split; [| split].
  - rewrite Hr1, result_bind_Ok, (sub_compiled _ _ t_tilde) by done. f_equal.
    induction line as [| c line IH]; [done |].
    rewrite sub_go_cons, match_tilde. cbn [str_map]. unfold tilde_to_caret at 1.
    case_bool_decide as Hc.
    + rewrite decide_True by done.
      change (String "^" (sub_go r_tilde t_tilde 0 line)
              = String "^" (str_map tilde_to_caret line)).
      by rewrite IH.
    + rewrite decide_False by done. by rewrite IH.
  - induction line as [| c line IH]; [done |]. simpl. by rewrite IH.
  - rewrite Hr2, result_bind_Ok, (sub_compiled _ _ t_fused) by done. f_equal.
    apply sub_fused_space_fused.
Qed.

(** ** The whole pipeline *)

Lemma orphan_files_keeps (ref_match : string → bool) items :
  ∀ file2lines cv log file2lines' cv' log',
    (∀ fl, fl ∈ items → fl.1 ∈ file2lines.*1) →
    orphan_files ref_match items file2lines cv log = Ok (file2lines', cv', log') →
    file2lines'.*1 = file2lines.*1 ∧ log_extends log log'.
Proof.
  induction items as [| [file lines] items IH];
    intros file2lines cv log file2lines' cv' log' Hkeys Hrun.
  - simpl in Hrun. injection Hrun as <- <- <-. split; [done | apply log_extends_refl].
  - cbn [orphan_files] in Hrun.
    pose proof (scan_lines_post ref_match file lines 0 [] cv log) as Hpost.
    destruct (scan_lines ref_match file lines 0 [] cv log) as [[[out cv1] log1] | ?];
      [| done].
    rewrite result_bind_Ok in Hrun. simpl in Hpost. destruct Hpost as (Hlog1 & _).
    assert (file ∈ file2lines.*1) as Hfile.
    { apply (Hkeys (file, lines)). apply elem_of_cons. by left. }
    apply IH in Hrun as [Hk Hl].
    + rewrite dict_set_keys in Hk by done. split; [done |]. by eapply log_extends_trans.
    + intros fl Hfl. rewrite dict_set_keys by done. apply Hkeys, elem_of_cons. by right.
Qed.

Lemma patch_orphans_keeps (ref_match : string → bool) file2lines log file2lines' log' :
  patch_orphans ref_match file2lines log = Ok (file2lines', log') →
  file2lines'.*1 = file2lines.*1 ∧ log_extends log log'.
Proof.
  unfold patch_orphans.
  destruct (orphan_files ref_match file2lines file2lines None _)
    as [[[d1 cv1] log1] | ?] eqn:Hrun; [| done].
  rewrite result_bind_Ok. intros [= <- <-].
  apply orphan_files_keeps in Hrun as [Hk Hl].
  - split; [done |]. eapply log_extends_trans; [apply log_extends_report |].
    eapply log_extends_trans; [exact Hl | apply log_extends_report].
  - intros fl Hfl. apply list_elem_of_fmap. by exists fl.
Qed.

Lemma normalize_files_keeps (ref_match : string → bool) search replace items :
  ∀ file2lines log file2lines' log',
    (∀ fl, fl ∈ items → fl.1 ∈ file2lines.*1) →
    normalize_files ref_match search replace items file2lines log = Ok (file2lines', log') →
    file2lines'.*1 = file2lines.*1 ∧ log_extends log log'.
Proof.
  induction items as [| [file lines] items IH];
    intros file2lines log file2lines' log' Hkeys Hrun.
  - simpl in Hrun. injection Hrun as <- <-. split; [done | apply log_extends_refl].
  - cbn [normalize_files] in Hrun.
    destruct (normalize_lines ref_match search replace file lines [] EmptyString log)
      as [[out log1] | ?] eqn:Hpass; [| done].
    rewrite result_bind_Ok in Hrun. apply normalize_lines_log in Hpass.
    assert (file ∈ file2lines.*1) as Hfile.
    { apply (Hkeys (file, lines)). apply elem_of_cons. by left. }
    apply IH in Hrun as [Hk Hl].
    + rewrite dict_set_keys in Hk by done. split; [done |]. by eapply log_extends_trans.
    + intros fl Hfl. rewrite dict_set_keys by done. apply Hkeys, elem_of_cons. by right.
Qed.

Lemma normalize_all_keeps (ref_match : string → bool) patterns :
  ∀ file2lines log file2lines' log',
    normalize_all ref_match patterns file2lines log = Ok (file2lines', log') →
    file2lines'.*1 = file2lines.*1 ∧ log_extends log log'.
Proof.
  induction patterns as [| [search replace] patterns IH];
    intros file2lines log file2lines' log' Hrun.
  - simpl in Hrun. injection Hrun as <- <-. split; [done | apply log_extends_refl].
  - cbn [normalize_all] in Hrun.
    destruct (re_compile search) as [r | ?]; [| done]. rewrite result_bind_Ok in Hrun.
    destruct (normalize_files ref_match r replace file2lines file2lines log)
      as [[d1 log1] | ?] eqn:Hpass; [| done].
    rewrite result_bind_Ok in Hrun.
    apply normalize_files_keeps in Hpass as [Hk1 Hl1].
    + apply IH in Hrun as [Hk Hl]. split; [congruence | by eapply log_extends_trans].
    + intros fl Hfl. apply list_elem_of_fmap. by exists fl.
Qed.

(** A run of [patch] that returns, stage by stage. *)
Lemma patch_stages (ref_match : string → bool) now output_dir file2lines file2lines' log :
  patch ref_match now output_dir file2lines = Ok (file2lines', log) →
  ∃ d1 log1 d2 log2 d3 log3 log4,
    apply_edits edits EmptyString file2lines
      (report (nl +:+ "applying bulk manual edits..." +:+ nl) (EmptyString +:+ now +:+ nl))
    = Ok (d1, log1)
    ∧ other_edits d1 log1 = Ok (d2, log2)
    ∧ patch_orphans ref_match d2 log2 = Ok (d3, log3)
    ∧ bulk_normalize ref_match d3 log3 = Ok (file2lines', log4)
    ∧ log = report ("writing patched data to " +:+ output_dir) log4.
Proof.
  unfold patch. cbv zeta.
  destruct (apply_edits edits EmptyString file2lines _) as [[d1 log1] | ?] eqn:H1; [| done].
  rewrite result_bind_Ok.
  destruct (other_edits d1 log1) as [[d2 log2] | ?] eqn:H2; [| done].
  rewrite result_bind_Ok.
  destruct (patch_orphans ref_match d2 log2) as [[d3 log3] | ?] eqn:H3; [| done].
  rewrite result_bind_Ok.
  destruct (bulk_normalize ref_match d3 log3) as [[d4 log4] | ?] eqn:H4; [| done].
  rewrite result_bind_Ok. intros [= <- <-].
  by exists d1, log1, d2, log2, d3, log3, log4.
Qed.

Lemma patch_keys (ref_match : string → bool) now output_dir file2lines file2lines' log :
  patch ref_match now output_dir file2lines = Ok (file2lines', log) →
  file2lines'.*1 = file2lines.*1.
Proof.
  intros Hrun.
  apply patch_stages in Hrun as (d1 & log1 & d2 & log2 & d3 & log3 & log4 & H1 & H2 & H3 & H4 & _).
  apply apply_edits_same_shape, same_shape_keys in H1.
  apply other_edits_keeps in H2 as [H2 _]. apply patch_orphans_keeps in H3 as [H3 _].
  unfold bulk_normalize in H4. apply normalize_all_keeps in H4 as [H4 _]. congruence.
Qed.

(** X14.  [patch] neither adds nor drops a file, and its log only grows.
    When it returns, the dictionary it hands to the writer has the file
    names of the dictionary it was given, in the same order, and the text
    of the log starts with the timestamp line and the heading of the
    manual edits. *)
Theorem patch_keeps_file_names (ref_match : string → bool) :
  ∀ now output_dir file2lines file2lines' log,
    patch ref_match now output_dir file2lines = Ok (file2lines', log) →
    file2lines'.*1 = file2lines.*1
    ∧ log_extends (now +:+ nl +:+ nl +:+ "applying bulk manual edits..." +:+ nl +:+ nl) log.
Proof.
  intros now output_dir file2lines file2lines' log Hrun.
  split; [by eapply patch_keys |].
  apply patch_stages in Hrun as (d1 & log1 & d2 & log2 & d3 & log3 & log4 & H1 & H2 & H3 & H4 & ->).
  apply apply_edits_log in H1. apply other_edits_keeps in H2 as [_ H2].
  apply patch_orphans_keeps in H3 as [_ H3].
  unfold bulk_normalize in H4. apply normalize_all_keeps in H4 as [_ H4].
  apply log_extends_report_r in H4.
  eapply log_extends_trans; [| apply log_extends_report].
  eapply log_extends_trans; [| exact H4].
  eapply log_extends_trans; [| exact H3].
  eapply log_extends_trans; [| exact H2].
  eapply log_extends_trans; [| exact H1].
  unfold report. rewrite !str_app_assoc. apply log_extends_refl.
Qed.

(** ** A run in which nothing is confirmed and nothing is an orphan *)

Lemma edits_stale_run pending :
  ∀ file file2lines log,
    edits_stale pending file file2lines = true →
    ∃ log', apply_edits pending file file2lines log = Ok (file2lines, log').
Proof.
  induction pending as [| [[[f ln] re_confirm] redaction] pending IH];
    intros file file2lines log Hstale.
  - by exists log.
  - cbn [edits_stale apply_edits] in *. cbv zeta in *.
    destruct (dict_get (str_or f file) file2lines) as [lines | ?]; [| done].
    rewrite result_bind_Ok.
    destruct (py_get lines ln) as [old_line | ?]; [| done]. rewrite result_bind_Ok.
    destruct (re_findall re_confirm old_line) as [[| m found] | ?]; [| done | done].
    rewrite result_bind_Ok. cbn [nonempty]. by apply IH.
Qed.

Lemma anchor_differs_get lines i expected :
  anchor_differs lines i expected = true →
  ∃ anchor, py_get lines i = Ok anchor ∧ anchor ≠ expected.
Proof.
  unfold anchor_differs. destruct (py_get lines i) as [anchor | ?]; [| done].
  intros H. apply bool_decide_eq_true in H. by exists anchor.
Qed.

Lemma anchors_stale_run file2lines log :
  anchors_stale file2lines = true →
  ∃ log', other_edits file2lines log = Ok (file2lines, log').
Proof.
  unfold anchors_stale.
  destruct (dict_get "02.Exodus.par" file2lines) as [exod | ?] eqn:Hexod; [| done].
  destruct (dict_get "20.Psalms.par" file2lines) as [pss | ?] eqn:Hpss; [| done].
  intros H. apply andb_true_iff in H as [H H3]. apply andb_true_iff in H as [H1 H2].
  apply anchor_differs_get in H1 as (a1 & E1 & N1).
  apply anchor_differs_get in H2 as (a2 & E2 & N2).
  apply anchor_differs_get in H3 as (a3 & E3 & N3).
  eexists. unfold other_edits, repair_exodus.
  rewrite Hexod, result_bind_Ok, E1, result_bind_Ok, decide_False by done.
  rewrite result_bind_Ok. cbv beta iota. unfold repair_psalms, repair_ps_68_31.
  rewrite Hpss, result_bind_Ok, E2, result_bind_Ok, decide_False by done.
  rewrite result_bind_Ok. cbv beta iota. unfold repair_ps_18_40.
  rewrite E3, result_bind_Ok, decide_False by done. reflexivity.
Qed.

Lemma on_files_keys f (file2lines : corpus) : (on_files f file2lines).*1 = file2lines.*1.
Proof.
  unfold on_files. induction file2lines as [| [k v] d IH]; [done |].
  cbn. f_equal. exact IH.
Qed.

(** One pass over the files of a dictionary with distinct keys: every
    file gets the lines the pass emits for it. *)
Lemma normalize_files_run (ref_match : string → bool) search replace t items :
  compile_template (groups_of search) replace = Ok t →
  ∀ visited log,
    NoDup (visited ++ items).*1 →
    ∃ log',
      normalize_files ref_match search replace items (visited ++ items) log
      = Ok (visited
              ++ on_files (fun lines => concat (map (pass_line ref_match search t) lines)) items,
            log').
Proof.
  intros Ht. induction items as [| [file lines] items IH]; intros visited log Hdup.
  - by exists log.
  - cbn [normalize_files].
    destruct (normalize_lines_run ref_match search replace t file lines Ht
                [] EmptyString log) as [log1 Hpass].
    rewrite Hpass, result_bind_Ok, app_nil_l.
    assert (file ∉ visited.*1) as Hfresh.
    { rewrite fmap_app in Hdup. apply NoDup_app in Hdup as (_ & Hdisj & _).
      intros Hin. apply (Hdisj file Hin). rewrite fmap_cons. apply elem_of_cons. by left. }
    rewrite dict_set_middle by done.
    set (out := concat (map (pass_line ref_match search t) lines)).
    destruct (IH (visited ++ [(file, out)]) log1) as [log' Hrun].
    { rewrite <- app_assoc. rewrite fmap_app, fmap_cons in *. exact Hdup. }
    rewrite <- !app_assoc in Hrun. cbn [app] in Hrun. exists log'. rewrite Hrun.
    reflexivity.
Qed.

(** The stage on a dictionary with distinct keys. *)
Lemma bulk_normalize_run (ref_match : string → bool) file2lines log :
  NoDup file2lines.*1 →
  ∃ log',
    bulk_normalize ref_match file2lines log
    = Ok (on_files (normalize_file ref_match) file2lines, log').
Proof.
  intros Hdup. destruct normalizations_compiled as (Hr1 & Ht1 & Hr2 & Ht2).
  unfold bulk_normalize, normalizations. cbn [normalize_all].
  rewrite Hr1, result_bind_Ok.
  destruct (normalize_files_run ref_match r_tilde "^" t_tilde file2lines Ht1 []
              (report (nl +:+ "Making various bulk regex normalizations..." +:+ nl) log))
    as [log1 H1]; [done |].
  rewrite !app_nil_l in H1. rewrite H1, result_bind_Ok. cbv beta iota.
  rewrite Hr2, result_bind_Ok.
  set (d1 := on_files _ file2lines) in *.
  destruct (normalize_files_run ref_match r_fused "\g<1> =" t_fused d1 Ht2 [] log1)
    as [log2 H2].
  { rewrite app_nil_l. subst d1. by rewrite on_files_keys. }
  rewrite !app_nil_l in H2. rewrite H2, result_bind_Ok. cbv beta iota.
  exists log2. do 2 f_equal. subst d1. unfold on_files, normalize_file.
  rewrite map_map. reflexivity.
Qed.

(** A run of [patch] on a corpus on which no manual edit is confirmed, no
    anchor of a block repair is found and no line is an orphan: only the
    normalizer changes the files. *)
Lemma patch_stale_run (ref_match : string → bool) now output_dir file2lines :
  edits_stale edits EmptyString file2lines = true →
  anchors_stale file2lines = true →
  NoDup file2lines.*1 →
  Forall (fun fl : string * list string =>
            Forall (fun l => is_orphan ref_match l = false) fl.2) file2lines →
  ∃ log,
    patch ref_match now output_dir file2lines
    = Ok (on_files (normalize_file ref_match) file2lines, log).
Proof.
  intros Hedits Hanchors Hdup Hlines. unfold patch. cbv zeta.
  destruct (edits_stale_run edits EmptyString file2lines
              (report (nl +:+ "applying bulk manual edits..." +:+ nl)
                      (EmptyString +:+ now +:+ nl)) Hedits) as [log1 H1].
  rewrite H1, result_bind_Ok. cbv beta iota.
  destruct (anchors_stale_run file2lines log1 Hanchors) as [log2 H2].
  rewrite H2, result_bind_Ok. cbv beta iota.
  unfold patch_orphans. cbv zeta.
  destruct (orphan_files_no_orphans ref_match file2lines [] None
              (report "patching orphaned lines (see code for description)..." log2))
    as [cv' H3]; [done | done |].
  rewrite !app_nil_l in H3. rewrite H3, !result_bind_Ok. cbv beta iota.
  destruct (bulk_normalize_run ref_match file2lines
              (report (tab +:+ "done")
                 (report "patching orphaned lines (see code for description)..." log2)) Hdup)
    as [log4 H4].
  rewrite H4, result_bind_Ok. by eexists.
Qed.

(** The example corpus is such a corpus. *)
Lemma corpus_example_runs now output_dir :
  ∃ log,
    patch ref_string_match now output_dir corpus_example
    = Ok (on_files (normalize_file ref_string_match) corpus_example, log).
Proof.
  apply patch_stale_run.
  - vm_compute. reflexivity.
  - vm_compute. reflexivity.
  - apply (bool_decide_unpack _). vm_compute. reflexivity.
  - apply (bool_decide_unpack _). vm_compute. reflexivity.
Qed.

Lemma patch_keeps_file_names_witness :
  ∃ file2lines' log,
    patch ref_string_match "2021-03-01 12:00:00" "patched" corpus_example
    = Ok (file2lines', log)
    ∧ file2lines'.*1 = corpus_example.*1
    ∧ log_extends ("2021-03-01 12:00:00" +:+ nl +:+ nl +:+ "applying bulk manual edits..."
                   +:+ nl +:+ nl) log.
Proof.
  destruct (corpus_example_runs "2021-03-01 12:00:00" "patched") as [log Hrun].
  exists (on_files (normalize_file ref_string_match) corpus_example), log.
  split; [exact Hrun |].
  exact (patch_keeps_file_names ref_string_match _ _ _ _ _ Hrun).
Defined.

(** ** What a run that returns has read *)

Lemma py_get_Ok_bounds {A} (l : list A) (i : Z) (x : A) :
  py_get l i = Ok x → (- Z.of_nat (length l) ≤ i < Z.of_nat (length l))%Z.
Proof.
  intros Hget.
  destruct (decide (- Z.of_nat (length l) ≤ i < Z.of_nat (length l))%Z) as [| Hout]; [done |].
  apply py_get_out_of_bounds in Hout. congruence.
Qed.

Lemma same_shape_dict_get (d d' : corpus) (k : string) (l' : list string) :
  same_shape d d' → dict_get k d' = Ok l' →
  ∃ l, dict_get k d = Ok l ∧ length l = length l'.
Proof.
  induction 1 as [| [k1 l1] [k2 l2] d d' [Hk Hlen] _ IH]; [done |].
  simpl in Hk, Hlen. subst k2. simpl.
  destruct (decide (k = k1)); [| exact IH].
  intros [= <-]. by exists l1.
Qed.

Lemma apply_edits_targets pending :
  ∀ file file2lines log file2lines' log',
    apply_edits pending file file2lines log = Ok (file2lines', log') →
    ∀ name ln, (name, ln) ∈ edit_targets pending file →
      ∃ lines, dict_get name file2lines = Ok lines
               ∧ (- Z.of_nat (length lines) ≤ ln < Z.of_nat (length lines))%Z.
Proof.
  induction pending as [| [[[f i] re_confirm] redaction] pending IH];
    intros file file2lines log file2lines' log' Hrun name ln Hin.
  - by apply elem_of_nil in Hin.
  - cbn [edit_targets] in Hin. cbv zeta in Hin.
    cbn [apply_edits] in Hrun. cbv zeta in Hrun.
    destruct (dict_get (str_or f file) file2lines) as [lines | ?] eqn:Hfile; [| done].
    rewrite result_bind_Ok in Hrun.
    destruct (py_get lines i) as [old_line | ?] eqn:Hline; [| done].
    rewrite result_bind_Ok in Hrun.
    destruct (re_findall re_confirm old_line) as [found | ?]; [| done].
    rewrite result_bind_Ok in Hrun.
    apply elem_of_cons in Hin as [Heq | Hin].
    { injection Heq as -> ->. exists lines. split; [done |]. by eapply py_get_Ok_bounds. }
    destruct (nonempty found).
    + destruct (py_set lines i redaction) as [lines' | ?] eqn:Hset; [| done].
      rewrite result_bind_Ok in Hrun.
      destruct (IH _ _ _ _ _ Hrun name ln Hin) as (l1 & Hl1 & Hb).
      destruct (same_shape_dict_get file2lines
                  (dict_set (str_or f file) lines' file2lines) name l1)
        as (l0 & Hl0 & Hlen); [| done |].
      { eapply dict_set_same_shape; [done |]. by eapply py_set_length. }
      exists l0. split; [done |]. by rewrite Hlen.
    + exact (IH _ _ _ _ _ Hrun name ln Hin).
Qed.

Lemma repair_exodus_reads file2lines log file2lines' log' :
  repair_exodus file2lines log = Ok (file2lines', log') →
  (∃ exod anchor,
     dict_get "02.Exodus.par" file2lines = Ok exod ∧ py_get exod 16284 = Ok anchor)
  ∧ dict_get "20.Psalms.par" file2lines' = dict_get "20.Psalms.par" file2lines.
Proof.
  unfold repair_exodus.
  destruct (dict_get "02.Exodus.par" file2lines) as [exod | ?] eqn:Hexod; [| done].
  rewrite result_bind_Ok.
  destruct (py_get exod 16284) as [anchor | ?] eqn:E; [| done]. rewrite result_bind_Ok.
  destruct (decide (anchor = "Exod 1:10")).
  - destruct (py_get exod 16285) as [kept | ?]; [| done]. rewrite result_bind_Ok.
    cbv zeta. intros [= <- <-]. split; [by exists exod, anchor |].
    by apply dict_get_set_ne.
  - intros [= <- <-]. split; [by exists exod, anchor | done].
Qed.

Lemma repair_psalms_reads file2lines log file2lines' log' :
  repair_psalms file2lines log = Ok (file2lines', log') →
  ∃ pss a1 a2,
    dict_get "20.Psalms.par" file2lines = Ok pss
    ∧ py_get pss 10848 = Ok a1 ∧ py_get pss 2459 = Ok a2.
Proof.
  unfold repair_psalms.
  destruct (dict_get "20.Psalms.par" file2lines) as [pss | ?] eqn:Hpss; [| done].
  rewrite result_bind_Ok. unfold repair_ps_68_31, repair_ps_18_40.
  destruct (py_get pss 10848) as [a1 | ?] eqn:E1; [| done]. rewrite !result_bind_Ok.
  destruct (py_get pss 2459) as [a2 | ?] eqn:E2.
  - intros _. by exists pss, a1, a2.
  - destruct (decide (a1 = "MTR")); [| done].
    destruct (py_get pss 10849) as [l1 | ?]; [| done]. rewrite result_bind_Ok.
    destruct (py_get pss 10850) as [l2 | ?]; done.
Qed.

(** X15.  [patch] returns only on a corpus that has every line the manual
    edits and the block repairs look at: for each edit of the table, the
    file it goes to (an empty file name meaning the file of the edit
    before) is in the corpus as it was read, and has more lines than the
    line number of the edit; the same for Exodus line 16284 and Psalms
    lines 10848 and 2459.  On any other corpus the run ends with an
    exception, and nothing is written. *)
Theorem patch_requires_targeted_lines (ref_match : string → bool) :
  ∀ now output_dir file2lines file2lines' log,
    patch ref_match now output_dir file2lines = Ok (file2lines', log) →
    ∀ name ln,
      (name, ln) ∈ edit_targets edits EmptyString ++ anchor_targets →
      ∃ lines, dict_get name file2lines = Ok lines ∧ (ln < Z.of_nat (length lines))%Z.
Proof.
  intros now output_dir file2lines file2lines' log Hrun name ln Hin.
  apply patch_stages in Hrun as (d1 & log1 & d2 & log2 & d3 & log3 & log4 & H1 & H2 & _).
  apply elem_of_app in Hin as [Hin | Hin].
  - destruct (apply_edits_targets _ _ _ _ _ _ H1 name ln Hin) as (lines & Hl & Hb).
    exists lines. split; [done | lia].
  - assert (∃ lines1, dict_get name d1 = Ok lines1 ∧ (ln < Z.of_nat (length lines1))%Z)
      as (lines1 & Hl1 & Hb).
    { unfold other_edits in H2.
      destruct (repair_exodus d1 log1) as [[dx logx] | ?] eqn:Hx; [| done].
      rewrite result_bind_Ok in H2. cbv beta iota in H2.
      apply repair_exodus_reads in Hx as [(exod & a0 & Hexod & E0) Hsame].
      apply repair_psalms_reads in H2 as (pss & a1 & a2 & Hpss & E1 & E2).
      rewrite Hsame in Hpss.
      apply py_get_Ok_bounds in E0. apply py_get_Ok_bounds in E1.
      apply py_get_Ok_bounds in E2.
      unfold anchor_targets in Hin.
      apply elem_of_cons in Hin as [Heq | Hin];
        [injection Heq as -> ->; exists exod; split; [done | lia] |].
      apply elem_of_cons in Hin as [Heq | Hin];
        [injection Heq as -> ->; exists pss; split; [done | lia] |].
      apply elem_of_cons in Hin as [Heq | Hin];
        [injection Heq as -> ->; exists pss; split; [done | lia] |].
      by apply elem_of_nil in Hin. }
    apply apply_edits_same_shape in H1.
    destruct (same_shape_dict_get _ _ _ _ H1 Hl1) as (l0 & Hl0 & Hlen).
    exists l0. split; [done |]. by rewrite Hlen.
Qed.

Lemma patch_requires_targeted_lines_witness :
  ∃ lines,
    dict_get "13.1Kings.par" corpus_example = Ok lines
    ∧ (15936 < Z.of_nat (length lines))%Z.
Proof.
  destruct (corpus_example_runs "2021-03-01 12:00:00" "patched") as [log Hrun].
  apply (patch_requires_targeted_lines ref_string_match _ _ _ _ _ Hrun).
  apply (bool_decide_unpack _). vm_compute. reflexivity.
Defined.

(** ** The normalizer stage as a whole *)

(** X16.  The normalizer stage never raises on a dictionary (the file
    names are distinct), and what it returns is known line by line: every
    file keeps its name and its place, and its lines are those of the
    tilde pass run over the file and then the pass for the fused equals
    sign run over the lines the first pass emitted, reference lines doubled
    by each pass.  The log is the old log with more text behind it. *)
Theorem normalizer_stage_closed_form (ref_match : string → bool) :
  ∀ file2lines log,
    NoDup file2lines.*1 →
    ∃ log',
      bulk_normalize ref_match file2lines log
      = Ok (on_files (normalize_file ref_match) file2lines, log')
      ∧ log_extends log log'.
Proof.
  intros file2lines log Hdup.
  destruct (bulk_normalize_run ref_match file2lines log Hdup) as [log' Hrun].
  exists log'. split; [done |].
  unfold bulk_normalize in Hrun. apply normalize_all_keeps in Hrun as [_ Hlog].
  by apply log_extends_report_r in Hlog.
Qed.

Lemma normalizer_stage_closed_form_witness :
  ∃ log',
    bulk_normalize ref_string_match
      [("20.Psalms.par", ["Ps 18:40"; "A~B'=C" +:+ tab +:+ "D"]);
       ("02.Exodus.par", ["W~X"; EmptyString])] EmptyString
    = Ok (on_files (normalize_file ref_string_match)
            [("20.Psalms.par", ["Ps 18:40"; "A~B'=C" +:+ tab +:+ "D"]);
             ("02.Exodus.par", ["W~X"; EmptyString])], log')
    ∧ log_extends EmptyString log'.
Proof.
  apply normalizer_stage_closed_form. apply (bool_decide_unpack _). reflexivity.
Defined.

(** ** Reference lines in the output of the normalizer *)







(** ** From the files read to the files written *)

Lemma dict_set_keys_fresh {V} (k : string) (v : V) (d : dict V) :
  k ∉ d.*1 → (dict_set k v d).*1 = d.*1 ++ [k].
Proof.
  induction d as [| [k' v'] d IH]; [done |]. rewrite fmap_cons. cbn [fst].
  intros Hk. apply not_elem_of_cons in Hk as [Hne Hk].
  cbn [dict_set]. rewrite decide_False by done. rewrite fmap_cons. cbn [fst].
  by rewrite IH.
Qed.

Lemma load_files_keys files :
  ∀ file2lines : corpus,
    NoDup (file2lines.*1 ++ files.*1) →
    (load_files files file2lines).*1 = file2lines.*1 ++ files.*1.
Proof.
  induction files as [| [name text] files IH]; intros file2lines Hdup.
  - simpl. by rewrite app_nil_r.
  - cbn [load_files]. rewrite fmap_cons in *. cbn [fst] in *.
    assert (name ∉ file2lines.*1) as Hfresh.
    { apply NoDup_app in Hdup as (_ & Hdisj & _).
      intros Hin. apply (Hdisj name Hin). apply elem_of_cons. by left. }
    rewrite IH; rewrite dict_set_keys_fresh by done; rewrite <- app_assoc; done.
Qed.

Lemma export_files_keys (file2lines : corpus) : (export_files file2lines).*1 = file2lines.*1.
Proof.
  unfold export_files. induction file2lines as [| [k v] d IH]; [done |].
  cbn. f_equal. exact IH.
Qed.

(** X17.  The files written have the names of the files read, in the
    order in which they were read: when [patch] returns on the files of a
    directory (the names of a listing are distinct), it writes one file
    for each file it read and under the same name. *)
Theorem patch_files_mirrors_names (ref_match : string → bool) :
  ∀ now output_dir files written log,
    NoDup files.*1 →
    patch_files ref_match now output_dir files = Ok (written, log) →
    written.*1 = files.*1.
Proof.
  intros now output_dir files written log Hdup. unfold patch_files.
  destruct (patch ref_match now output_dir (load_files files []))
    as [[d' log'] | ?] eqn:Hrun; [| done].
  rewrite result_bind_Ok. intros [= <- <-].
  rewrite export_files_keys. apply patch_keys in Hrun. rewrite Hrun.
  by rewrite load_files_keys.
Qed.

(** Reading the texts written for the example corpus gives the example
    corpus. *)
Lemma corpus_example_reloaded : load_files (export_files corpus_example) [] = corpus_example.
Proof. vm_compute. reflexivity. Qed.

Lemma patch_files_mirrors_names_witness :
  ∃ written log,
    patch_files ref_string_match "2021-03-01 12:00:00" "patched"
                (export_files corpus_example) = Ok (written, log)
    ∧ written.*1 = (export_files corpus_example).*1.
Proof.
  destruct (corpus_example_runs "2021-03-01 12:00:00" "patched") as [log Hrun].
  assert (patch_files ref_string_match "2021-03-01 12:00:00" "patched"
                      (export_files corpus_example)
          = Ok (export_files (on_files (normalize_file ref_string_match) corpus_example),
                log)) as Hfiles.
  { unfold patch_files. rewrite corpus_example_reloaded, Hrun. reflexivity. }
  exists (export_files (on_files (normalize_file ref_string_match) corpus_example)), log.
  split; [exact Hfiles |].
  apply (patch_files_mirrors_names ref_string_match _ _ _ _ _) with (2 := Hfiles).
  apply (bool_decide_unpack _). vm_compute. reflexivity.
Defined.
